(** * nx project graph: verification of the graph build and the plugin
    compatibility probe

    Sources embedded here:
    - [packages/nx/src/project-graph/build-project-graph.ts]
    - [packages/nx/src/command-line/import/utils/check-compatible-with-plugins.ts]
      together with its test file.

    Conventions.  A JavaScript object used as a dictionary whose enumeration
    order is observable is an association list of its own properties in
    insertion order (its keys are provider names, never array indices);
    reading a property of an object literal also finds the members it
    inherits from [Object.prototype].  A [Set<string>] is a duplicate-free
    list in insertion order; other dictionaries are finite maps.  A call that can throw, or an awaited promise that can reject,
    returns an [Outcome].  The order in which concurrently awaited provider
    calls settle is an explicit argument, the list of provider positions in
    settlement order; the continuation of each call runs without interruption,
    as it contains no further [await]. *)

From stdpp Require Import base option list strings gmap.

Open Scope string_scope.
Open Scope list_scope.

(** ** Results of fallible calls *)

Inductive Outcome (E A : Type) : Type :=
| Returned (a : A)
| Thrown (e : E).
Arguments Returned {E A} a.
Arguments Thrown {E A} e.

(** ** JavaScript truthiness of an optional string: [undefined], [null] and
    the empty string are falsy. *)

Definition Boolean (s : option string) : bool :=
  match s with
  | Some s => negb (String.eqb s "")
  | None => false
  end.

(** ** [Set<string>] and string-keyed objects, both in insertion order *)

Module JS.

Definition StrSet := list string.

(** [s.add(x)] *)
Definition add (s : StrSet) (x : string) : StrSet :=
  if decide (x ∈ s) then s else s ++ [x].

(** [xs.forEach(x => s.add(x))] *)
Definition add_all (s : StrSet) (xs : list string) : StrSet :=
  foldl add s xs.

Definition Obj (V : Type) := list (string * V).

(** [o[k]] *)
Fixpoint get {V} (o : Obj V) (k : string) : option V :=
  match o with
  | [] => None
  | (k', v) :: o' => if decide (k' = k) then Some v else get o' k
  end.

(** [o[k] = v]: an existing key keeps its position, a new key goes last. *)
Fixpoint set {V} (o : Obj V) (k : string) (v : V) : Obj V :=
  match o with
  | [] => [(k, v)]
  | (k', v') :: o' =>
      if decide (k' = k) then (k, v) :: o' else (k', v') :: set o' k v
  end.

Definition keys {V} (o : Obj V) : list string := o.*1.

(** The members an object literal inherits from [Object.prototype].  For
    these names [o[k]] is neither [undefined] nor [null] although [o] has no
    such property of its own; none of them has an [add] method. *)
Definition inherited : list string :=
  [ "constructor"; "hasOwnProperty"; "isPrototypeOf"; "propertyIsEnumerable";
    "toLocaleString"; "toString"; "valueOf"; "__proto__";
    "__defineGetter__"; "__defineSetter__";
    "__lookupGetter__"; "__lookupSetter__" ].

(** What reading [o[k]] finds when [o] was created as [{}]. *)
Inductive Found (V : Type) : Type :=
| Own (v : V)
| Inherited
| Missing.
Arguments Own {V} v.
Arguments Inherited {V}.
Arguments Missing {V}.

Definition read {V} (o : Obj V) (k : string) : Found V :=
  match get o k with
  | Some v => Own v
  | None => if decide (k ∈ inherited) then Inherited else Missing
  end.

(** [xs.forEach(x => ...)] for a callback that updates an accumulator and
    can throw: the first throw ends the loop. *)
Fixpoint forEach {E A B} (body : A → B → Outcome E A) (acc : A) (xs : list B)
  : Outcome E A :=
  match xs with
  | [] => Returned acc
  | x :: xs =>
      match body acc x with
      | Returned acc => forEach body acc xs
      | Thrown e => Thrown e
      end
  end.

End JS.

(** ** Workspace configuration ([nx.json])

    A provider descriptor is a bare provider name or a structured record.
    Fields this development never inspects are kept as their JSON text. *)

Record ExpandedPluginConfiguration : Type := {
  plugin : string;
  options : option string;
  include : option (list string);
  exclude : option (list string);
}.

Inductive PluginConfiguration : Type :=
| PluginString (name : string)
| PluginObject (cfg : ExpandedPluginConfiguration).

Record NxJsonConfiguration : Type := {
  plugins : option (list PluginConfiguration);
  nxJsonRest : string;
}.

#[global] Instance ExpandedPluginConfiguration_eq_dec :
  EqDecision ExpandedPluginConfiguration.
Proof. solve_decision. Defined.
#[global] Instance PluginConfiguration_eq_dec : EqDecision PluginConfiguration.
Proof. solve_decision. Defined.
#[global] Instance NxJsonConfiguration_eq_dec : EqDecision NxJsonConfiguration.
Proof. solve_decision. Defined.

(** * The compatibility probe ([check-compatible-with-plugins.ts]) *)

Module Probe.

(** The error kinds of [error-types] that the probe meets, with the fields
    its code and its tests use.  A per-file sub-error of an
    [AggregateCreateNodesError] is a pair of a file (possibly [null]) and a
    cause. *)
Inductive ConfigError : Type :=
| ProjectsWithNoNameError (roots : list string)
| AggregateCreateNodesError
    (errors : option (list (option string * string)))
    (pluginName : option string)
| MergeNodesError (file : string) (pluginName : string) (cause : string)
| OtherConfigError (message : string).

(** What [retrieveProjectConfigurations] can reject with. *)
Inductive RetrieveError : Type :=
| ProjectConfigurationsError (errors : option (list ConfigError))
| OtherRetrieveError (message : string).

(** [excludeFiles.filter(Boolean)] *)
Definition filterBoolean (files : list (option string)) : list string :=
  omap (λ f, if Boolean f then f else None) files.

(** [findPluginAndFilesWithError] *)
Definition findPluginAndFilesWithError (error : ConfigError)
  : option (string * list string) :=
  let '(pluginName, excludeFiles) :=
    match error with
    | AggregateCreateNodesError errors pluginName =>
        (pluginName, default [] (fmap (M:=list) fst <$> errors))
    | MergeNodesError file pluginName _ => (Some pluginName, [Some file])
    | _ => (None, [])
    end in
  let excludeFiles := filterBoolean excludeFiles in
  match pluginName with
  | Some name =>
      if negb (Boolean pluginName) || Nat.eqb (length excludeFiles) 0
      then None
      else Some (name, excludeFiles)
  | None => None
  end.

Definition Mapping := JS.Obj JS.StrSet.

(** What the runtime throws when the callee of a call is not a function. *)
Inductive TypeError : Type :=
| NotAFunction (callee : string).

Definition addOfInherited : TypeError :=
  NotAFunction "pluginNametoExcludeFiles[pluginName].add".

(** The body of the [forEach] over [projectConfigurationsError.errors].  The
    mapping starts as [{}]: for a provider named like an inherited member,
    [??=] finds that member and assigns nothing, and the [add] call for the
    first file throws. *)
Definition recordError (acc : Mapping) (error : ConfigError)
  : Outcome TypeError Mapping :=
  match findPluginAndFilesWithError error with
  | None => Returned acc
  | Some (pluginName, excludeFiles) =>
      if negb (Boolean (Some pluginName)) || Nat.eqb (length excludeFiles) 0
      then Returned acc
      else
        match JS.read acc pluginName with
        | JS.Own current =>
            Returned (JS.set acc pluginName (JS.add_all current excludeFiles))
        | JS.Missing =>
            Returned (JS.set acc pluginName (JS.add_all [] excludeFiles))
        | JS.Inherited =>
            match excludeFiles with
            | [] => Returned acc
            | _ :: _ => Thrown addOfInherited
            end
        end
  end.

(** What the promise of the probe can reject with: what [readNxJson] threw,
    or an error of the runtime. *)
Inductive Rejection (ReadError : Type) : Type :=
| ReadFailed (e : ReadError)
| Raised (e : TypeError).
Arguments ReadFailed {ReadError} e.
Arguments Raised {ReadError} e.

Section probe.
Context {LoadedNxPlugin Cleanup ProjectConfigs LoadError ReadError : Type}.

(** The collaborators the probe calls.  Loading and retrieval are the two
    calls it guards; the workspace configuration is read in between, outside
    both guards. *)
Variable loadNxPlugins :
  list PluginConfiguration → string →
  Outcome LoadError (list LoadedNxPlugin * Cleanup).
Variable readNxJson : string → Outcome ReadError NxJsonConfiguration.
Variable retrieveProjectConfigurations :
  list LoadedNxPlugin → string → NxJsonConfiguration →
  Outcome RetrieveError ProjectConfigs.
Variable workspaceRoot : string.

(** [checkCompatibleWithPlugins]; the result is how its promise settles. *)
Definition checkCompatibleWithPlugins
    (plugins : list PluginConfiguration) (projectRootPathToCheck : string)
    (root : string) : Outcome (Rejection ReadError) Mapping :=
  match loadNxPlugins plugins root with
  | Thrown _ => Returned []
  | Returned (nxPlugins, _) =>
      match readNxJson workspaceRoot with
      | Thrown e => Thrown (ReadFailed e)
      | Returned nxJson =>
          match
            retrieveProjectConfigurations nxPlugins projectRootPathToCheck
              nxJson
          with
          | Returned _ => Returned []
          | Thrown (ProjectConfigurationsError errors) =>
              match JS.forEach recordError [] (default [] errors) with
              | Returned pluginNametoExcludeFiles =>
                  Returned pluginNametoExcludeFiles
              | Thrown e => Thrown (Raised e)
              end
          | Thrown (OtherRetrieveError _) => Returned []
          end
      end
  end.
End probe.

(** A provider [p] is implicated for file [f] by an error. *)
Definition cites (e : ConfigError) (p f : string) : Prop :=
  match e with
  | AggregateCreateNodesError errors pluginName =>
      pluginName = Some p ∧ ∃ cause, (Some f, cause) ∈ default [] errors
  | MergeNodesError file pluginName _ => pluginName = p ∧ file = f
  | _ => False
  end.

(** The providers a list of errors implicates for at least one file. *)
Definition implicates (errs : list ConfigError) (p : string) : Prop :=
  p ≠ "" ∧ ∃ e f, e ∈ errs ∧ f ≠ "" ∧ cites e p f.

(** A mapping none of whose keys is an inherited member, as every mapping
    that grew from [{}] is. *)
Definition plain (m : Mapping) : Prop :=
  ∀ k, k ∈ JS.keys m → k ∉ JS.inherited.

(** The five mixed errors of the test [should handle multiple errors]. *)
Definition mixedErrors : list ConfigError :=
  [ ProjectsWithNoNameError [];
    AggregateCreateNodesError (Some []) (Some "randomPlugin");
    AggregateCreateNodesError
      (Some [(Some "file1", "undefined"); (Some "file2", "undefined")])
      (Some "plugin1");
    MergeNodesError "file2" "plugin2" "Error";
    AggregateCreateNodesError
      (Some [(Some "file3", "undefined"); (Some "file4", "undefined")])
      (Some "plugin2") ].

Definition mixedExpected : Mapping :=
  [ ("plugin1", ["file1"; "file2"]);
    ("plugin2", ["file2"; "file3"; "file4"]) ].

(** ** Rewriting the provider list of [nx.json] *)

(** What [existsSync] and [readJsonFile] find at [join(root, 'nx.json')]. *)
Inductive NxJsonFile : Type :=
| FileAbsent
| FileUnreadable
| FileContent (nxJson : NxJsonConfiguration).

(** An [output.warn] call. *)
Record Warning : Type := { title : string; bodyLines : list string }.

(** chalk's [bold] only adds terminal styling. *)
Definition bold (s : string) : string := s.

(** The callback given to [plugins.find] in [findPluginWithName]. *)
Definition matchesName (pluginName : string) (d : PluginConfiguration) : bool :=
  match d with
  | PluginString name => bool_decide (name = pluginName)
  | PluginObject cfg => bool_decide (plugin cfg = pluginName)
  end.

(** [findPluginWithName]: the list after the in-place upgrade of a bare
    string, and the descriptor found with the position it occupies in that
    list (the returned object is the one stored there). *)
Definition findPluginWithName
    (plugins : list PluginConfiguration) (pluginName : string)
  : list PluginConfiguration * option (nat * ExpandedPluginConfiguration) :=
  match list_find (λ d, Is_true (matchesName pluginName d)) plugins with
  | Some (foundIndex, PluginString _) =>
      let foundPlugin :=
        {| plugin := pluginName; options := None;
           include := None; exclude := None |} in
      (<[foundIndex := PluginObject foundPlugin]> plugins,
       Some (foundIndex, foundPlugin))
  | Some (i, PluginObject cfg) => (plugins, Some (i, cfg))
  | None => (plugins, None)
  end.

(** The body of the [forEach] over [Object.entries(pluginNametoExcludeFiles)]:
    the provider list and the warnings emitted so far are threaded through. *)
Definition updateEntry
    (st : list PluginConfiguration * list Warning)
    (entry : string * JS.StrSet)
  : list PluginConfiguration * list Warning :=
  let '(plugins, warnings) := st in
  let '(pluginName, excludeFiles) := entry in
  match findPluginWithName plugins pluginName with
  | (plugins, None) => (plugins, warnings)
  | (plugins, Some (i, found)) =>
      if Nat.eqb (length excludeFiles) 0 then (plugins, warnings)
      else
        let warning :=
          {| title := "Incompatible projects found for " +:+ pluginName
                      +:+ " plugin";
             bodyLines :=
               ("Added the following files to the exclude list for "
                  +:+ pluginName +:+ ":")
               :: ((λ file, "  - " +:+ bold file) <$> excludeFiles) |} in
        let excludeFiles :=
          JS.add_all excludeFiles (default [] (exclude found)) in
        let found :=
          {| plugin := plugin found; options := options found;
             include := include found; exclude := Some excludeFiles |} in
        (<[i := PluginObject found]> plugins, warnings ++ [warning])
  end.

(** What a call leaves behind: the document given to [writeJsonFile], if any,
    and the warnings. *)
Record UpdateEffect : Type := {
  written : option NxJsonConfiguration;
  warnings : list Warning;
}.

Definition noUpdate : UpdateEffect := {| written := None; warnings := [] |}.

(** [updatePluginsInNxJson] *)
Definition updatePluginsInNxJson
    (file : NxJsonFile) (pluginNametoExcludeFiles : Mapping) : UpdateEffect :=
  match file with
  | FileAbsent => noUpdate
  | FileUnreadable => noUpdate
  | FileContent nxJson =>
      if Nat.eqb (length (JS.keys pluginNametoExcludeFiles)) 0
         || Nat.eqb (length (default [] (plugins nxJson))) 0
      then noUpdate
      else
        let '(plugins, warnings) :=
          foldl updateEntry (default [] (plugins nxJson), [])
                pluginNametoExcludeFiles in
        {| written := Some {| plugins := Some plugins;
                              nxJsonRest := nxJsonRest nxJson |};
           warnings := warnings |}
  end.

(** The provider name of a descriptor, and its structured form. *)
Definition descriptorName (d : PluginConfiguration) : string :=
  match d with
  | PluginString name => name
  | PluginObject cfg => plugin cfg
  end.

Definition expanded (d : PluginConfiguration) : ExpandedPluginConfiguration :=
  match d with
  | PluginString name =>
      {| plugin := name; options := None; include := None; exclude := None |}
  | PluginObject cfg => cfg
  end.

(** Position of the first descriptor of a provider. *)
Definition firstDescriptor
    (plugins : list PluginConfiguration) (name : string) : option nat :=
  fst <$> list_find (λ d, descriptorName d = name) plugins.

(** The descriptor [d] after [files] were excluded for it. *)
Definition withExcluded (d : PluginConfiguration) (files : JS.StrSet)
  : PluginConfiguration :=
  PluginObject
    {| plugin := descriptorName d; options := options (expanded d);
       include := include (expanded d);
       exclude := Some (JS.add_all files (default [] (exclude (expanded d)))) |}.

(** Error kinds the probe has no interpretation for. *)
Definition ignoredKind (e : ConfigError) : Prop :=
  match e with
  | AggregateCreateNodesError _ _ | MergeNodesError _ _ _ => False
  | _ => True
  end.

(** What the accumulated mapping holds after a list of errors. *)
Definition collected (m : Mapping) (errs : list ConfigError) : Prop :=
  NoDup (JS.keys m) ∧
  (∀ p fs, JS.get m p = Some fs → NoDup fs ∧ fs ≠ []) ∧
  (∀ p f, (∃ fs, JS.get m p = Some fs ∧ f ∈ fs)
          ↔ p ≠ "" ∧ f ≠ "" ∧ ∃ e, e ∈ errs ∧ cites e p f).

(** The collaborators as the test file mocks them: loading yields no
    provider, retrieval rejects with the given value. *)
Definition mockLoad (_ : list PluginConfiguration) (_ : string)
  : Outcome string (list unit * unit) := Returned ([], ()).
Definition mockReadNxJson (_ : string) : Outcome string NxJsonConfiguration :=
  Returned {| plugins := None; nxJsonRest := "" |}.
Definition mockRetrieve (r : Outcome RetrieveError unit)
  (_ : list unit) (_ : string) (_ : NxJsonConfiguration) := r.

(** An [nx.json] with one bare and one structured provider descriptor. *)
Definition exampleNxJson : NxJsonConfiguration :=
  {| plugins :=
       Some [ PluginString "plugin1";
              PluginObject {| plugin := "plugin2"; options := None;
                              include := None;
                              exclude := Some ["file2"; "old"] |} ];
     nxJsonRest := "{}" |}.

End Probe.

(** * The project graph: data model *)

(** JSON payloads this development never looks into are kept as text. *)
Definition Json : Type := string.

(** A file of the workspace: path, content fingerprint and, once resolved,
    its dependency targets. *)
Record FileData : Type := {
  file : string;
  hash : string;
  deps : option (list string);
}.

(** The current partition of the files: a bucket of files outside every
    project and a list of files per project name. *)
Record FileMap : Type := {
  nonProjectFiles : list FileData;
  projectFileMap : gmap string (list FileData);
}.

(** Cached file data has the fields of a file map, keyed by file path. *)
Module CachedFileData.
Record t : Type := {
  nonProjectFiles : gmap string FileData;
  projectFileMap : gmap string (gmap string FileData);
}.
End CachedFileData.

#[global] Instance FileData_eq_dec : EqDecision FileData.
Proof. solve_decision. Defined.

Inductive DependencyType : Type := static | dynamic | implicit.

#[global] Instance DependencyType_eq_dec : EqDecision DependencyType.
Proof. solve_decision. Defined.

(** A dependency contributed by a provider; [sourceFile] is [None] when the
    contribution has no such property. *)
Record RawProjectGraphDependency : Type := {
  source : string;
  target : string;
  type : DependencyType;
  sourceFile : option string;
}.

#[global] Instance RawProjectGraphDependency_eq_dec :
  EqDecision RawProjectGraphDependency.
Proof. solve_decision. Defined.

(** Metadata values: scalars, objects (replaced as a whole) and arrays. *)
Inductive MetadataValue : Type :=
| ScalarValue (v : string)
| ObjectValue (json : Json)
| ArrayValue (items : list string).

Record ProjectConfiguration : Type := {
  name : string;
  root : string;
  metadata : option (gmap string MetadataValue);
  projectRest : Json;
}.

Record ProjectGraphProjectNode : Type := {
  nodeType : string;
  data : ProjectConfiguration;
}.

Record ProjectGraphExternalNode : Type := {
  externalName : string;
  externalData : Json;
}.

Record ProjectGraph : Type := {
  nodes : gmap string ProjectGraphProjectNode;
  externalNodes : gmap string ProjectGraphExternalNode;
  dependencies : list RawProjectGraphDependency;
  version : option string;
}.

(** [[file, plugin]]: who last set a property. *)
Definition SourceInformation : Type := option string * string.

(** Per project, from property path to source information. *)
Abbreviation ConfigurationSourceMaps :=
  (gmap string (gmap string SourceInformation)) (only parsing).

(** The values this code throws and catches ([error-types]). *)
#[warnings="-register-all"]
Inductive JsError : Type :=
| GenericError (message : string)
| WorkspaceValidityError (message : string)
| ProcessDependenciesError (pluginName : string) (cause : JsError)
| CreateMetadataError (cause : JsError) (pluginName : string)
| AggregateProjectGraphError
    (errors : list JsError) (partialProjectGraph : ProjectGraph).

Definition isWorkspaceValidityError (e : JsError) : bool :=
  match e with WorkspaceValidityError _ => true | _ => false end.

Definition isAggregateProjectGraphError (e : JsError) : bool :=
  match e with AggregateProjectGraphError _ _ => true | _ => false end.

(** * The cache decision engine ([nx-deps-cache]) *)

Module NxDepsCache.

(** Modelled from the spec: the snapshot a build leaves for the next one.
    [nx-deps-cache] is not among the sources; sections 3 and 4.2 of the
    specification describe the snapshot as the four invalidation inputs
    (combined dependency manifest, workspace configuration, compiler root
    configuration, project names) and the previous build's files with
    fingerprint and resolved dependencies, keyed by file path. *)
Record FileMapCache : Type := {
  cachedDeps : gmap string string;
  cachedNxJson : NxJsonConfiguration;
  cachedTsConfig : option Json;
  cachedProjectNames : gset string;
  cachedFiles : gmap string FileData;
}.

(** Every file of a file map, the non-project bucket first. *)
Definition allFiles (fileMap : FileMap) : list FileData :=
  nonProjectFiles fileMap ++ (map_to_list (projectFileMap fileMap) ≫= snd).

(** Modelled from the spec: [createProjectFileMapCache], which records the
    invalidation inputs and the files of the build.  Its call site passes no
    project set, so the project names are those of the file map. *)
Definition createProjectFileMapCache
    (nxJson : NxJsonConfiguration) (packageJsonDeps : gmap string string)
    (fileMap : FileMap) (tsConfig : option Json) : FileMapCache :=
  {| cachedDeps := packageJsonDeps;
     cachedNxJson := nxJson;
     cachedTsConfig := tsConfig;
     cachedProjectNames := dom (projectFileMap fileMap);
     cachedFiles := list_to_map ((λ f, (file f, f)) <$> allFiles fileMap) |}.

(** Modelled from the spec: [shouldRecomputeWholeGraph] (section 4.2), which
    answers yes whenever the combined dependency manifest, the workspace
    configuration, the compiler root configuration or the set of project
    names changed since the snapshot. *)
Definition shouldRecomputeWholeGraph {P : Type}
    (cache : FileMapCache) (packageJsonDeps : gmap string string)
    (projects : gmap string P) (nxJson : NxJsonConfiguration)
    (tsConfig : option Json) : bool :=
  negb (bool_decide (packageJsonDeps = cachedDeps cache))
  || negb (bool_decide (nxJson = cachedNxJson cache))
  || negb (bool_decide (tsConfig = cachedTsConfig cache))
  || negb (bool_decide (dom projects = cachedProjectNames cache)).

(** A file is reusable when the snapshot has its path with the same
    fingerprint. *)
Definition cacheHit (cache : FileMapCache) (f : FileData) : option FileData :=
  match cachedFiles cache !! file f with
  | Some c => if decide (hash c = hash f) then Some c else None
  | None => None
  end.

Definition mustProcess (cache : FileMapCache) (f : FileData) : bool :=
  match cacheHit cache f with Some _ => false | None => true end.

(** The reusable entries among [files], keyed by path. *)
Definition hits (cache : FileMapCache) (files : list FileData)
  : gmap string FileData :=
  list_to_map (omap (λ f, (λ c, (file f, c)) <$> cacheHit cache f) files).

Record Extracted : Type := {
  filesToProcess : FileMap;
  cachedFileData : CachedFileData.t;
}.

(** Modelled from the spec: [extractCachedFileData] (section 4.2), which
    splits the current file map, bucket by bucket, into the files whose
    fingerprint differs from the cached one or that have no cached entry, and
    a lookup structure of the cached entries of the other files. *)
Definition extractCachedFileData (fileMap : FileMap) (cache : FileMapCache)
  : Extracted :=
  {| filesToProcess :=
       {| nonProjectFiles :=
            filter (λ f, Is_true (mustProcess cache f)) (nonProjectFiles fileMap);
          projectFileMap :=
            filter (λ f, Is_true (mustProcess cache f))
              <$> projectFileMap fileMap |};
     cachedFileData :=
       {| CachedFileData.nonProjectFiles :=
            hits cache (nonProjectFiles fileMap);
          CachedFileData.projectFileMap :=
            hits cache <$> projectFileMap fileMap |} |}.

(** A path is listed in a file map. *)
Definition listedIn (path : string) (fileMap : FileMap) : Prop :=
  ∃ f, f ∈ allFiles fileMap ∧ file f = path.

(** A path has an entry in cached file data. *)
Definition hitIn (path : string) (cached : CachedFileData.t) : Prop :=
  is_Some (CachedFileData.nonProjectFiles cached !! path)
  ∨ ∃ project entries,
      CachedFileData.projectFileMap cached !! project = Some entries
      ∧ is_Some (entries !! path).

End NxDepsCache.

(** ** Sequencing of fallible steps *)

Definition outcome_bind {E A B} (f : A → Outcome E B) (m : Outcome E A)
  : Outcome E B :=
  match m with
  | Returned a => f a
  | Thrown e => Thrown e
  end.

#[global] Instance Outcome_ret {E} : MRet (Outcome E) := λ A a, Returned a.
#[global] Instance Outcome_bind {E} : MBind (Outcome E) :=
  λ A B f m, outcome_bind f m.

(** * The graph builder ([project-graph-builder]) *)

Module ProjectGraphBuilder.

(** Modelled from the spec: the builder of section 4.1, an accumulator over
    nodes, external nodes and edges whose snapshot is a graph.
    [project-graph-builder] is not among the sources. *)
Definition t : Type := ProjectGraph.

Definition emptyGraph : ProjectGraph :=
  {| nodes := ∅; externalNodes := ∅; dependencies := []; version := None |}.

(** [new ProjectGraphBuilder(graph, ...)]: seeded from a snapshot, or empty
    for [null]. *)
Definition create (graph : option ProjectGraph) : t := default emptyGraph graph.

Definition setVersion (v : string) (b : t) : t :=
  {| nodes := nodes b; externalNodes := externalNodes b;
     dependencies := dependencies b; version := Some v |}.

(** Modelled from the spec: inserts, or fails if an external node with that
    identity already exists with conflicting data. *)
Definition addExternalNode (node : ProjectGraphExternalNode) (b : t)
  : Outcome JsError t :=
  match externalNodes b !! externalName node with
  | Some existing =>
      if decide (externalData existing = externalData node) then Returned b
      else Thrown (GenericError "conflicting external node")
  | None =>
      Returned {| nodes := nodes b;
                  externalNodes := <[externalName node := node]> (externalNodes b);
                  dependencies := dependencies b; version := version b |}
  end.

Definition known (b : t) (x : string) : bool :=
  bool_decide (is_Some (nodes b !! x))
  || bool_decide (is_Some (externalNodes b !! x)).

Definition accepts (b : t) (dep : RawProjectGraphDependency) : bool :=
  known b (source dep) && known b (target dep).

(** Modelled from the spec: fails with an invariant violation if either
    endpoint is unknown; otherwise appends the edge, an identical edge being
    added once only. *)
Definition addDependency
    (source target : string) (type : DependencyType)
    (sourceFile : option string) (b : t) : Outcome JsError t :=
  let dep := {| source := source; target := target; type := type;
                sourceFile := sourceFile |} in
  if accepts b dep then
    Returned
      {| nodes := nodes b; externalNodes := externalNodes b;
         dependencies :=
           if decide (dep ∈ dependencies b) then dependencies b
           else dependencies b ++ [dep];
         version := version b |}
  else Thrown (GenericError "invariant violation: unknown endpoint").

(** The snapshot. *)
Definition getUpdatedProjectGraph (b : t) : ProjectGraph := b.

End ProjectGraphBuilder.

(** * Merging metadata ([project-configuration-utils]) *)

Module ProjectConfigurationUtils.

(** Modelled from the spec: the conflict rule of section 4.5.  An array meets
    an array by concatenation, the earlier items first; in every other case
    the later-applied value replaces the earlier one. *)
Definition mergeValue (value : MetadataValue) (existing : MetadataValue)
  : MetadataValue :=
  match value, existing with
  | ArrayValue new, ArrayValue old => ArrayValue (old ++ new)
  | _, _ => value
  end.

(** The source-map key of a property below a base path. *)
Definition propertyPath (base : string) (key : string) : string :=
  base +:+ "." +:+ key.

(** Modelled from the spec: [mergeMetadata] (section 4.5), which merges a
    provider's metadata object into the existing one property by property and
    attributes every property the provider sets to that provider in the
    project's source map.  A project without source map gets none.
    [project-configuration-utils] is not among the sources. *)
Definition mergeMetadata
    (sourceMap : option (gmap string SourceInformation))
    (sourceInformation : SourceInformation) (baseSourceMapPath : string)
    (metadata : gmap string MetadataValue)
    (matchingMetadata : option (gmap string MetadataValue))
  : gmap string MetadataValue * option (gmap string SourceInformation) :=
  ( union_with (λ value existing, Some (mergeValue value existing))
      metadata (default ∅ matchingMetadata),
    (λ sm, map_fold
             (λ key _ sm,
                <[propertyPath baseSourceMapPath key := sourceInformation]> sm)
             sm metadata)
    <$> sourceMap ).

End ProjectConfigurationUtils.

(** * Building the graph ([build-project-graph.ts]) *)

(** What a dependency provider is given. *)
Module CreateDependenciesContext.
Record t : Type := {
  nxJsonConfiguration : NxJsonConfiguration;
  projects : gmap string ProjectConfiguration;
  externalNodes : JS.Obj ProjectGraphExternalNode;
  workspaceRoot : string;
  fileMap : FileMap;
  filesToProcess : FileMap;
}.
End CreateDependenciesContext.

(** What a metadata provider is given besides the graph. *)
Module CreateMetadataContext.
Record t : Type := {
  nxJsonConfiguration : NxJsonConfiguration;
  workspaceRoot : string;
}.
End CreateMetadataContext.

(** What a metadata provider resolves with: per project name, the metadata
    object of its entry. *)
Abbreviation ProjectsMetadata :=
  (gmap string (gmap string MetadataValue)) (only parsing).

(** A loaded provider: a name and two optional capabilities.  A capability is
    given by how its promise settles on each input. *)
Module LoadedNxPlugin.
Record t : Type := {
  name : string;
  createDependencies :
    option (CreateDependenciesContext.t →
            Outcome JsError (list RawProjectGraphDependency));
  createMetadata :
    option (ProjectGraph → CreateMetadataContext.t →
            Outcome JsError ProjectsMetadata);
}.
End LoadedNxPlugin.

(** A manifest on disk, as [existsSync] and [readJsonFile] see it. *)
Record PackageJson : Type := {
  packageDependencies : option (gmap string string);
  packageDevDependencies : option (gmap string string);
}.

Inductive PackageJsonFile : Type :=
| ManifestAbsent
| ManifestUnreadable (e : JsError)
| ManifestContent (json : PackageJson).

Module BuildProjectGraph.

(** The module-level cells [storedFileMap], [storedAllWorkspaceFiles] and
    [storedRustReferences].  A cell holds a reference: what is read through
    it is the object in its current state. *)
Record Stored (Rust : Type) : Type := {
  storedFileMap : option FileMap;
  storedAllWorkspaceFiles : option (list FileData);
  storedRustReferences : option Rust;
}.
Arguments storedFileMap {Rust} _.
Arguments storedAllWorkspaceFiles {Rust} _.
Arguments storedRustReferences {Rust} _.

(** The cells when the module is loaded. *)
Definition initialStored {Rust} : Stored Rust :=
  {| storedFileMap := None; storedAllWorkspaceFiles := None;
     storedRustReferences := None |}.

(** The result of [getFileMap]; [allWorkspaceFiles] is nullable because the
    cell it is read from is. *)
Record FileMapResult (Rust : Type) : Type := {
  fileMap : FileMap;
  allWorkspaceFiles : option (list FileData);
  rustReferences : option Rust;
}.
Arguments fileMap {Rust} _.
Arguments allWorkspaceFiles {Rust} _.
Arguments rustReferences {Rust} _.

(** [getFileMap] *)
Definition getFileMap {Rust} (st : Stored Rust) : FileMapResult Rust :=
  match storedFileMap st with
  | Some stored =>
      {| fileMap := stored;
         allWorkspaceFiles := storedAllWorkspaceFiles st;
         rustReferences := storedRustReferences st |}
  | None =>
      {| fileMap := {| nonProjectFiles := []; projectFileMap := ∅ |};
         allWorkspaceFiles := Some [];
         rustReferences := None |}
  end.

(** The collaborators of a build that are not in this file, and the order in
    which the provider calls of each phase settle (positions in the list the
    phase maps over). *)
Record Collaborators : Type := {
  workspaceRoot : string;
  readNxJson : NxJsonConfiguration;
  assertWorkspaceValidity :
    gmap string ProjectConfiguration → NxJsonConfiguration →
    Outcome JsError ();
  rootPackageJson : PackageJsonFile;
  installationPackageJson : PackageJsonFile;
  rootTsConfigFile : Outcome JsError (option Json);
  normalizeProjectNodes :
    CreateDependenciesContext.t → ProjectGraphBuilder.t →
    Outcome JsError ProjectGraphBuilder.t;
  applyImplicitDependencies :
    gmap string ProjectConfiguration → ProjectGraphBuilder.t →
    Outcome JsError ProjectGraphBuilder.t;
  dependenciesSettle : list nat;
  metadataSettle : list nat;
}.

(** The elements of [xs] in the order their calls settle. *)
Definition settled {A} (order : list nat) (xs : list A) : list A :=
  omap (λ i, xs !! i) order.

(** [existsSync(path) ? readJsonFile(path) : {}] *)
Definition readManifest (f : PackageJsonFile) : Outcome JsError PackageJson :=
  match f with
  | ManifestAbsent =>
      Returned {| packageDependencies := None; packageDevDependencies := None |}
  | ManifestUnreadable e => Thrown e
  | ManifestContent json => Returned json
  end.

(** [readCombinedDeps]: in an object literal of spreads a later spread wins,
    in a union of maps the left operand does. *)
Definition readCombinedDeps (env : Collaborators)
  : Outcome JsError (gmap string string) :=
  installationPackageJson ← readManifest (installationPackageJson env);
  rootPackageJson ← readManifest (rootPackageJson env);
  mret (default ∅ (packageDevDependencies installationPackageJson)
        ∪ default ∅ (packageDependencies installationPackageJson)
        ∪ default ∅ (packageDevDependencies rootPackageJson)
        ∪ default ∅ (packageDependencies rootPackageJson)).

(** [readRootTsConfig]: [undefined] without a root configuration, the empty
    object when looking for it or reading it throws. *)
Definition readRootTsConfig (env : Collaborators) : option Json :=
  match rootTsConfigFile env with
  | Returned tsConfig => tsConfig
  | Thrown _ => Some "{}"
  end.

(** [createContext] *)
Definition createContext (env : Collaborators)
    (projects : gmap string ProjectConfiguration)
    (nxJson : NxJsonConfiguration)
    (externalNodes : JS.Obj ProjectGraphExternalNode)
    (fileMap filesToProcess : FileMap) : CreateDependenciesContext.t :=
  {| CreateDependenciesContext.nxJsonConfiguration := nxJson;
     CreateDependenciesContext.projects := projects;
     CreateDependenciesContext.externalNodes := externalNodes;
     CreateDependenciesContext.workspaceRoot := workspaceRoot env;
     CreateDependenciesContext.fileMap := fileMap;
     CreateDependenciesContext.filesToProcess := filesToProcess |}.

(** ** The metadata phase *)

(** What the callbacks of [applyProjectMetadata] have pushed once every
    provider has settled. *)
Record MetadataSettled : Type := {
  results : list (ProjectsMetadata * string);
  metadataErrors : list JsError;
}.

(** The continuation of one provider's [createMetadata] call. *)
Definition settleMetadata (graph : ProjectGraph)
    (context : CreateMetadataContext.t)
    (acc : MetadataSettled) (plugin : LoadedNxPlugin.t) : MetadataSettled :=
  match LoadedNxPlugin.createMetadata plugin with
  | Some createMetadata =>
      match createMetadata graph context with
      | Returned metadata =>
          {| results := results acc ++ [(metadata, LoadedNxPlugin.name plugin)];
             metadataErrors := metadataErrors acc |}
      | Thrown e =>
          {| results := results acc;
             metadataErrors :=
               metadataErrors acc
               ++ [CreateMetadataError e (LoadedNxPlugin.name plugin)] |}
      end
  | None => acc
  end.

Definition awaitMetadata (graph : ProjectGraph) (plugins : list LoadedNxPlugin.t)
    (context : CreateMetadataContext.t) (order : list nat) : MetadataSettled :=
  foldl (settleMetadata graph context)
        {| results := []; metadataErrors := [] |} (settled order plugins).

(** The body of [for (const project in projectsMetadata)]. *)
Definition mergeProjectMetadata (pluginName : string)
    (project : string) (projectMetadata : gmap string MetadataValue)
    (acc : ProjectGraph * ConfigurationSourceMaps)
  : ProjectGraph * ConfigurationSourceMaps :=
  let '(graph, sourceMap) := acc in
  match nodes graph !! project with
  | Some node =>
      let projectConfiguration := data node in
      let '(merged, projectSourceMap) :=
        ProjectConfigurationUtils.mergeMetadata
          (sourceMap !! project) (None, pluginName) "metadata"
          projectMetadata (metadata projectConfiguration) in
      let projectConfiguration :=
        {| name := name projectConfiguration;
           root := root projectConfiguration;
           metadata := Some merged;
           projectRest := projectRest projectConfiguration |} in
      ( {| nodes :=
             <[project := {| nodeType := nodeType node;
                             data := projectConfiguration |}]> (nodes graph);
           externalNodes := externalNodes graph;
           dependencies := dependencies graph;
           version := version graph |},
        match projectSourceMap with
        | Some sm => <[project := sm]> sourceMap
        | None => sourceMap
        end )
  | None => acc
  end.

(** The body of [for (const { metadata, pluginName } of results)]. *)
Definition applyResult (acc : ProjectGraph * ConfigurationSourceMaps)
    (result : ProjectsMetadata * string)
  : ProjectGraph * ConfigurationSourceMaps :=
  map_fold (mergeProjectMetadata result.2) acc result.1.

(** What [applyProjectMetadata] resolves with, and the source maps it has
    updated in place. *)
Record MetadataApplied : Type := {
  appliedErrors : list JsError;
  appliedGraph : ProjectGraph;
  appliedSourceMaps : ConfigurationSourceMaps;
}.

(** [applyProjectMetadata] *)
Definition applyProjectMetadata (graph : ProjectGraph)
    (plugins : list LoadedNxPlugin.t) (context : CreateMetadataContext.t)
    (sourceMap : ConfigurationSourceMaps) (order : list nat)
  : MetadataApplied :=
  let s := awaitMetadata graph plugins context order in
  let '(graph, sourceMap) := foldl applyResult (graph, sourceMap) (results s) in
  {| appliedErrors := metadataErrors s;
     appliedGraph := graph;
     appliedSourceMaps := sourceMap |}.

(** ** The dependency phase *)

(** [for (const dep of dependencies) builder.addDependency(...)]: the edges
    added before a rejected one stay, the rejection is the cause. *)
Fixpoint addDependencies (builder : ProjectGraphBuilder.t)
    (dependencies : list RawProjectGraphDependency)
  : ProjectGraphBuilder.t * option JsError :=
  match dependencies with
  | [] => (builder, None)
  | dep :: dependencies =>
      match
        ProjectGraphBuilder.addDependency
          (source dep) (target dep) (type dep) (sourceFile dep) builder
      with
      | Returned builder => addDependencies builder dependencies
      | Thrown cause => (builder, Some cause)
      end
  end.

(** The continuation of one provider's [createDependencies] call. *)
Definition settleDependencies (context : CreateDependenciesContext.t)
    (acc : ProjectGraphBuilder.t * list JsError) (plugin : LoadedNxPlugin.t)
  : ProjectGraphBuilder.t * list JsError :=
  let '(builder, errors) := acc in
  match LoadedNxPlugin.createDependencies plugin with
  | Some createDependencies =>
      match createDependencies context with
      | Returned dependencies =>
          match addDependencies builder dependencies with
          | (builder, None) => (builder, errors)
          | (builder, Some cause) =>
              (builder,
               errors
               ++ [ProcessDependenciesError (LoadedNxPlugin.name plugin) cause])
          end
      | Thrown cause =>
          (builder,
           errors
           ++ [ProcessDependenciesError (LoadedNxPlugin.name plugin) cause])
      end
  | None => acc
  end.

(** [plugins.filter((plugin) => plugin.createDependencies)] *)
Definition createDependencyPlugins (plugins : list LoadedNxPlugin.t)
  : list LoadedNxPlugin.t :=
  filter (λ plugin, is_Some (LoadedNxPlugin.createDependencies plugin)) plugins.

(** The builder and the errors once every dependency provider has settled. *)
Definition awaitDependencies (context : CreateDependenciesContext.t)
    (initProjectGraph : ProjectGraph) (plugins : list LoadedNxPlugin.t)
    (order : list nat) : ProjectGraphBuilder.t * list JsError :=
  foldl (settleDependencies context)
        (ProjectGraphBuilder.create (Some initProjectGraph), [])
        (settled order (createDependencyPlugins plugins)).

(** How a step of the build ends, and the source maps as it leaves them. *)
Record Phase (A : Type) : Type := {
  outcome : Outcome JsError A;
  sourceMaps : ConfigurationSourceMaps;
}.
Arguments outcome {A} _.
Arguments sourceMaps {A} _.

(** [updateProjectGraphWithPlugins]; the progress indicator is left out. *)
Definition updateProjectGraphWithPlugins (env : Collaborators)
    (context : CreateDependenciesContext.t) (initProjectGraph : ProjectGraph)
    (plugins : list LoadedNxPlugin.t) (sourceMap : ConfigurationSourceMaps)
  : Phase ProjectGraph :=
  let '(builder, errors) :=
    awaitDependencies context initProjectGraph plugins
      (dependenciesSettle env) in
  let graphWithDeps := ProjectGraphBuilder.getUpdatedProjectGraph builder in
  let applied :=
    applyProjectMetadata graphWithDeps plugins
      {| CreateMetadataContext.nxJsonConfiguration :=
           CreateDependenciesContext.nxJsonConfiguration context;
         CreateMetadataContext.workspaceRoot := workspaceRoot env |}
      sourceMap (metadataSettle env) in
  let errors := errors ++ appliedErrors applied in
  {| outcome :=
       if Nat.ltb 0 (length errors)
       then Thrown (AggregateProjectGraphError errors (appliedGraph applied))
       else Returned (appliedGraph applied);
     sourceMaps := appliedSourceMaps applied |}.

(** ** Assembling the graph *)

(** [for (const node in knownExternalNodes) builder.addExternalNode(...)] *)
Fixpoint addExternalNodes (builder : ProjectGraphBuilder.t)
    (knownExternalNodes : JS.Obj ProjectGraphExternalNode)
  : Outcome JsError ProjectGraphBuilder.t :=
  match knownExternalNodes with
  | [] => Returned builder
  | (_, node) :: rest =>
      builder ← ProjectGraphBuilder.addExternalNode node builder;
      addExternalNodes builder rest
  end.

(** [if (cached && cached.deps) f.deps = [...cached.deps]] *)
Definition withCachedDeps (cached : option FileData) (f : FileData) : FileData :=
  match cached with
  | Some {| deps := Some cachedDeps |} =>
      {| file := file f; hash := hash f; deps := Some cachedDeps |}
  | _ => f
  end.

(** The two loops that copy cached dependency lists onto the files of the
    file map, in place.  Only projects of the file map have files to visit. *)
Definition copyCachedDeps (cachedFileData : CachedFileData.t)
    (fileMap : FileMap) : FileMap :=
  {| nonProjectFiles :=
       (λ f, withCachedDeps
               (CachedFileData.nonProjectFiles cachedFileData !! file f) f)
       <$> nonProjectFiles fileMap;
     projectFileMap :=
       map_imap (M:=gmap string)
         (λ proj files,
            Some match CachedFileData.projectFileMap cachedFileData !! proj with
                 | Some cachedFiles =>
                     (λ f, withCachedDeps (cachedFiles !! file f) f) <$> files
                 | None => files
                 end)
         (projectFileMap fileMap) |}.

(** How [buildProjectGraphUsingContext] ends, with the file map and the
    source maps as it leaves them. *)
Record Assembled : Type := {
  assembled : Outcome JsError ProjectGraph;
  assembledFileMap : FileMap;
  assembledSourceMaps : ConfigurationSourceMaps;
}.

(** [buildProjectGraphUsingContext] *)
Definition buildProjectGraphUsingContext (env : Collaborators)
    (knownExternalNodes : JS.Obj ProjectGraphExternalNode)
    (ctx : CreateDependenciesContext.t) (cachedFileData : CachedFileData.t)
    (projectGraphVersion : string) (plugins : list LoadedNxPlugin.t)
    (sourceMap : ConfigurationSourceMaps) : Assembled :=
  let untouched e :=
    {| assembled := Thrown e;
       assembledFileMap := CreateDependenciesContext.fileMap ctx;
       assembledSourceMaps := sourceMap |} in
  let builder := ProjectGraphBuilder.create None in
  let builder := ProjectGraphBuilder.setVersion projectGraphVersion builder in
  match
    builder ← addExternalNodes builder knownExternalNodes;
    normalizeProjectNodes env ctx builder
  with
  | Thrown e => untouched e
  | Returned builder =>
      let initProjectGraph :=
        ProjectGraphBuilder.getUpdatedProjectGraph builder in
      let updated :=
        updateProjectGraphWithPlugins env ctx initProjectGraph plugins
          sourceMap in
      let caught : Outcome JsError (ProjectGraph * option (list JsError)) :=
        match outcome updated with
        | Returned updatedGraph => Returned (updatedGraph, None)
        | Thrown (AggregateProjectGraphError errors partialProjectGraph) =>
            Returned (partialProjectGraph, Some errors)
        | Thrown e => Thrown e
        end in
      match caught with
      | Thrown e =>
          {| assembled := Thrown e;
             assembledFileMap := CreateDependenciesContext.fileMap ctx;
             assembledSourceMaps := sourceMaps updated |}
      | Returned (updatedGraph, error) =>
          let updatedBuilder :=
            ProjectGraphBuilder.create (Some updatedGraph) in
          let fileMap :=
            copyCachedDeps cachedFileData
              (CreateDependenciesContext.fileMap ctx) in
          {| assembled :=
               updatedBuilder ←
                 applyImplicitDependencies env
                   (CreateDependenciesContext.projects ctx) updatedBuilder;
               let finalGraph :=
                 ProjectGraphBuilder.getUpdatedProjectGraph updatedBuilder in
               match error with
               | None => Returned finalGraph
               | Some errors =>
                   Thrown (AggregateProjectGraphError errors finalGraph)
               end;
             assembledFileMap := fileMap;
             assembledSourceMaps := sourceMaps updated |}
      end
  end.

(** ** The build *)

(** The decision between reusing cached file data and reprocessing the whole
    file map. *)
Definition chooseFilesToProcess
    (fileMapCache : option NxDepsCache.FileMapCache)
    (packageJsonDeps : gmap string string)
    (projects : gmap string ProjectConfiguration)
    (nxJson : NxJsonConfiguration) (rootTsConfig : option Json)
    (fileMap : FileMap) : FileMap * CachedFileData.t :=
  let whole :=
    (fileMap,
     {| CachedFileData.nonProjectFiles := ∅;
        CachedFileData.projectFileMap := ∅ |}) in
  match fileMapCache with
  | Some cache =>
      let useCacheData :=
        negb (NxDepsCache.shouldRecomputeWholeGraph
                cache packageJsonDeps projects nxJson rootTsConfig) in
      if useCacheData then
        let fromCache := NxDepsCache.extractCachedFileData fileMap cache in
        (NxDepsCache.filesToProcess fromCache,
         NxDepsCache.cachedFileData fromCache)
      else whole
  | None => whole
  end.

(** How a build ends, and what it leaves in the module-level cells and in the
    source maps. *)
Record Built (Rust : Type) : Type := {
  built : Outcome JsError (ProjectGraph * NxDepsCache.FileMapCache);
  builtStored : Stored Rust;
  builtSourceMaps : ConfigurationSourceMaps;
}.
Arguments built {Rust} _.
Arguments builtStored {Rust} _.
Arguments builtSourceMaps {Rust} _.

(** [projects[project.name] = project] for every root. *)
Definition projectsByName (projectRootMap : JS.Obj ProjectConfiguration)
  : gmap string ProjectConfiguration :=
  foldl (λ projects entry, <[name entry.2 := entry.2]> projects)
        ∅ projectRootMap.

(** The errors collected around [assertWorkspaceValidity]. *)
Definition validityErrors (env : Collaborators)
    (projects : gmap string ProjectConfiguration)
    (nxJson : NxJsonConfiguration) : list JsError :=
  match assertWorkspaceValidity env projects nxJson with
  | Returned _ => []
  | Thrown e => if isWorkspaceValidityError e then [e] else []
  end.

(** [buildProjectGraphUsingProjectFileMap].  The three cells are assigned
    first, whatever they held; the file map they refer to is the one whose
    files later receive cached dependency lists. *)
Definition buildProjectGraphUsingProjectFileMap {Rust} (env : Collaborators)
    (projectRootMap : JS.Obj ProjectConfiguration)
    (externalNodes : JS.Obj ProjectGraphExternalNode)
    (fileMap : FileMap) (allWorkspaceFiles : list FileData)
    (rustReferences : Rust)
    (fileMapCache : option NxDepsCache.FileMapCache)
    (plugins : list LoadedNxPlugin.t) (sourceMap : ConfigurationSourceMaps)
  : Built Rust :=
  let stored fileMap :=
    {| storedFileMap := Some fileMap;
       storedAllWorkspaceFiles := Some allWorkspaceFiles;
       storedRustReferences := Some rustReferences |} in
  let projects := projectsByName projectRootMap in
  let nxJson := readNxJson env in
  let projectGraphVersion := "6.0" in
  let errors := validityErrors env projects nxJson in
  match readCombinedDeps env with
  | Thrown e =>
      {| built := Thrown e; builtStored := stored fileMap;
         builtSourceMaps := sourceMap |}
  | Returned packageJsonDeps =>
      let rootTsConfig := readRootTsConfig env in
      let '(filesToProcess, cachedFileData) :=
        chooseFilesToProcess fileMapCache packageJsonDeps projects nxJson
          rootTsConfig fileMap in
      let context :=
        createContext env projects nxJson externalNodes fileMap
          filesToProcess in
      let a :=
        buildProjectGraphUsingContext env externalNodes context
          cachedFileData projectGraphVersion plugins sourceMap in
      {| built :=
           match assembled a with
           | Returned projectGraph =>
               let projectFileMapCache :=
                 NxDepsCache.createProjectFileMapCache nxJson packageJsonDeps
                   (assembledFileMap a) rootTsConfig in
               if Nat.ltb 0 (length errors)
               then Thrown (AggregateProjectGraphError errors projectGraph)
               else Returned (projectGraph, projectFileMapCache)
           | Thrown (AggregateProjectGraphError phaseErrors partialProjectGraph) =>
               Thrown (AggregateProjectGraphError
                         (errors ++ phaseErrors) partialProjectGraph)
           | Thrown e => Thrown e
           end;
         builtStored := stored (assembledFileMap a);
         builtSourceMaps := assembledSourceMaps a |}
  end.

End BuildProjectGraph.

(** * Notions the specification is stated with *)

Module SpecNotions.
Import BuildProjectGraph.

(** What a provider's [createMetadata] call contributes when it settles. *)
Definition metadataResult (graph : ProjectGraph)
    (context : CreateMetadataContext.t) (plugin : LoadedNxPlugin.t)
  : option (ProjectsMetadata * string) :=
  match LoadedNxPlugin.createMetadata plugin with
  | Some createMetadata =>
      match createMetadata graph context with
      | Returned metadata => Some (metadata, LoadedNxPlugin.name plugin)
      | Thrown _ => None
      end
  | None => None
  end.

Definition metadataFailure (graph : ProjectGraph)
    (context : CreateMetadataContext.t) (plugin : LoadedNxPlugin.t)
  : option JsError :=
  match LoadedNxPlugin.createMetadata plugin with
  | Some createMetadata =>
      match createMetadata graph context with
      | Returned _ => None
      | Thrown e => Some (CreateMetadataError e (LoadedNxPlugin.name plugin))
      end
  | None => None
  end.

(** Why the contribution of a dependency provider is recorded as failed, if
    it is: its call throws, or the builder rejects one of its edges. *)
Definition dependencyFailure (context : CreateDependenciesContext.t)
    (graph : ProjectGraph) (plugin : LoadedNxPlugin.t) : option JsError :=
  match LoadedNxPlugin.createDependencies plugin with
  | Some createDependencies =>
      match createDependencies context with
      | Returned dependencies =>
          if forallb (ProjectGraphBuilder.accepts graph) dependencies
          then None
          else Some (GenericError "invariant violation: unknown endpoint")
      | Thrown cause => Some cause
      end
  | None => None
  end.

(** The edges a dependency provider contributes. *)
Definition contributes (context : CreateDependenciesContext.t)
    (plugin : LoadedNxPlugin.t) (dep : RawProjectGraphDependency) : Prop :=
  ∃ createDependencies dependencies,
    LoadedNxPlugin.createDependencies plugin = Some createDependencies
    ∧ createDependencies context = Returned dependencies
    ∧ dep ∈ dependencies.

(** The metadata context [updateProjectGraphWithPlugins] builds. *)
Definition metadataContext (env : Collaborators)
    (context : CreateDependenciesContext.t) : CreateMetadataContext.t :=
  {| CreateMetadataContext.nxJsonConfiguration :=
       CreateDependenciesContext.nxJsonConfiguration context;
     CreateMetadataContext.workspaceRoot := workspaceRoot env |}.

(** A project node after a provider's metadata for it was merged in. *)
Definition mergedNode (pluginName : string) (m : gmap string MetadataValue)
    (node : ProjectGraphProjectNode)
    (projectSourceMap : option (gmap string SourceInformation))
  : ProjectGraphProjectNode :=
  {| nodeType := nodeType node;
     data :=
       {| name := name (data node); root := root (data node);
          metadata :=
            Some (ProjectConfigurationUtils.mergeMetadata
                    projectSourceMap (None, pluginName) "metadata" m
                    (metadata (data node))).1;
          projectRest := projectRest (data node) |} |}.

(** Path and fingerprint of a file, and file maps that list the same files
    bucket by bucket, whatever dependency lists the files carry. *)
Definition fingerprint (f : FileData) : string * string := (file f, hash f).

Definition sameFiles (a b : FileMap) : Prop :=
  fingerprint <$> nonProjectFiles a = fingerprint <$> nonProjectFiles b
  ∧ ∀ project,
      fmap (M:=list) fingerprint <$> projectFileMap a !! project
      = fmap (M:=list) fingerprint <$> projectFileMap b !! project.

(** The value of a metadata property of a project node. *)
Definition metadataOf (graph : ProjectGraph) (project key : string)
  : option MetadataValue :=
  node ← nodes graph !! project;
  m ← metadata (data node);
  m !! key.

(** Who a project's source map says set a metadata property. *)
Definition attributedTo (sourceMap : ConfigurationSourceMaps)
    (project key : string) : option SourceInformation :=
  sm ← sourceMap !! project;
  sm !! ProjectConfigurationUtils.propertyPath "metadata" key.

End SpecNotions.

(** * Concrete workspaces *)

Module Examples.
Import BuildProjectGraph.

Definition nxJson0 : NxJsonConfiguration :=
  {| plugins := None; nxJsonRest := "{}" |}.

Definition project (n : string) : ProjectConfiguration :=
  {| name := n; root := "libs/" +:+ n; metadata := None;
     projectRest := "{}" |}.

Definition projectRootMap0 : JS.Obj ProjectConfiguration :=
  [("libs/a", project "a"); ("libs/b", project "b")].

(** A [normalizeProjectNodes] that adds one node per project. *)
Definition nodePerProject (ctx : CreateDependenciesContext.t)
    (b : ProjectGraphBuilder.t) : Outcome JsError ProjectGraphBuilder.t :=
  Returned
    {| nodes := (λ p, {| nodeType := "lib"; data := p |})
                <$> CreateDependenciesContext.projects ctx;
       externalNodes := externalNodes b;
       dependencies := dependencies b;
       version := version b |}.

Definition env (validity : Outcome JsError ())
    (normalize : CreateDependenciesContext.t → ProjectGraphBuilder.t →
                 Outcome JsError ProjectGraphBuilder.t)
    (dependenciesOrder metadataOrder : list nat) : Collaborators :=
  {| workspaceRoot := "/workspace";
     readNxJson := nxJson0;
     assertWorkspaceValidity := λ _ _, validity;
     rootPackageJson := ManifestAbsent;
     installationPackageJson := ManifestAbsent;
     rootTsConfigFile := Returned None;
     normalizeProjectNodes := normalize;
     applyImplicitDependencies := λ _ b, Returned b;
     dependenciesSettle := dependenciesOrder;
     metadataSettle := metadataOrder |}.

Definition file0 (path fingerprint : string) (d : option (list string))
  : FileData :=
  {| file := path; hash := fingerprint; deps := d |}.

(** The files of the previous build and of the current one: [b.ts] changed,
    [c.ts] is new. *)
Definition previousFileMap : FileMap :=
  {| nonProjectFiles := [file0 "package.json" "h0" (Some [])];
     projectFileMap :=
       {[ "a" := [file0 "libs/a/a.ts" "h1" (Some ["npm:x"]);
                  file0 "libs/a/b.ts" "h2" (Some [])];
          "b" := [] ]} |}.

Definition currentFileMap : FileMap :=
  {| nonProjectFiles := [file0 "package.json" "h0" None];
     projectFileMap :=
       {[ "a" := [file0 "libs/a/a.ts" "h1" None;
                  file0 "libs/a/b.ts" "h2'" None;
                  file0 "libs/a/c.ts" "h3" None];
          "b" := [] ]} |}.

Definition previousCache : NxDepsCache.FileMapCache :=
  NxDepsCache.createProjectFileMapCache nxJson0 ∅ previousFileMap None.

(** Providers.  [describes n v] sets the metadata property [description] of
    project [a] to the scalar [v]. *)
Definition describes (n v : string) : LoadedNxPlugin.t :=
  {| LoadedNxPlugin.name := n;
     LoadedNxPlugin.createDependencies := None;
     LoadedNxPlugin.createMetadata :=
       Some (λ _ _, Returned {[ "a" := {[ "description" := ScalarValue v ]} ]}) |}.

Definition edgeAB : RawProjectGraphDependency :=
  {| source := "a"; target := "b"; type := static;
     sourceFile := Some "libs/a/a.ts" |}.

Definition linksAB : LoadedNxPlugin.t :=
  {| LoadedNxPlugin.name := "links";
     LoadedNxPlugin.createDependencies := Some (λ _, Returned [edgeAB]);
     LoadedNxPlugin.createMetadata := None |}.

Definition failingDependencies : LoadedNxPlugin.t :=
  {| LoadedNxPlugin.name := "broken-deps";
     LoadedNxPlugin.createDependencies :=
       Some (λ _, Thrown (GenericError "createDependencies failed"));
     LoadedNxPlugin.createMetadata := None |}.

Definition failingMetadata : LoadedNxPlugin.t :=
  {| LoadedNxPlugin.name := "broken-metadata";
     LoadedNxPlugin.createDependencies := None;
     LoadedNxPlugin.createMetadata :=
       Some (λ _ _, Thrown (GenericError "createMetadata failed")) |}.

(** A graph with the two project nodes, and the context of a build of it. *)
Definition graphAB : ProjectGraph :=
  {| nodes := (λ p, {| nodeType := "lib"; data := p |})
              <$> projectsByName projectRootMap0;
     externalNodes := ∅; dependencies := []; version := Some "6.0" |}.

Definition contextAB : CreateDependenciesContext.t :=
  createContext (env (Returned ()) nodePerProject [] [])
    (projectsByName projectRootMap0) nxJson0 [] currentFileMap currentFileMap.

Definition metadataContextAB : CreateMetadataContext.t :=
  {| CreateMetadataContext.nxJsonConfiguration := nxJson0;
     CreateMetadataContext.workspaceRoot := "/workspace" |}.

Definition sourceMapAB : ConfigurationSourceMaps := {[ "a" := ∅ ]}.

(** A workspace that fails the validity check, with graph phases that
    work, and with graph phases whose node normalization throws. *)
Definition invalidWorkspace : Collaborators :=
  env (Thrown (WorkspaceValidityError "duplicate project name"))
      nodePerProject [] [].

Definition invalidAndBroken : Collaborators :=
  env (Thrown (WorkspaceValidityError "duplicate project name"))
      (λ _ _, Thrown (GenericError "normalization failed")) [] [].

End Examples.

(** * Notions used by further properties of the two files *)

Module Observations.
Import BuildProjectGraph.

(** The warning [updatePluginsInNxJson] emits for a provider and its newly
    excluded files. *)
Definition warningFor (pluginName : string) (excludeFiles : JS.StrSet)
  : Probe.Warning :=
  {| Probe.title := "Incompatible projects found for " +:+ pluginName
                    +:+ " plugin";
     Probe.bodyLines :=
       ("Added the following files to the exclude list for "
          +:+ pluginName +:+ ":")
       :: ((λ file, "  - " +:+ Probe.bold file) <$> excludeFiles) |}.

(** A descriptor keeps its provider, options and include list and loses no
    exclude entry. *)
Definition keepsDescriptor (d d' : PluginConfiguration) : Prop :=
  Probe.descriptorName d' = Probe.descriptorName d
  ∧ options (Probe.expanded d') = options (Probe.expanded d)
  ∧ include (Probe.expanded d') = include (Probe.expanded d)
  ∧ ∀ x, x ∈ default [] (exclude (Probe.expanded d)) →
         x ∈ default [] (exclude (Probe.expanded d')).

(** The dependencies and development dependencies a manifest declares, none
    for an absent manifest. *)
Definition declared (f : PackageJsonFile) (dev : bool) : gmap string string :=
  match f with
  | ManifestContent json =>
      default ∅ (if dev then packageDevDependencies json
                 else packageDependencies json)
  | _ => ∅
  end.

(** The first of two optional values that is present. *)
Definition orElse {A} (a b : option A) : option A :=
  match a with
  | Some x => Some x
  | None => b
  end.

(** The collaborators with another validity check. *)
Definition withValidity (env : Collaborators)
    (check : gmap string ProjectConfiguration → NxJsonConfiguration →
             Outcome JsError ()) : Collaborators :=
  {| workspaceRoot := workspaceRoot env;
     readNxJson := readNxJson env;
     assertWorkspaceValidity := check;
     rootPackageJson := rootPackageJson env;
     installationPackageJson := installationPackageJson env;
     rootTsConfigFile := rootTsConfigFile env;
     normalizeProjectNodes := normalizeProjectNodes env;
     applyImplicitDependencies := applyImplicitDependencies env;
     dependenciesSettle := dependenciesSettle env;
     metadataSettle := metadataSettle env |}.

(** A provider has the metadata capability. *)
Definition contributesMetadata (plugin : LoadedNxPlugin.t) : Prop :=
  is_Some (LoadedNxPlugin.createMetadata plugin).

(** The longest prefix whose elements all satisfy [f]. *)
Fixpoint takeWhile {A} (f : A → bool) (xs : list A) : list A :=
  match xs with
  | [] => []
  | x :: xs => if f x then x :: takeWhile f xs else []
  end.

(** The edges of a provider the builder takes: those before the first one
    it rejects. *)
Definition acceptedEdges (context : CreateDependenciesContext.t)
    (graph : ProjectGraph) (plugin : LoadedNxPlugin.t)
  : list RawProjectGraphDependency :=
  match LoadedNxPlugin.createDependencies plugin with
  | Some createDependencies =>
      match createDependencies context with
      | Returned dependencies =>
          takeWhile (ProjectGraphBuilder.accepts graph) dependencies
      | Thrown _ => []
      end
  | None => []
  end.

(** What is left of a project node when its metadata is set aside. *)
Definition nodeIdentity (node : ProjectGraphProjectNode)
  : string * string * string * Json :=
  (nodeType node, name (data node), root (data node),
   projectRest (data node)).

(** The two kinds of error the provider phases record. *)
Definition isProcessDependenciesError (e : JsError) : bool :=
  match e with ProcessDependenciesError _ _ => true | _ => false end.

Definition isCreateMetadataError (e : JsError) : bool :=
  match e with CreateMetadataError _ _ => true | _ => false end.

End Observations.

(** * More concrete providers *)

Module MoreExamples.

Definition edgeToMissing : RawProjectGraphDependency :=
  {| source := "a"; target := "missing"; type := static; sourceFile := None |}.

Definition edgeBA : RawProjectGraphDependency :=
  {| source := "b"; target := "a"; type := static; sourceFile := None |}.

(** A provider whose second edge points to a project that does not exist. *)
Definition halfEdges (_ : CreateDependenciesContext.t)
  : Outcome JsError (list RawProjectGraphDependency) :=
  Returned [Examples.edgeAB; edgeToMissing; edgeBA].

Definition halfAccepted : LoadedNxPlugin.t :=
  {| LoadedNxPlugin.name := "half";
     LoadedNxPlugin.createDependencies := Some halfEdges;
     LoadedNxPlugin.createMetadata := None |}.

(** A provider with neither capability. *)
Definition idle : LoadedNxPlugin.t :=
  {| LoadedNxPlugin.name := "idle";
     LoadedNxPlugin.createDependencies := None;
     LoadedNxPlugin.createMetadata := None |}.

(** A provider that links [b] to [a]. *)
Definition linksBA : LoadedNxPlugin.t :=
  {| LoadedNxPlugin.name := "links-back";
     LoadedNxPlugin.createDependencies := Some (λ _, Returned [edgeBA]);
     LoadedNxPlugin.createMetadata := None |}.

End MoreExamples.

(** * Facts about the JavaScript containers *)

Lemma Boolean_Some s : Boolean (Some s) = true ↔ s ≠ "".
Proof.
  simpl. rewrite negb_true_iff. split.
  - intros H ->. discriminate.
  - intros H. apply String.eqb_neq. exact H.
Qed.

Module JSFacts.
Import JS.

Lemma elem_of_add s x y : y ∈ add s x ↔ y ∈ s ∨ y = x.
Proof.
  unfold add. case_decide as Hx.
  - split; [auto|]. intros [?| ->]; done.
  - rewrite elem_of_app, list_elem_of_singleton. done.
Qed.

Lemma NoDup_add s x : NoDup s → NoDup (add s x).
Proof.
  intros Hs. unfold add. case_decide as Hx; [done|].
  apply NoDup_app. split_and!; [done| |apply NoDup_singleton].
  intros y Hy ->%list_elem_of_singleton. done.
Qed.

Lemma elem_of_add_all xs : ∀ s y, y ∈ add_all s xs ↔ y ∈ s ∨ y ∈ xs.
Proof.
  induction xs as [|x xs IH]; intros s y; simpl.
  - rewrite elem_of_nil. tauto.
  - unfold add_all in *. simpl. rewrite IH, elem_of_add, elem_of_cons. tauto.
Qed.

Lemma NoDup_add_all xs : ∀ s, NoDup s → NoDup (add_all s xs).
Proof.
  induction xs as [|x xs IH]; intros s Hs; [done|].
  unfold add_all in *. simpl. apply IH, NoDup_add, Hs.
Qed.

Lemma add_all_nil_inv s xs : add_all s xs = [] → s = [] ∧ xs = [].
Proof.
  intros H. destruct xs as [|x xs]; [done|].
  assert (x ∈ add_all s (x :: xs)) as Hx
    by (apply elem_of_add_all; right; left).
  rewrite H in Hx. by apply elem_of_nil in Hx.
Qed.

Lemma get_set_eq {V} (o : Obj V) k v : get (set o k v) k = Some v.
Proof.
  induction o as [|[k' v'] o IH]; simpl.
  - by rewrite decide_True.
  - case_decide; simpl.
    + by rewrite decide_True.
    + by rewrite decide_False.
Qed.

Lemma get_set_ne {V} (o : Obj V) k k' v :
  k ≠ k' → get (set o k v) k' = get o k'.
Proof.
  intros Hne. induction o as [|[k0 v0] o IH]; simpl.
  - by rewrite decide_False.
  - case_decide as Hk; simpl.
    + subst k0. by rewrite !decide_False.
    + case_decide; [done|]. exact IH.
Qed.

Lemma get_None {V} (o : Obj V) k : get o k = None ↔ k ∉ keys o.
Proof.
  unfold keys. induction o as [|[k0 v0] o IH]; simpl.
  - split; [intros _; apply not_elem_of_nil|done].
  - rewrite not_elem_of_cons. case_decide as Hk.
    + split; [done|]. intros [? _]. by subst.
    + rewrite IH. split; [by intros ?|by intros [_ ?]].
Qed.

Lemma keys_set_present {V} (o : Obj V) k v :
  k ∈ keys o → keys (set o k v) = keys o.
Proof.
  unfold keys. induction o as [|[k0 v0] o IH]; simpl.
  - intros H. by apply elem_of_nil in H.
  - intros H. case_decide as Hk; simpl; [by subst|].
    f_equal. apply IH. apply elem_of_cons in H as [?|?]; [by subst|done].
Qed.

Lemma keys_set_absent {V} (o : Obj V) k v :
  k ∉ keys o → keys (set o k v) = keys o ++ [k].
Proof.
  unfold keys. induction o as [|[k0 v0] o IH]; simpl; [done|].
  intros [Hne Hk]%not_elem_of_cons.
  rewrite decide_False by done. simpl. f_equal. by apply IH.
Qed.

Lemma NoDup_keys_set {V} (o : Obj V) k v :
  NoDup (keys o) → NoDup (keys (set o k v)).
Proof.
  intros Ho. destruct (decide (k ∈ keys o)) as [Hin|Hout].
  - by rewrite keys_set_present.
  - rewrite keys_set_absent by done.
    apply NoDup_app. split_and!; [done| |apply NoDup_singleton].
    intros y Hy ->%list_elem_of_singleton. done.
Qed.

End JSFacts.

(** * The compatibility probe *)

Module ProbeFacts.
Import JS JSFacts Probe.

#[local] Arguments filterBoolean : simpl never.

Lemma elem_of_filterBoolean files f :
  f ∈ filterBoolean files ↔ f ≠ "" ∧ Some f ∈ files.
Proof.
  unfold filterBoolean. rewrite list_elem_of_omap. split.
  - intros (x & Hx & Hf). destruct (Boolean x) eqn:Hb; [|done].
    subst x. split; [by apply Boolean_Some|done].
  - intros [Hne Hin]. exists (Some f). split; [done|].
    apply Boolean_Some in Hne. by rewrite Hne.
Qed.

Lemma find_Some_inv e p fs :
  findPluginAndFilesWithError e = Some (p, fs) → p ≠ "" ∧ fs ≠ [].
Proof.
  unfold findPluginAndFilesWithError.
  destruct e as [roots|errors [name|]|file name cause|msg]; simpl;
    try discriminate.
  - destruct (negb (negb (String.eqb name ""))) eqn:Hn; simpl; [done|].
    destruct (filterBoolean _) as [|f fs'] eqn:Hfs; simpl; [done|].
    intros [= <- <-]. split; [|done].
    apply Boolean_Some. simpl. by apply negb_false_iff in Hn.
  - destruct (negb (negb (String.eqb name ""))) eqn:Hn; simpl; [done|].
    destruct (filterBoolean _) as [|f fs'] eqn:Hfs; simpl; [done|].
    intros [= <- <-]. split; [|done].
    apply Boolean_Some. simpl. by apply negb_false_iff in Hn.
Qed.

Lemma find_Some_cites e p f :
  (∃ fs, findPluginAndFilesWithError e = Some (p, fs) ∧ f ∈ fs)
  ↔ p ≠ "" ∧ f ≠ "" ∧ cites e p f.
Proof.
  split.
  - intros (fs & Hfind & Hf). pose proof (find_Some_inv _ _ _ Hfind) as [Hp _].
    split; [done|]. revert Hfind. unfold findPluginAndFilesWithError.
    destruct e as [roots|errors [name|]|file name cause|msg]; simpl;
      try discriminate.
    + destruct (_ || _); [done|]. intros [= -> <-].
      apply elem_of_filterBoolean in Hf as [Hne Hin]. split; [done|].
      split; [done|]. destruct errors as [errors|]; simpl in *.
      * apply list_elem_of_fmap in Hin as ([f' c] & Heq & Hin).
        simpl in Heq. subst f'. by exists c.
      * by apply elem_of_nil in Hin.
    + destruct (_ || _); [done|]. intros [= -> <-].
      apply elem_of_filterBoolean in Hf as [Hne Hin].
      apply list_elem_of_singleton in Hin as [= ->]. done.
  - intros (Hp & Hf & Hc). apply Boolean_Some in Hp as Hpb. simpl in Hpb.
    unfold findPluginAndFilesWithError.
    destruct e as [roots|errors name|file name cause|msg]; simpl in Hc;
      try done.
    + destruct Hc as [-> [c Hc]]. simpl. rewrite Hpb. simpl.
      assert (f ∈ filterBoolean (default [] (fmap (M:=list) fst <$> errors)))
        as Hin.
      { apply elem_of_filterBoolean. split; [done|].
        destruct errors as [errors|]; simpl in *;
          [|by apply elem_of_nil in Hc].
        apply list_elem_of_fmap. by exists (Some f, c). }
      destruct (filterBoolean _) as [|f0 fs0] eqn:Hfs;
        [by apply elem_of_nil in Hin|].
      simpl. eauto.
    + destruct Hc as [-> ->]. simpl. rewrite Hpb. simpl.
      assert (f ∈ filterBoolean [Some f]) as Hin.
      { apply elem_of_filterBoolean. split; [done|]. apply list_elem_of_here. }
      destruct (filterBoolean _) as [|f0 fs0] eqn:Hfs;
        [by apply elem_of_nil in Hin|].
      simpl. eauto.
Qed.

Lemma forEach_app {E A B} (body : A → B → Outcome E A) xs ys : ∀ acc,
  forEach body acc (xs ++ ys)
  = match forEach body acc xs with
    | Returned acc => forEach body acc ys
    | Thrown e => Thrown e
    end.
Proof.
  induction xs as [|x xs IH]; intros acc; simpl; [done|].
  destruct (body acc x); [apply IH|done].
Qed.

Lemma forEach_snoc {E A B} (body : A → B → Outcome E A) xs x acc :
  forEach body acc (xs ++ [x])
  = match forEach body acc xs with
    | Returned acc => body acc x
    | Thrown e => Thrown e
    end.
Proof.
  rewrite forEach_app. destruct (forEach body acc xs) as [acc'|e]; [|done].
  simpl. by destruct (body acc' x).
Qed.

Lemma forEach_fixed {E A B} (body : A → B → Outcome E A) acc xs :
  (∀ x, x ∈ xs → body acc x = Returned acc) →
  forEach body acc xs = Returned acc.
Proof.
  induction xs as [|x xs IH]; intros Hfix; [done|]. simpl.
  rewrite (Hfix x) by left. apply IH. intros y Hy. apply Hfix. by right.
Qed.

Lemma plain_nil : plain [].
Proof. intros k Hk. by apply elem_of_nil in Hk. Qed.

Lemma read_plain m p :
  plain m → p ∈ inherited → read m p = Inherited.
Proof.
  intros Hplain Hp. unfold read.
  destruct (get m p) as [s|] eqn:Hget.
  - assert (p ∈ keys m) as Hk.
    { destruct (decide (p ∈ keys m)) as [|Hn]; [done|].
      apply get_None in Hn. congruence. }
    by destruct (Hplain p Hk).
  - by rewrite decide_True.
Qed.

(** When one error is recorded.  For a provider whose name is no inherited
    member the entry of that provider, and only that entry, takes the files
    of the error; otherwise the call throws. *)
Lemma recordError_spec acc e :
  match findPluginAndFilesWithError e with
  | None => recordError acc e = Returned acc
  | Some (p, fs) =>
      match get acc p with
      | None =>
          if decide (p ∈ inherited)
          then recordError acc e = Thrown addOfInherited
          else recordError acc e = Returned (set acc p (add_all [] fs))
      | Some s => recordError acc e = Returned (set acc p (add_all s fs))
      end
  end.
Proof.
  unfold recordError.
  destruct (findPluginAndFilesWithError e) as [[p fs]|] eqn:Hfind; [|done].
  apply find_Some_inv in Hfind as [Hp Hfs].
  apply Boolean_Some in Hp. rewrite Hp.
  destruct fs as [|f fs]; [done|]. cbn [length Nat.eqb negb orb].
  unfold read. destruct (get acc p); [done|]. by case_decide.
Qed.

(** One error only touches the entry of the provider it implicates. *)
Lemma recordError_get acc acc' e p :
  recordError acc e = Returned acc' →
  get acc' p =
    match findPluginAndFilesWithError e with
    | Some (p', fs) =>
        if decide (p' = p)
        then Some (add_all (default [] (get acc p)) fs)
        else get acc p
    | None => get acc p
    end.
Proof.
  intros Hrec. pose proof (recordError_spec acc e) as Hspec.
  destruct (findPluginAndFilesWithError e) as [[p' fs]|];
    [|by rewrite Hrec in Hspec; simplify_eq].
  assert (∀ s, get acc p' = s →
               acc' = set acc p' (add_all (default [] s) fs)) as Hset.
  { intros s Hs. rewrite Hs in Hspec. destruct s as [s|]; simpl.
    - rewrite Hrec in Hspec. by simplify_eq.
    - case_decide; rewrite Hrec in Hspec; by simplify_eq. }
  rewrite (Hset _ eq_refl). clear Hspec Hset. case_decide as Hpp.
  - subst p'. apply get_set_eq.
  - by apply get_set_ne.
Qed.

Lemma recordError_keys acc acc' e :
  recordError acc e = Returned acc' →
  (NoDup (keys acc) → NoDup (keys acc')) ∧ (plain acc → plain acc').
Proof.
  intros Hrec. pose proof (recordError_spec acc e) as Hspec.
  destruct (findPluginAndFilesWithError e) as [[p fs]|];
    [|by rewrite Hrec in Hspec; simplify_eq].
  destruct (get acc p) as [s|] eqn:Hget.
  - rewrite Hrec in Hspec. simplify_eq. split.
    + by apply NoDup_keys_set.
    + intros Hplain k. rewrite keys_set_present; [apply Hplain|].
      destruct (decide (p ∈ keys acc)) as [|Hn]; [done|].
      apply get_None in Hn. congruence.
  - case_decide as Hin; rewrite Hrec in Hspec; simplify_eq. split.
    + by apply NoDup_keys_set.
    + intros Hplain k. rewrite keys_set_absent by by apply get_None.
      intros [Hk| ->%list_elem_of_singleton]%elem_of_app; [by apply Hplain|].
      done.
Qed.

Lemma collected_nil : collected [] [].
Proof.
  split_and!.
  - apply NoDup_nil_2.
  - intros p fs. simpl. discriminate.
  - intros p f. split.
    + intros (fs & Hfs & _). simpl in Hfs. discriminate.
    + intros (_ & _ & e & He & _). by apply elem_of_nil in He.
Qed.

Lemma collected_step m m' errs e :
  collected m errs → recordError m e = Returned m' →
  collected m' (errs ++ [e]).
Proof.
  intros (Hkeys & Hsets & Hrel) Hrec. split_and!.
  - by apply (recordError_keys m m' e).
  - intros p fs. rewrite (recordError_get m m' e p Hrec).
    destruct (findPluginAndFilesWithError e) as [[p' fs']|] eqn:Hfind;
      [|apply Hsets].
    case_decide as Hpp; [|apply Hsets]. subst p'. intros [= <-].
    apply find_Some_inv in Hfind as [_ Hne]. split.
    + apply NoDup_add_all.
      destruct (get m p) as [fs0|] eqn:Hg; simpl; [|apply NoDup_nil_2].
      by apply Hsets in Hg as [? _].
    + intros [_ ->]%add_all_nil_inv. done.
  - intros p f. rewrite (recordError_get m m' e p Hrec).
    setoid_rewrite elem_of_app. setoid_rewrite list_elem_of_singleton.
    pose proof (find_Some_cites e p f) as Hfc.
    pose proof (Hrel p f) as Hpf.
    destruct (findPluginAndFilesWithError e) as [[p' fs']|] eqn:Hfind.
    + case_decide as Hpp.
      * subst p'. split.
        -- intros (fs & [= <-] & Hf). apply elem_of_add_all in Hf as [Hf|Hf].
           ++ destruct (get m p) as [fs0|] eqn:Hg; simpl in Hf;
                [|by apply elem_of_nil in Hf].
              destruct Hpf as [Hpf _].
              destruct Hpf as (? & ? & e0 & ? & ?); [by eauto|]. eauto 10.
           ++ destruct Hfc as [Hfc _].
              destruct Hfc as (? & ? & ?); [by eauto|]. eauto 10.
        -- intros (Hp & Hf & e0 & [He0| ->] & Hc).
           ++ destruct Hpf as [_ Hpf].
              destruct Hpf as (fs & Hg & Hin); [by eauto 10|].
              eexists. split; [done|]. apply elem_of_add_all. left.
              by rewrite Hg.
           ++ destruct Hfc as [_ Hfc].
              destruct Hfc as (fs & [= <-] & Hin); [done|].
              eexists. split; [done|]. apply elem_of_add_all. by right.
      * rewrite Hpf. split.
        -- intros (? & ? & e0 & ? & ?). eauto 10.
        -- intros (Hp & Hf & e0 & [He0| ->] & Hc); [by eauto 10|].
           destruct Hfc as [_ Hfc].
           destruct Hfc as (fs & [= <- <-] & Hin); done.
    + rewrite Hpf. split.
      * intros (? & ? & e0 & ? & ?). eauto 10.
      * intros (Hp & Hf & e0 & [He0| ->] & Hc); [by eauto 10|].
        destruct Hfc as [_ Hfc].
        destruct Hfc as (fs & [=] & Hin); done.
Qed.

(** A mapping the probe resolves with holds what its errors cite. *)
Lemma collected_foldl errs m :
  forEach recordError [] errs = Returned m → collected m errs ∧ plain m.
Proof.
  revert m. induction errs as [|e errs IH] using rev_ind; intros m.
  - intros [= <-]. split; [apply collected_nil|apply plain_nil].
  - rewrite forEach_snoc.
    destruct (forEach recordError [] errs) as [m0|t]; [|done].
    destruct (IH m0 eq_refl) as [Hcol Hplain]. intros Hrec. split.
    + by eapply collected_step.
    + by apply (recordError_keys m0 m e).
Qed.

Lemma implicates_cons e errs p :
  implicates (e :: errs) p
  ↔ (∃ fs, findPluginAndFilesWithError e = Some (p, fs)) ∨ implicates errs p.
Proof.
  unfold implicates. split.
  - intros (Hp & e' & f & [->|He]%elem_of_cons & Hf & Hc).
    + left. destruct (find_Some_cites e p f) as [_ H].
      destruct H as (fs & ? & _); eauto.
    + right. eauto 10.
  - intros [[fs Hfind]|(Hp & e' & f & He & Hf & Hc)].
    + pose proof (find_Some_inv _ _ _ Hfind) as [Hp Hfs].
      destruct fs as [|f fs]; [done|].
      destruct (find_Some_cites e p f) as [H _].
      destruct H as (_ & ? & ?); [exists (f :: fs); split; [done|left]|].
      split; [done|]. exists e, f. split_and!; [left|done..].
    + split; [done|]. exists e', f. split_and!; [by right|done..].
Qed.

(** The probe's loop completes when no error implicates a provider named
    like an inherited member. *)
Lemma forEach_recordError_returns errs : ∀ m,
  plain m → (∀ p, implicates errs p → p ∉ inherited) →
  ∃ m', forEach recordError m errs = Returned m'.
Proof.
  induction errs as [|e errs IH]; intros m Hplain Hnames; [by eexists|].
  simpl. pose proof (recordError_spec m e) as Hspec.
  assert (∃ m', recordError m e = Returned m') as [m' Hrec].
  { destruct (findPluginAndFilesWithError e) as [[p fs]|] eqn:Hfind;
      [|by eexists].
    destruct (get m p); [by eexists|].
    rewrite decide_False in Hspec; [by eexists|].
    apply Hnames, implicates_cons. left. by exists fs. }
  rewrite Hrec. apply IH.
  - by apply (recordError_keys m m' e).
  - intros p Hp. apply Hnames, implicates_cons. by right.
Qed.

(** It throws, and what it throws is the failed [add] call, when an error
    does. *)
Lemma forEach_recordError_throws errs : ∀ m,
  plain m → (∃ p, implicates errs p ∧ p ∈ inherited) →
  forEach recordError m errs = Thrown addOfInherited.
Proof.
  induction errs as [|e errs IH]; intros m Hplain (q & Hq & Hqin).
  { destruct Hq as (_ & e & f & He & _). by apply elem_of_nil in He. }
  simpl. pose proof (recordError_spec m e) as Hspec.
  apply implicates_cons in Hq.
  destruct (findPluginAndFilesWithError e) as [[p fs]|] eqn:Hfind.
  - destruct (decide (p ∈ inherited)) as [Hin|Hnin].
    + pose proof (read_plain m p Hplain Hin) as Hread.
      unfold read in Hread. destruct (get m p); [done|].
      by rewrite Hspec.
    + assert (∃ m', recordError m e = Returned m') as [m' Hrec].
      { destruct (get m p); by eexists. }
      rewrite Hrec. apply IH; [by apply (recordError_keys m m' e)|].
      destruct Hq as [[fs' Hq]|Hq]; [congruence|by eauto].
  - rewrite Hspec. apply IH; [done|].
    destruct Hq as [[fs' Hq]|Hq]; [done|by eauto].
Qed.

Lemma recordError_ignored acc e :
  ignoredKind e → recordError acc e = Returned acc.
Proof. by destruct e. Qed.

Lemma foldl_recordError_ignored errs acc :
  Forall ignoredKind errs → forEach recordError acc errs = Returned acc.
Proof.
  intros Hall. apply forEach_fixed. intros e He.
  apply recordError_ignored. by eapply Forall_forall.
Qed.

Section claims.
Context {LoadedNxPlugin Cleanup ProjectConfigs LoadError ReadError : Type}.
Implicit Types
  (loadNxPlugins : list PluginConfiguration → string →
                   Outcome LoadError (list LoadedNxPlugin * Cleanup))
  (readNxJson : string → Outcome ReadError NxJsonConfiguration)
  (retrieveProjectConfigurations :
     list LoadedNxPlugin → string → NxJsonConfiguration →
     Outcome RetrieveError ProjectConfigs).


(** C8, as the code has it.  The probe resolves with the empty mapping when
    provider loading fails and, once [nx.json] was read, when retrieval
    succeeds, when retrieval rejects with something that is not a
    [ProjectConfigurationsError], and when the [ProjectConfigurationsError]
    lists only errors that are neither [AggregateCreateNodesError] nor
    [MergeNodesError], such as a single [ProjectsWithNoNameError].  What
    [readNxJson] throws is not caught: the probe rejects with it.  Apart from
    that the probe resolves, as long as no implicated provider is named like
    a member every object inherits. *)
Theorem probe_swallows_other_failures
    loadNxPlugins readNxJson retrieveProjectConfigurations workspaceRoot
    plugins projectRootPathToCheck root :
  let result :=
    checkCompatibleWithPlugins loadNxPlugins readNxJson
      retrieveProjectConfigurations workspaceRoot
      plugins projectRootPathToCheck root in
  (∀ e, loadNxPlugins plugins root = Thrown e → result = Returned [])
  ∧ (∀ nxPlugins cleanup,
       loadNxPlugins plugins root = Returned (nxPlugins, cleanup) →
       (∀ e, readNxJson workspaceRoot = Thrown e →
             result = Thrown (ReadFailed e))
       ∧ (∀ nxJson,
            readNxJson workspaceRoot = Returned nxJson →
            let retrieved :=
              retrieveProjectConfigurations nxPlugins projectRootPathToCheck
                nxJson in
            (∀ configs, retrieved = Returned configs → result = Returned [])
            ∧ (∀ msg, retrieved = Thrown (OtherRetrieveError msg) →
                      result = Returned [])
            ∧ (∀ errors,
                 retrieved = Thrown (ProjectConfigurationsError errors) →
                 Forall ignoredKind (default [] errors) →
                 result = Returned [])
            ∧ (∀ roots,
                 retrieved
                   = Thrown (ProjectConfigurationsError
                               (Some [ProjectsWithNoNameError roots])) →
                 result = Returned [])
            ∧ (∀ errors,
                 retrieved = Thrown (ProjectConfigurationsError errors) →
                 (∀ p, implicates (default [] errors) p → p ∉ inherited) →
                 ∃ m, result = Returned m))).
Proof.
  intros result. subst result.
  unfold checkCompatibleWithPlugins. split.
  - by intros e ->.
  - intros nx c ->. split; [by intros e ->|].
    intros nxJson ->. cbv zeta. split_and!.
    + by intros configs ->.
    + by intros msg ->.
    + intros errors -> Hall. by rewrite foldl_recordError_ignored.
    + by intros roots ->.
    + intros errors -> Hnames.
      destruct (forEach_recordError_returns (default [] errors) []
                  plain_nil Hnames) as [m ->].
      by exists m.
Qed.

End claims.



(** The probe does propagate failures: what [readNxJson] throws, and the
    failed [add] call for a provider named [toString]. *)
Lemma probe_propagates_readNxJson_failure :
  checkCompatibleWithPlugins mockLoad
    (λ _, Thrown "nx.json: unexpected token")
    (mockRetrieve (Returned ()))
    "/workspace" [PluginString "plugin1"; PluginString "plugin2"]
    "projectRootPathToCheck" "/tmp"
  = Thrown (ReadFailed "nx.json: unexpected token")
  ∧ checkCompatibleWithPlugins mockLoad mockReadNxJson
      (mockRetrieve
         (Thrown (ProjectConfigurationsError
                    (Some [AggregateCreateNodesError
                             (Some [(Some "file1", "undefined")])
                             (Some "toString")]))))
      "/workspace" [PluginString "toString"]
      "projectRootPathToCheck" "/tmp"
    = Thrown (Raised addOfInherited).
Proof. split; reflexivity. Qed.

(** ** Rewriting the provider list *)

Implicit Types (ps : list PluginConfiguration) (i j : nat) (m : Mapping).
Implicit Types (files : StrSet).

Lemma matchesName_spec n d : Is_true (matchesName n d) ↔ descriptorName d = n.
Proof. destruct d; simpl; apply bool_decide_spec. Qed.

Lemma firstDescriptor_Some ps n i :
  firstDescriptor ps n = Some i →
  ∃ d, ps !! i = Some d ∧ descriptorName d = n.
Proof.
  unfold firstDescriptor. intros H.
  destruct (list_find _ ps) as [[j d]|] eqn:Hfind; [|done].
  simpl in H. injection H as ->.
  apply list_find_Some in Hfind as (Hd & Hn & _). eauto.
Qed.

(** The first descriptor of a provider only depends on the names in the
    list. *)
Lemma firstDescriptor_names ps ps' n :
  descriptorName <$> ps' = descriptorName <$> ps →
  firstDescriptor ps' n = firstDescriptor ps n.
Proof.
  intros Hnames. unfold firstDescriptor.
  pose proof (list_find_fmap descriptorName (λ s, s = n) ps) as H1.
  pose proof (list_find_fmap descriptorName (λ s, s = n) ps') as H2.
  rewrite Hnames, H1 in H2.
  change ((λ s, s = n) ∘ descriptorName) with (λ d, descriptorName d = n) in H2.
  destruct (list_find (λ d, descriptorName d = n) ps) as [[i d]|],
    (list_find (λ d, descriptorName d = n) ps') as [[i' d']|];
    simpl in *; congruence.
Qed.

Lemma withExcluded_name d files :
  descriptorName (withExcluded d files) = descriptorName d.
Proof. done. Qed.

Lemma names_insert_withExcluded ps i d files :
  ps !! i = Some d →
  descriptorName <$> <[i := withExcluded d files]> ps = descriptorName <$> ps.
Proof.
  intros Hd. rewrite list_fmap_insert, withExcluded_name.
  apply list_insert_id. by rewrite list_lookup_fmap, Hd.
Qed.

Lemma updateEntry_found ps ws n files i :
  files ≠ [] → firstDescriptor ps n = Some i →
  ∃ d, ps !! i = Some d ∧ descriptorName d = n
       ∧ (updateEntry (ps, ws) (n, files)).1 = <[i := withExcluded d files]> ps.
Proof.
  intros Hfiles Hfirst. unfold firstDescriptor in Hfirst.
  unfold updateEntry, findPluginWithName.
  rewrite (list_find_ext (λ d, Is_true (matchesName n d))
                         (λ d, descriptorName d = n))
    by (intros; apply matchesName_spec).
  destruct (list_find _ ps) as [[j d]|] eqn:Hfind; [|done].
  simpl in Hfirst. injection Hfirst as ->.
  apply list_find_Some in Hfind as (Hd & Hn & _).
  exists d. split_and!; [done..|].
  destruct files as [|f files]; [done|].
  destruct d as [name|cfg]; simpl in *.
  - rewrite list_insert_insert_eq. by subst.
  - done.
Qed.

Lemma updateEntry_missing ps ws n files :
  firstDescriptor ps n = None → (updateEntry (ps, ws) (n, files)).1 = ps.
Proof.
  unfold firstDescriptor, updateEntry, findPluginWithName.
  rewrite (list_find_ext (λ d, Is_true (matchesName n d))
                         (λ d, descriptorName d = n))
    by (intros; apply matchesName_spec).
  by destruct (list_find _ ps) as [[j d]|].
Qed.

(** The provider list after all entries of a probe result were applied. *)
Lemma foldl_updateEntry m : ∀ ps ws,
  NoDup (keys m) → (∀ p fs, (p, fs) ∈ m → fs ≠ []) →
  let ps' := (foldl updateEntry (ps, ws) m).1 in
  descriptorName <$> ps' = descriptorName <$> ps
  ∧ (∀ i d name files,
       ps !! i = Some d → (name, files) ∈ m →
       firstDescriptor ps name = Some i →
       ps' !! i = Some (withExcluded d files))
  ∧ (∀ i, (∀ name files, (name, files) ∈ m →
                         firstDescriptor ps name ≠ Some i) →
          ps' !! i = ps !! i).
Proof.
  unfold keys.
  induction m as [|[n files] m IH]; intros ps ws Hkeys Hne; cbn [foldl].
  { split_and!; [done| |done]. intros ???? _ Hin. by apply elem_of_nil in Hin. }
  apply NoDup_cons in Hkeys as [Hn Hkeys]. simpl in Hn.
  assert (files ≠ []) as Hfiles by (eapply Hne; left).
  destruct (updateEntry (ps, ws) (n, files)) as [ps1 ws1] eqn:Hstep.
  assert (descriptorName <$> ps1 = descriptorName <$> ps
          ∧ ∀ j, firstDescriptor ps n ≠ Some j → ps1 !! j = ps !! j)
    as [Hnames Hother].
  { destruct (firstDescriptor ps n) as [i|] eqn:Hfirst.
    - destruct (updateEntry_found ps ws n files i Hfiles Hfirst)
        as (d & Hd & _ & Heq).
      rewrite Hstep in Heq. simpl in Heq. subst ps1. split.
      + by apply names_insert_withExcluded.
      + intros j Hj. apply list_lookup_insert_ne. congruence.
    - pose proof (updateEntry_missing ps ws n files Hfirst) as Heq.
      rewrite Hstep in Heq. simpl in Heq. by subst ps1. }
  destruct (IH ps1 ws1 Hkeys) as (IHnames & IHhit & IHmiss).
  { intros p fs Hin. eapply Hne. by right. }
  assert (∀ name files' i, (name, files') ∈ m →
            firstDescriptor ps name = Some i → firstDescriptor ps n ≠ Some i)
    as Hdistinct.
  { intros name files' i Hin Hname Hhead.
    apply firstDescriptor_Some in Hname as (d1 & Hd1 & Hn1).
    apply firstDescriptor_Some in Hhead as (d2 & Hd2 & Hn2).
    apply Hn. apply list_elem_of_fmap. exists (name, files'). split; [|done].
    simpl. congruence. }
  split_and!.
  - by etrans.
  - intros i d name files' Hd [[= -> ->]|Hin]%elem_of_cons Hfirst.
    + destruct (updateEntry_found ps ws n files i Hfiles Hfirst)
        as (d' & Hd' & _ & Heq).
      rewrite Hstep in Heq. simpl in Heq. subst ps1.
      assert (d' = d) as -> by congruence.
      rewrite IHmiss.
      * apply list_lookup_insert_eq. by eapply lookup_lt_Some.
      * intros name2 files2 Hin2 Hfirst2.
        rewrite (firstDescriptor_names ps _ name2) in Hfirst2
          by (by apply names_insert_withExcluded).
        by eapply Hdistinct.
    + apply IHhit with name; [|done|].
      * rewrite Hother; [done|]. by eapply Hdistinct.
      * by rewrite (firstDescriptor_names ps ps1).
  - intros i Hmiss. rewrite IHmiss.
    + apply Hother. eapply Hmiss. left.
    + intros name files' Hin.
      rewrite (firstDescriptor_names ps ps1) by done.
      eapply Hmiss. by right.
Qed.

(** C9.  [updatePluginsInNxJson] writes nothing when [nx.json] is absent or
    unreadable, when it has no (or an empty) provider list, and when the
    probe result is empty.  Otherwise it writes the document back with a
    provider list of the same length in which, for every provider of the
    probe result that has a descriptor, the first such descriptor is in
    structured form, keeps its name, options and include list, and has as
    exclude list a duplicate-free list holding exactly its previous exclude
    entries and the provider's offending files; every other descriptor and
    the rest of the document are unchanged.  The probe result is an object
    of non-empty sets, as the probe produces them. *)
Theorem update_plugins_excludes_offending_files
    (file : NxJsonFile) (pluginNametoExcludeFiles : Mapping) :
  NoDup (keys pluginNametoExcludeFiles) →
  (∀ p fs, (p, fs) ∈ pluginNametoExcludeFiles → NoDup fs ∧ fs ≠ []) →
  match file with
  | FileAbsent | FileUnreadable =>
      written (updatePluginsInNxJson file pluginNametoExcludeFiles) = None
  | FileContent nxJson =>
      let ps := default [] (plugins nxJson) in
      if decide (ps = [] ∨ pluginNametoExcludeFiles = [])
      then written (updatePluginsInNxJson file pluginNametoExcludeFiles) = None
      else
        ∃ ps',
          written (updatePluginsInNxJson file pluginNametoExcludeFiles)
            = Some {| plugins := Some ps'; nxJsonRest := nxJsonRest nxJson |}
          ∧ length ps' = length ps
          ∧ (∀ i d name files,
               ps !! i = Some d →
               (name, files) ∈ pluginNametoExcludeFiles →
               firstDescriptor ps name = Some i →
               ∃ l, ps' !! i
                    = Some (PluginObject
                              {| plugin := name;
                                 options := options (expanded d);
                                 include := include (expanded d);
                                 exclude := Some l |})
                    ∧ NoDup l
                    ∧ ∀ x, x ∈ l
                           ↔ x ∈ files ∨ x ∈ default [] (exclude (expanded d)))
          ∧ (∀ i, (∀ name files,
                     (name, files) ∈ pluginNametoExcludeFiles →
                     firstDescriptor ps name ≠ Some i) →
                  ps' !! i = ps !! i)
  end.
Proof.
  intros Hkeys Hsets. destruct file as [| |nxJson]; [done..|].
  simpl. case_decide as Hempty.
  - destruct Hempty as [->| ->]; [|done]. simpl. by rewrite orb_true_r.
  - assert (pluginNametoExcludeFiles ≠ [] ∧ default [] (plugins nxJson) ≠ [])
      as [Hm Hps] by (split; intros ?; apply Hempty; auto).
    replace (length (keys pluginNametoExcludeFiles) =? 0)%nat with false
      by (symmetry; apply Nat.eqb_neq;
          destruct pluginNametoExcludeFiles; done).
    replace (length (default [] (plugins nxJson)) =? 0)%nat with false
      by (symmetry; apply Nat.eqb_neq;
          destruct (default [] (plugins nxJson)); done).
    simpl.
    destruct (foldl_updateEntry pluginNametoExcludeFiles
                (default [] (plugins nxJson)) [] Hkeys)
      as (Hnames & Hhit & Hmiss).
    { intros p fs Hin. by apply Hsets in Hin as [_ ?]. }
    destruct (foldl updateEntry _ _) as [ps' ws'] eqn:Hfold. simpl in *.
    exists ps'. split_and!; [done| | |done].
    + by rewrite <-(length_fmap descriptorName), Hnames, length_fmap.
    + intros i d name files Hd Hin Hfirst.
      rewrite (Hhit i d name files Hd Hin Hfirst).
      apply firstDescriptor_Some in Hfirst as (d' & Hd' & Hname).
      assert (d' = d) as -> by congruence. subst name.
      eexists. split; [reflexivity|]. split.
      * apply NoDup_add_all. by apply Hsets in Hin as [? _].
      * intros x. apply elem_of_add_all.
Qed.

Lemma update_plugins_excludes_offending_files_witness :
  ∃ ps',
    written (updatePluginsInNxJson (FileContent exampleNxJson) mixedExpected)
      = Some {| plugins := Some ps'; nxJsonRest := nxJsonRest exampleNxJson |}
    ∧ length ps' = 2.
Proof.
  pose proof (update_plugins_excludes_offending_files
                (FileContent exampleNxJson) mixedExpected) as H.
  cbv beta iota zeta in H.
  rewrite decide_False in H by (intros [?|?]; discriminate).
  destruct H as (ps' & Hw & Hlen & _).
  - apply (bool_decide_unpack _). vm_compute. exact I.
  - intros p fs Hin. apply list_elem_of_In in Hin. simpl in Hin.
    destruct Hin as [[= <- <-]|[[= <- <-]|[]]];
      (split; [apply (bool_decide_unpack _); vm_compute; exact I|done]).
  - exists ps'. split; [exact Hw|exact Hlen].
Defined.

End ProbeFacts.

(** * The cache decision engine *)

Module NxDepsCacheFacts.
Import NxDepsCache.

Lemma elem_of_allFiles fileMap f :
  f ∈ allFiles fileMap
  ↔ f ∈ nonProjectFiles fileMap
    ∨ ∃ project files,
        projectFileMap fileMap !! project = Some files ∧ f ∈ files.
Proof.
  unfold allFiles. rewrite elem_of_app, list_elem_of_bind. split.
  - intros [?|([project files] & Hf & Hin)]; [by left|right].
    apply elem_of_map_to_list in Hin. eauto.
  - intros [?|(project & files & Hin & Hf)]; [by left|right].
    exists (project, files). split; [done|]. by apply elem_of_map_to_list.
Qed.

(** Whatever is handed on for processing comes from the file map and has no
    reusable cache entry. *)
Lemma toProcess_inv fileMap cache f :
  f ∈ allFiles (filesToProcess (extractCachedFileData fileMap cache)) →
  f ∈ allFiles fileMap ∧ cacheHit cache f = None.
Proof.
  rewrite !elem_of_allFiles. simpl.
  assert (∀ files : list FileData,
            f ∈ filter (λ f, Is_true (mustProcess cache f)) files →
                   f ∈ files ∧ cacheHit cache f = None) as Hfilter.
  { intros files [Hp Hin]%list_elem_of_filter. split; [done|].
    unfold mustProcess in Hp. by destruct (cacheHit cache f). }
  intros [Hin|(project & files & Hlook & Hin)].
  - apply Hfilter in Hin as [? ?]. auto.
  - rewrite lookup_fmap in Hlook.
    destruct (projectFileMap fileMap !! project) as [files0|] eqn:Hp;
      [|done].
    simpl in Hlook. injection Hlook as <-.
    apply Hfilter in Hin as [? ?]. split; [|done]. right. eauto.
Qed.

Lemma hits_inv cache files path :
  is_Some (hits cache files !! path) →
  ∃ f, f ∈ files ∧ file f = path ∧ is_Some (cacheHit cache f).
Proof.
  intros [c Hc]. unfold hits in Hc.
  apply elem_of_list_to_map_2, list_elem_of_omap in Hc as (f & Hin & Hf).
  exists f. destruct (cacheHit cache f) as [c'|] eqn:Hhit; [|done].
  simpl in Hf. injection Hf as <- <-. eauto.
Qed.

(** Whatever has an entry in the cached file data is a file of the file map
    with a reusable cache entry. *)
Lemma hitIn_inv fileMap cache path :
  hitIn path (cachedFileData (extractCachedFileData fileMap cache)) →
  ∃ f, f ∈ allFiles fileMap ∧ file f = path ∧ is_Some (cacheHit cache f).
Proof.
  unfold hitIn. simpl. intros [Hin|(project & entries & Hlook & Hin)].
  - apply hits_inv in Hin as (f & ? & ? & ?). exists f.
    rewrite elem_of_allFiles. auto.
  - rewrite lookup_fmap in Hlook.
    destruct (projectFileMap fileMap !! project) as [files|] eqn:Hp; [|done].
    simpl in Hlook. injection Hlook as <-.
    apply hits_inv in Hin as (f & ? & ? & ?). exists f.
    rewrite elem_of_allFiles. eauto 10.
Qed.

Lemma same_path_same_file (files : list FileData) f f' :
  NoDup (file <$> files) → f ∈ files → f' ∈ files → file f = file f' → f = f'.
Proof.
  induction files as [|g files IH]; csimpl; intros Hnd Hf Hf' Heq.
  - by apply elem_of_nil in Hf.
  - apply NoDup_cons in Hnd as [Hg Hnd].
    apply elem_of_cons in Hf as [->|Hf]; apply elem_of_cons in Hf' as [->|Hf'].
    + done.
    + destruct Hg. rewrite Heq. by apply list_elem_of_fmap_2.
    + destruct Hg. rewrite <-Heq. by apply list_elem_of_fmap_2.
    + by apply IH.
Qed.

Lemma cacheHit_unchanged cache f c :
  cachedFiles cache !! file f = Some c → hash c = hash f →
  cacheHit cache f = Some c.
Proof. intros Hc Hh. unfold cacheHit. rewrite Hc. by rewrite decide_True. Qed.

(** Against the snapshot of a build with the same manifest and
    configurations, only the project names can ask for a recomputation. *)
Lemma recompute_after_same_inputs
    (packageJsonDeps : gmap string string)
    (projects : gmap string ProjectConfiguration)
    (nxJson : NxJsonConfiguration) (tsConfig : option Json)
    (fileMap : FileMap) :
  shouldRecomputeWholeGraph
    (createProjectFileMapCache nxJson packageJsonDeps fileMap tsConfig)
    packageJsonDeps projects nxJson tsConfig
  = negb (bool_decide (dom projects = dom (projectFileMap fileMap))).
Proof.
  unfold shouldRecomputeWholeGraph, createProjectFileMapCache. simpl.
  rewrite !bool_decide_eq_true_2 by done. done.
Qed.

(** A file with a reusable entry finds it in the entries extracted for the
    list it is in. *)
Lemma hits_lookup cache (files : list FileData) f c :
  f ∈ files → cacheHit cache f = Some c →
  hits cache files !! file f = Some c.
Proof.
  intros Hin Hhit.
  assert (∀ g c', file g = file f → cacheHit cache g = Some c' → c' = c)
    as Hsame.
  { intros g c' Hpath. unfold cacheHit in *. rewrite Hpath.
    destruct (cachedFiles cache !! file f) as [c0|]; [|done].
    repeat case_decide; congruence. }
  assert (∀ g files,
            hits cache (g :: files)
            = match cacheHit cache g with
              | Some c' => <[file g := c']> (hits cache files)
              | None => hits cache files
              end) as Hcons.
  { intros g l. unfold hits. cbn [omap list_omap].
    by destruct (cacheHit cache g). }
  induction files as [|g files IH]; [by apply elem_of_nil in Hin|].
  assert (hits cache files !! file f = Some c ∨ g = f) as Hcases.
  { apply elem_of_cons in Hin as [->|Hin]; [by right|left; by apply IH]. }
  rewrite Hcons. destruct (cacheHit cache g) as [c'|] eqn:Hg.
  - destruct (decide (file g = file f)) as [Hpath|Hpath].
    + rewrite Hpath, lookup_insert_eq. f_equal. by eapply Hsame.
    + rewrite lookup_insert_ne by done.
      destruct Hcases as [?| ->]; [done|congruence].
  - destruct Hcases as [?| ->]; [done|congruence].
Qed.

(** C6.  For a file map that lists every path once, no path is both among the
    files [extractCachedFileData] hands on for processing and an entry of
    the cached file data it returns, and a file whose path is in the cache
    with the fingerprint it has in the file map is not handed on for
    processing. *)
Theorem extract_partitions_file_map (fileMap : FileMap) (cache : FileMapCache) :
  NoDup (file <$> allFiles fileMap) →
  let extracted := extractCachedFileData fileMap cache in
  (∀ path, ¬ (listedIn path (filesToProcess extracted)
              ∧ hitIn path (cachedFileData extracted)))
  ∧ (∀ f c, f ∈ allFiles fileMap →
            cachedFiles cache !! file f = Some c → hash c = hash f →
            ¬ listedIn (file f) (filesToProcess extracted)).
Proof.
  intros Hnd extracted. subst extracted. split.
  - intros path [(f & Hf & Hpath) Hhit].
    apply toProcess_inv in Hf as [Hf Hmiss].
    apply hitIn_inv in Hhit as (f' & Hf' & Hpath' & Hhit).
    assert (f = f') as <- by (eapply same_path_same_file; [done..|congruence]).
    rewrite Hmiss in Hhit. by destruct Hhit.
  - intros f c Hf Hc Hh (f' & Hf' & Hpath).
    apply toProcess_inv in Hf' as [Hf' Hmiss].
    assert (f' = f) as -> by (by eapply same_path_same_file).
    by rewrite (cacheHit_unchanged cache f c) in Hmiss.
Qed.

Lemma extract_partitions_file_map_witness :
  let extracted :=
    extractCachedFileData Examples.currentFileMap Examples.previousCache in
  ¬ (listedIn "libs/a/a.ts" (filesToProcess extracted)
     ∧ hitIn "libs/a/a.ts" (cachedFileData extracted))
  ∧ ¬ listedIn "libs/a/a.ts" (filesToProcess extracted).
Proof.
  destruct (extract_partitions_file_map
              Examples.currentFileMap Examples.previousCache)
    as [Hdisjoint Hunchanged].
  - apply (bool_decide_unpack _). vm_compute. exact I.
  - split; [apply Hdisjoint|].
    apply (Hunchanged (Examples.file0 "libs/a/a.ts" "h1" None)
                      (Examples.file0 "libs/a/a.ts" "h1" (Some ["npm:x"]))).
    + apply (bool_decide_unpack _). vm_compute. exact I.
    + reflexivity.
    + done.
Defined.

End NxDepsCacheFacts.

(** * The build *)

Module BuildFacts.
Import BuildProjectGraph SpecNotions.

#[local] Arguments ProjectConfigurationUtils.mergeMetadata : simpl never.

(** ** The module-level cells *)

Lemma withCachedDeps_None f : withCachedDeps None f = f.
Proof. done. Qed.

Lemma copyCachedDeps_empty fileMap :
  copyCachedDeps {| CachedFileData.nonProjectFiles := ∅;
                    CachedFileData.projectFileMap := ∅ |} fileMap
  = fileMap.
Proof.
  destruct fileMap as [nonProject perProject]. unfold copyCachedDeps. simpl.
  f_equal.
  - rewrite <-(list_fmap_id nonProject) at 2. apply list_fmap_ext.
    intros i f _. by rewrite lookup_empty.
  - apply map_eq. intros project. rewrite map_lookup_imap.
    destruct (perProject !! project) as [files|]; [|done]. simpl.
    by rewrite lookup_empty.
Qed.

Lemma withCachedDeps_fingerprint cached f :
  fingerprint (withCachedDeps cached f) = fingerprint f.
Proof. by destruct cached as [[? ? [?|]]|]. Qed.

(** Copying cached dependency lists leaves paths and fingerprints alone. *)
Lemma copyCachedDeps_sameFiles cachedFileData fileMap :
  sameFiles (copyCachedDeps cachedFileData fileMap) fileMap.
Proof.
  unfold sameFiles, copyCachedDeps. simpl. split.
  - rewrite <-list_fmap_compose. apply list_fmap_ext.
    intros i f _. apply withCachedDeps_fingerprint.
  - intros project. rewrite map_lookup_imap.
    destruct (projectFileMap fileMap !! project) as [files|]; [|done].
    simpl. f_equal.
    destruct (CachedFileData.projectFileMap cachedFileData !! project);
      [|done].
    rewrite <-list_fmap_compose. apply list_fmap_ext.
    intros i f _. apply withCachedDeps_fingerprint.
Qed.

(** The cells after a build refer to the file map, the workspace files and
    the references the build was given. *)
Lemma builtStored_spec {Rust} env projectRootMap externalNodes fileMap
    allWorkspaceFiles (rustReferences : Rust) fileMapCache plugins sourceMap :
  ∃ cachedFileData,
    builtStored
      (buildProjectGraphUsingProjectFileMap env projectRootMap externalNodes
         fileMap allWorkspaceFiles rustReferences fileMapCache plugins
         sourceMap)
    = {| storedFileMap := Some (copyCachedDeps cachedFileData fileMap);
         storedAllWorkspaceFiles := Some allWorkspaceFiles;
         storedRustReferences := Some rustReferences |}
    ∧ (fileMapCache = None →
       copyCachedDeps cachedFileData fileMap = fileMap).
Proof.
  unfold buildProjectGraphUsingProjectFileMap.
  destruct (readCombinedDeps env) as [packageJsonDeps|e]; simpl.
  2:{ eexists. rewrite copyCachedDeps_empty. done. }
  destruct (chooseFilesToProcess _ _ _ _ _ _)
    as [filesToProcess cachedFileData] eqn:Hchoose. simpl.
  unfold buildProjectGraphUsingContext.
  destruct (_ ≫= _) as [builder|e]; simpl.
  2:{ eexists. rewrite copyCachedDeps_empty. done. }
  destruct (outcome _) as [g|[| | | |errors partial]]; simpl;
    try (eexists; rewrite copyCachedDeps_empty; done).
  - exists cachedFileData. split; [done|]. intros ->.
    simpl in Hchoose. injection Hchoose as <- <-.
    apply copyCachedDeps_empty.
  - exists cachedFileData. split; [done|]. intros ->.
    simpl in Hchoose. injection Hchoose as <- <-.
    apply copyCachedDeps_empty.
Qed.

(** C10.  Before any build has assigned the module-level cells, [getFileMap]
    returns a file map without non-project files and without projects, an
    empty list of workspace files and [null] references.  After a build,
    however it ended, it returns the file map, the workspace files and the
    references given to that build.  The file map is the object the build
    worked on: it lists the same files with the same fingerprints, and its
    files carry the dependency lists the build copied onto them from the
    cache; it is unchanged when the build had no cache. *)
Theorem getFileMap_before_and_after_build {Rust}
    env projectRootMap externalNodes fileMap allWorkspaceFiles
    (rustReferences : Rust) fileMapCache plugins sourceMap :
  getFileMap (Rust:=Rust) initialStored
  = {| BuildProjectGraph.fileMap :=
         {| nonProjectFiles := []; projectFileMap := ∅ |};
       allWorkspaceFiles := Some [];
       rustReferences := None |}
  ∧ (∃ cachedFileData,
       getFileMap
         (builtStored
            (buildProjectGraphUsingProjectFileMap env projectRootMap
               externalNodes fileMap allWorkspaceFiles rustReferences
               fileMapCache plugins sourceMap))
       = {| BuildProjectGraph.fileMap := copyCachedDeps cachedFileData fileMap;
            allWorkspaceFiles := Some allWorkspaceFiles;
            rustReferences := Some rustReferences |}
       ∧ sameFiles (copyCachedDeps cachedFileData fileMap) fileMap)
  ∧ getFileMap
      (builtStored
         (buildProjectGraphUsingProjectFileMap env projectRootMap
            externalNodes fileMap allWorkspaceFiles rustReferences
            None plugins sourceMap))
    = {| BuildProjectGraph.fileMap := fileMap;
         allWorkspaceFiles := Some allWorkspaceFiles;
         rustReferences := Some rustReferences |}.
Proof.
  split_and!.
  - done.
  - destruct (builtStored_spec env projectRootMap externalNodes fileMap
                allWorkspaceFiles rustReferences fileMapCache plugins
                sourceMap) as (cachedFileData & -> & _).
    exists cachedFileData. split; [done|]. apply copyCachedDeps_sameFiles.
  - destruct (builtStored_spec env projectRootMap externalNodes fileMap
                allWorkspaceFiles rustReferences None plugins
                sourceMap) as (cachedFileData & -> & Hnone).
    unfold getFileMap. simpl. by rewrite Hnone.
Qed.

(** ** Workspace validity errors *)

(** C7, as the code has it.  When the validity check throws a
    [WorkspaceValidityError] (and the dependency manifests can be read), the
    error is collected and the build goes on.  If the graph phases return a
    graph, the build throws an [AggregateProjectGraphError] holding the
    validity error alone and that fully built graph; if they throw an
    [AggregateProjectGraphError], the build throws one holding the validity
    error followed by the phase errors, with the partial graph of the phases;
    any other error of the graph phases is rethrown as it is. *)
Theorem validity_error_joins_phase_errors {Rust}
    env projectRootMap externalNodes fileMap allWorkspaceFiles
    (rustReferences : Rust) fileMapCache plugins sourceMap
    message packageJsonDeps :
  assertWorkspaceValidity env (projectsByName projectRootMap) (readNxJson env)
    = Thrown (WorkspaceValidityError message) →
  readCombinedDeps env = Returned packageJsonDeps →
  let projects := projectsByName projectRootMap in
  let chosen :=
    chooseFilesToProcess fileMapCache packageJsonDeps projects
      (readNxJson env) (readRootTsConfig env) fileMap in
  let phases :=
    assembled
      (buildProjectGraphUsingContext env externalNodes
         (createContext env projects (readNxJson env) externalNodes fileMap
            chosen.1)
         chosen.2 "6.0" plugins sourceMap) in
  let result :=
    built
      (buildProjectGraphUsingProjectFileMap env projectRootMap externalNodes
         fileMap allWorkspaceFiles rustReferences fileMapCache plugins
         sourceMap) in
  match phases with
  | Returned projectGraph =>
      result
      = Thrown (AggregateProjectGraphError
                  [WorkspaceValidityError message] projectGraph)
  | Thrown (AggregateProjectGraphError phaseErrors partialProjectGraph) =>
      result
      = Thrown (AggregateProjectGraphError
                  (WorkspaceValidityError message :: phaseErrors)
                  partialProjectGraph)
  | Thrown e => result = Thrown e
  end.
Proof.
  intros Hvalidity Hdeps. cbv zeta.
  unfold buildProjectGraphUsingProjectFileMap, validityErrors.
  rewrite Hdeps, Hvalidity. simpl.
  destruct (chooseFilesToProcess _ _ _ _ _ _)
    as [filesToProcess cachedFileData]. simpl.
  destruct (assembled _) as [g|[| | | |errors partial]]; done.
Qed.

Lemma validity_error_joins_phase_errors_witness :
  built
    (buildProjectGraphUsingProjectFileMap Examples.invalidWorkspace
       Examples.projectRootMap0 [] Examples.currentFileMap [] () None []
       Examples.sourceMapAB)
  = Thrown (AggregateProjectGraphError
              [WorkspaceValidityError "duplicate project name"]
              Examples.graphAB).
Proof.
  pose proof (validity_error_joins_phase_errors
                Examples.invalidWorkspace Examples.projectRootMap0 []
                Examples.currentFileMap [] () None [] Examples.sourceMapAB
                "duplicate project name" ∅ eq_refl eq_refl) as H.
  vm_compute in H. vm_compute. exact H.
Defined.

(** C7, as the claim has it, fails: the validity check throws a
    [WorkspaceValidityError], node normalization then throws, and the build
    throws that second error alone. *)
Lemma validity_error_lost_on_other_failure :
  assertWorkspaceValidity Examples.invalidAndBroken
      (projectsByName Examples.projectRootMap0)
      (readNxJson Examples.invalidAndBroken)
    = Thrown (WorkspaceValidityError "duplicate project name")
  ∧ built
      (buildProjectGraphUsingProjectFileMap Examples.invalidAndBroken
         Examples.projectRootMap0 [] Examples.currentFileMap [] () None []
         Examples.sourceMapAB)
    = Thrown (GenericError "normalization failed")
  ∧ ¬ ∃ errors partialProjectGraph,
        built
          (buildProjectGraphUsingProjectFileMap Examples.invalidAndBroken
             Examples.projectRootMap0 [] Examples.currentFileMap [] () None
             [] Examples.sourceMapAB)
        = Thrown (AggregateProjectGraphError errors partialProjectGraph).
Proof.
  split_and!; [reflexivity|reflexivity|].
  intros (errors & g & H). vm_compute in H. discriminate H.
Qed.

(** ** The metadata phase *)

Lemma foldl_settleMetadata graph context plugins : ∀ acc,
  foldl (settleMetadata graph context) acc plugins
  = {| results := results acc ++ omap (metadataResult graph context) plugins;
       metadataErrors :=
         metadataErrors acc ++ omap (metadataFailure graph context) plugins |}.
Proof.
  induction plugins as [|plugin plugins IH]; intros [rs es]; simpl.
  - by rewrite !app_nil_r.
  - rewrite IH. unfold settleMetadata, metadataResult, metadataFailure.
    destruct (LoadedNxPlugin.createMetadata plugin) as [f|]; [|done].
    destruct (f graph context); simpl; by rewrite <-?app_assoc.
Qed.

Lemma settled_seq_from {A} (xs : list A) : ∀ pre,
  omap (λ i, (pre ++ xs) !! i) (seq (length pre) (length xs)) = xs.
Proof.
  induction xs as [|x xs IH]; intros pre; [done|].
  simpl. rewrite list_lookup_middle by done. f_equal.
  specialize (IH (pre ++ [x])).
  rewrite length_app, Nat.add_1_r, <-app_assoc in IH. exact IH.
Qed.

(** When the calls settle in list order, nothing is reordered. *)
Lemma settled_seq {A} (xs : list A) : settled (seq 0 (length xs)) xs = xs.
Proof. apply (settled_seq_from xs []). Qed.

(** ** Merging one provider's metadata *)

Lemma mergeMetadata_scalar sm info base m existing key v :
  m !! key = Some (ScalarValue v) →
  (ProjectConfigurationUtils.mergeMetadata sm info base m existing).1 !! key
  = Some (ScalarValue v).
Proof.
  intros Hkey. unfold ProjectConfigurationUtils.mergeMetadata. simpl.
  rewrite lookup_union_with, Hkey.
  by destruct (default ∅ existing !! key).
Qed.

Lemma mergeMetadata_attributes sm info base m existing key :
  is_Some (m !! key) →
  ∃ sm',
    (ProjectConfigurationUtils.mergeMetadata (Some sm) info base m existing).2
    = Some sm'
    ∧ sm' !! ProjectConfigurationUtils.propertyPath base key = Some info.
Proof.
  intros Hkey. unfold ProjectConfigurationUtils.mergeMetadata. simpl.
  eexists. split; [reflexivity|]. revert key Hkey.
  apply (map_fold_weak_ind
           (λ r (mm : gmap string MetadataValue),
              ∀ key, is_Some (mm !! key) →
                     r !! ProjectConfigurationUtils.propertyPath base key
                     = Some info)).
  - intros key [? Hkey]. by rewrite lookup_empty in Hkey.
  - intros i x mm r Hi IH key Hkey. rewrite lookup_insert.
    case_decide as Hpath; [done|]. apply IH.
    rewrite lookup_insert in Hkey. case_decide; [by subst|done].
Qed.

Lemma mergeMetadata_keeps_source_map sm info base m existing :
  is_Some (ProjectConfigurationUtils.mergeMetadata sm info base m existing).2
  ↔ is_Some sm.
Proof.
  unfold ProjectConfigurationUtils.mergeMetadata. simpl.
  by rewrite fmap_is_Some.
Qed.

Lemma mergeProjectMetadata_eq pluginName project m graph sourceMap :
  mergeProjectMetadata pluginName project m (graph, sourceMap)
  = match nodes graph !! project with
    | Some node =>
        ( {| nodes :=
               <[project := mergedNode pluginName m node
                              (sourceMap !! project)]> (nodes graph);
             externalNodes := externalNodes graph;
             dependencies := dependencies graph;
             version := version graph |},
          match
            (ProjectConfigurationUtils.mergeMetadata
               (sourceMap !! project) (None, pluginName) "metadata" m
               (metadata (data node))).2
          with
          | Some sm => <[project := sm]> sourceMap
          | None => sourceMap
          end )
    | None => (graph, sourceMap)
    end.
Proof.
  unfold mergeProjectMetadata, mergedNode.
  by destruct (nodes graph !! project).
Qed.

(** What one buffered result does to a project: its node and its source map
    change only if the result names the project and the graph has the node;
    edges, external nodes and version are never touched. *)
Lemma applyResult_spec graph sourceMap (md : ProjectsMetadata) pluginName :
  let acc' := applyResult (graph, sourceMap) (md, pluginName) in
  dependencies acc'.1 = dependencies graph
  ∧ externalNodes acc'.1 = externalNodes graph
  ∧ version acc'.1 = version graph
  ∧ ∀ project,
      nodes acc'.1 !! project
      = match md !! project, nodes graph !! project with
        | Some m, Some node =>
            Some (mergedNode pluginName m node (sourceMap !! project))
        | _, _ => nodes graph !! project
        end
      ∧ acc'.2 !! project
        = match md !! project, nodes graph !! project with
          | Some m, Some node =>
              match
                (ProjectConfigurationUtils.mergeMetadata
                   (sourceMap !! project) (None, pluginName) "metadata" m
                   (metadata (data node))).2
              with
              | Some sm => Some sm
              | None => sourceMap !! project
              end
          | _, _ => sourceMap !! project
          end.
Proof.
  unfold applyResult. simpl.
  apply (map_fold_weak_ind
           (λ (r : ProjectGraph * ConfigurationSourceMaps)
              (mm : gmap string (gmap string MetadataValue)),
              dependencies r.1 = dependencies graph
              ∧ externalNodes r.1 = externalNodes graph
              ∧ version r.1 = version graph
              ∧ ∀ project,
                  nodes r.1 !! project
                  = match mm !! project, nodes graph !! project with
                    | Some m, Some node =>
                        Some (mergedNode pluginName m node
                                (sourceMap !! project))
                    | _, _ => nodes graph !! project
                    end
                  ∧ r.2 !! project
                    = match mm !! project, nodes graph !! project with
                      | Some m, Some node =>
                          match
                            (ProjectConfigurationUtils.mergeMetadata
                               (sourceMap !! project) (None, pluginName)
                               "metadata" m (metadata (data node))).2
                          with
                          | Some sm => Some sm
                          | None => sourceMap !! project
                          end
                      | _, _ => sourceMap !! project
                      end)).
  - split_and!; [done..|]. intros project. by rewrite lookup_empty.
  - intros i m mm [g sm] Hi (Hdeps & Hext & Hver & IH).
    cbn [fst snd] in *. rewrite mergeProjectMetadata_eq.
    destruct (IH i) as [Hnode Hsm]. rewrite Hi in Hnode, Hsm.
    rewrite Hnode, Hsm.
    destruct (nodes graph !! i) as [node|] eqn:Hgi;
      cbn [fst snd nodes dependencies externalNodes version].
    + split_and!; [done..|]. intros project.
      destruct (decide (i = project)) as [<-|Hne].
      * rewrite !lookup_insert_eq, Hgi. split; [done|].
        destruct (ProjectConfigurationUtils.mergeMetadata _ _ _ _ _).2;
          cbn; [by rewrite lookup_insert_eq|done].
      * rewrite !lookup_insert_ne by done. destruct (IH project) as [-> Hp].
        split; [done|].
        destruct (ProjectConfigurationUtils.mergeMetadata _ _ _ _ _).2;
          cbn; [by rewrite lookup_insert_ne|done].
    + split_and!; [done..|]. intros project.
      destruct (decide (i = project)) as [<-|Hne].
      * by rewrite lookup_insert_eq, Hgi.
      * rewrite !lookup_insert_ne by done. apply IH.
Qed.

Lemma foldl_applyResult_dependencies rs : ∀ graph sourceMap,
  dependencies (foldl applyResult (graph, sourceMap) rs).1
  = dependencies graph.
Proof.
  induction rs as [|[md n] rs IH]; intros graph sourceMap; [done|].
  cbn [foldl]. destruct (applyResult_spec graph sourceMap md n) as [Hd _].
  destruct (applyResult (graph, sourceMap) (md, n)) as [g sm]. simpl in *.
  by rewrite IH.
Qed.

(** A result that sets a scalar property of a project present in the graph
    leaves that value in the node, attributed to its provider. *)
Lemma applyResult_scalar graph sourceMap (md : ProjectsMetadata) pluginName
    project m key v :
  md !! project = Some m → m !! key = Some (ScalarValue v) →
  is_Some (nodes graph !! project) →
  let acc' := applyResult (graph, sourceMap) (md, pluginName) in
  metadataOf acc'.1 project key = Some (ScalarValue v)
  ∧ (is_Some (sourceMap !! project) →
     attributedTo acc'.2 project key = Some (None, pluginName)).
Proof.
  intros Hmd Hkey [node Hnode] acc'.
  destruct (applyResult_spec graph sourceMap md pluginName)
    as (_ & _ & _ & Hspec).
  destruct (Hspec project) as [Hn Hs]. fold acc' in Hn, Hs.
  rewrite Hmd, Hnode in Hn, Hs. split.
  - unfold metadataOf. rewrite Hn. simpl.
    by apply (mergeMetadata_scalar (sourceMap !! project) (None, pluginName)
                "metadata").
  - intros [sm Hsm]. unfold attributedTo. rewrite Hs, Hsm.
    destruct (mergeMetadata_attributes sm (None, pluginName) "metadata" m
                (metadata (data node)) key) as (sm' & -> & Hattr);
      [by rewrite Hkey|].
    simpl. exact Hattr.
Qed.

Lemma applyResult_keeps graph sourceMap (md : ProjectsMetadata) pluginName
    project :
  let acc' := applyResult (graph, sourceMap) (md, pluginName) in
  (is_Some (nodes graph !! project) → is_Some (nodes acc'.1 !! project))
  ∧ (is_Some (sourceMap !! project) → is_Some (acc'.2 !! project)).
Proof.
  intros acc'.
  destruct (applyResult_spec graph sourceMap md pluginName)
    as (_ & _ & _ & Hspec).
  destruct (Hspec project) as [Hn Hs]. fold acc' in Hn, Hs.
  rewrite Hn, Hs. split.
  - intros [node ->]. by destruct (md !! project).
  - intros [sm ->]. destruct (md !! project), (nodes graph !! project);
      try done.
Qed.

(** The errors of the metadata phase are the failures, in settlement
    order; its graph and source maps are what applying the buffer gives. *)
Lemma appliedErrors_settled graph plugins context
    (sourceMap : ConfigurationSourceMaps) order :
  appliedErrors (applyProjectMetadata graph plugins context sourceMap order)
  = omap (metadataFailure graph context) (settled order plugins).
Proof.
  unfold applyProjectMetadata, awaitMetadata.
  rewrite foldl_settleMetadata. cbn [results metadataErrors app].
  by destruct (foldl applyResult _ _).
Qed.

Lemma applied_is_fold graph plugins context
    (sourceMap : ConfigurationSourceMaps) order :
  (appliedGraph (applyProjectMetadata graph plugins context sourceMap order),
   appliedSourceMaps
     (applyProjectMetadata graph plugins context sourceMap order))
  = foldl applyResult (graph, sourceMap)
      (results (awaitMetadata graph plugins context order)).
Proof.
  unfold applyProjectMetadata. by destruct (foldl applyResult _ _).
Qed.

(** C3, as the code has it.  The results of the providers whose
    [createMetadata] call succeeds are buffered in the order in which the
    calls settle, the failures are collected in that order too, and only
    then are the buffered results applied to the graph, one after the other
    in buffer order.  Every call is made on the graph as it was before any
    result was applied.  When the calls settle in the order of the provider
    list, the buffer is in provider-list order. *)
Theorem metadata_applied_in_settlement_order
    graph plugins context sourceMap order :
  let buffered := results (awaitMetadata graph plugins context order) in
  let applied := applyProjectMetadata graph plugins context sourceMap order in
  buffered = omap (metadataResult graph context) (settled order plugins)
  ∧ appliedErrors applied
    = omap (metadataFailure graph context) (settled order plugins)
  ∧ (appliedGraph applied, appliedSourceMaps applied)
    = foldl applyResult (graph, sourceMap) buffered
  ∧ (order = seq 0 (length plugins) →
     buffered = omap (metadataResult graph context) plugins).
Proof.
  cbv zeta. unfold applyProjectMetadata, awaitMetadata.
  rewrite foldl_settleMetadata. cbn [results metadataErrors app].
  split_and!.
  - done.
  - by destruct (foldl applyResult _ _).
  - by destruct (foldl applyResult _ _).
  - intros ->. by rewrite settled_seq.
Qed.

(** C3, as the claim has it, fails: two providers set the same property, the
    second one settles first, and the results are applied in that order, so
    that the first provider of the list wins; had they settled in list order,
    the second would have won. *)
Lemma metadata_order_depends_on_settlement :
  [1; 0] ≡ₚ seq 0 2
  ∧ (results
       (awaitMetadata Examples.graphAB
          [Examples.describes "p1" "one"; Examples.describes "p2" "two"]
          Examples.metadataContextAB [1; 0])).*2
    = ["p2"; "p1"]
  ∧ metadataOf
      (appliedGraph
         (applyProjectMetadata Examples.graphAB
            [Examples.describes "p1" "one"; Examples.describes "p2" "two"]
            Examples.metadataContextAB Examples.sourceMapAB [1; 0]))
      "a" "description"
    = Some (ScalarValue "one")
  ∧ metadataOf
      (appliedGraph
         (applyProjectMetadata Examples.graphAB
            [Examples.describes "p1" "one"; Examples.describes "p2" "two"]
            Examples.metadataContextAB Examples.sourceMapAB [0; 1]))
      "a" "description"
    = Some (ScalarValue "two").
Proof.
  split_and!; [apply perm_swap|reflexivity..].
Qed.

(** Of two buffered results, the later one decides a scalar property. *)
Lemma later_result_wins graph context sourceMap pA pB mdA nA mdB nB
    project m key v :
  metadataResult graph context pA = Some (mdA, nA) →
  metadataResult graph context pB = Some (mdB, nB) →
  mdB !! project = Some m → m !! key = Some (ScalarValue v) →
  is_Some (nodes graph !! project) →
  let applied :=
    applyProjectMetadata graph [pA; pB] context sourceMap [0; 1] in
  metadataOf (appliedGraph applied) project key = Some (ScalarValue v)
  ∧ (is_Some (sourceMap !! project) →
     attributedTo (appliedSourceMaps applied) project key = Some (None, nB)).
Proof.
  intros HA HB Hmd Hkey Hnode. cbv zeta.
  unfold applyProjectMetadata, awaitMetadata.
  rewrite foldl_settleMetadata. cbn [settled omap list_omap lookup list_lookup].
  cbn [results app]. rewrite HA, HB. cbn [foldl].
  destruct (applyResult_keeps graph sourceMap mdA nA project) as [Hn Hs].
  destruct (applyResult (graph, sourceMap) (mdA, nA)) as [g1 sm1]. simpl in *.
  destruct (applyResult_scalar g1 sm1 mdB nB project m key v Hmd Hkey
              (Hn Hnode)) as [Hv Ha].
  destruct (applyResult (g1, sm1) (mdB, nB)) as [g2 sm2]. simpl in *.
  split; [done|]. intros Hsm. apply Ha, Hs, Hsm.
Qed.

(** C4.  When the results of providers [p1] and [p2] are applied in this
    order and both set the scalar property [key] of project [project], a
    node of the graph, the merged graph has the value set by [p2] and the
    project's source map, if the project has one, attributes the property to
    [p2]; with the two providers in the other order the value set by [p1]
    wins, so the merge does not commute when the two values differ. *)
Theorem later_provider_wins_scalar
    graph context sourceMap p1 p2 md1 n1 md2 n2 project m1 m2 key v1 v2 :
  metadataResult graph context p1 = Some (md1, n1) →
  metadataResult graph context p2 = Some (md2, n2) →
  md1 !! project = Some m1 → m1 !! key = Some (ScalarValue v1) →
  md2 !! project = Some m2 → m2 !! key = Some (ScalarValue v2) →
  is_Some (nodes graph !! project) →
  let applied :=
    applyProjectMetadata graph [p1; p2] context sourceMap [0; 1] in
  let swapped :=
    applyProjectMetadata graph [p2; p1] context sourceMap [0; 1] in
  metadataOf (appliedGraph applied) project key = Some (ScalarValue v2)
  ∧ (is_Some (sourceMap !! project) →
     attributedTo (appliedSourceMaps applied) project key = Some (None, n2))
  ∧ metadataOf (appliedGraph swapped) project key = Some (ScalarValue v1)
  ∧ (v1 ≠ v2 → appliedGraph swapped ≠ appliedGraph applied).
Proof.
  intros H1 H2 Hmd1 Hk1 Hmd2 Hk2 Hnode. cbv zeta.
  destruct (later_result_wins graph context sourceMap p1 p2 md1 n1 md2 n2
              project m2 key v2 H1 H2 Hmd2 Hk2 Hnode) as [Hv2 Ha2].
  destruct (later_result_wins graph context sourceMap p2 p1 md2 n2 md1 n1
              project m1 key v1 H2 H1 Hmd1 Hk1 Hnode) as [Hv1 _].
  split_and!; [done..|]. intros Hne Heq. rewrite Heq in Hv1. congruence.
Qed.

Lemma later_provider_wins_scalar_witness :
  metadataOf
    (appliedGraph
       (applyProjectMetadata Examples.graphAB
          [Examples.describes "p1" "one"; Examples.describes "p2" "two"]
          Examples.metadataContextAB Examples.sourceMapAB [0; 1]))
    "a" "description"
  = Some (ScalarValue "two")
  ∧ attributedTo
      (appliedSourceMaps
         (applyProjectMetadata Examples.graphAB
            [Examples.describes "p1" "one"; Examples.describes "p2" "two"]
            Examples.metadataContextAB Examples.sourceMapAB [0; 1]))
      "a" "description"
    = Some (None, "p2").
Proof.
  destruct (later_provider_wins_scalar
              Examples.graphAB Examples.metadataContextAB Examples.sourceMapAB
              (Examples.describes "p1" "one") (Examples.describes "p2" "two")
              {[ "a" := {[ "description" := ScalarValue "one" ]} ]} "p1"
              {[ "a" := {[ "description" := ScalarValue "two" ]} ]} "p2"
              "a" {[ "description" := ScalarValue "one" ]}
              {[ "description" := ScalarValue "two" ]} "description"
              "one" "two")
    as (Hvalue & Hattributed & _);
    [reflexivity..|by eexists|].
  split; [exact Hvalue|]. apply Hattributed. by eexists.
Defined.

(** ** The dependency phase *)

Lemma forallb_pointwise {A} (f g : A → bool) (xs : list A) :
  (∀ x, f x = g x) → forallb f xs = forallb g xs.
Proof.
  intros Hfg. induction xs as [|x xs IH]; [done|]. simpl. by rewrite Hfg, IH.
Qed.

(** Whether the builder accepts an edge only depends on its nodes. *)
Lemma accepts_ext (b b' : ProjectGraphBuilder.t) dep :
  nodes b' = nodes b → externalNodes b' = externalNodes b →
  ProjectGraphBuilder.accepts b' dep = ProjectGraphBuilder.accepts b dep.
Proof.
  intros Hn He. unfold ProjectGraphBuilder.accepts, ProjectGraphBuilder.known.
  by rewrite Hn, He.
Qed.

Lemma addDependency_accepted (b : ProjectGraphBuilder.t) dep :
  ProjectGraphBuilder.accepts b dep = true →
  ∃ b',
    ProjectGraphBuilder.addDependency
      (source dep) (target dep) (type dep) (sourceFile dep) b = Returned b'
    ∧ nodes b' = nodes b ∧ externalNodes b' = externalNodes b
    ∧ dependencies b ⊆ dependencies b' ∧ dep ∈ dependencies b'.
Proof.
  intros Hacc. unfold ProjectGraphBuilder.addDependency.
  destruct dep as [s t ty sf]. cbn [source target type sourceFile].
  rewrite Hacc. eexists. split; [reflexivity|]. simpl.
  split_and!; [done..| |]; case_decide; try done.
  - by apply list_subseteq_app_l.
  - apply elem_of_app. right. apply list_elem_of_here.
Qed.

Lemma addDependency_rejected (b : ProjectGraphBuilder.t) dep :
  ProjectGraphBuilder.accepts b dep = false →
  ProjectGraphBuilder.addDependency
    (source dep) (target dep) (type dep) (sourceFile dep) b
  = Thrown (GenericError "invariant violation: unknown endpoint").
Proof.
  intros Hacc. unfold ProjectGraphBuilder.addDependency.
  destruct dep as [s t ty sf]. cbn [source target type sourceFile].
  by rewrite Hacc.
Qed.

(** Feeding a provider's edges into the builder: the nodes stay, the edges
    only grow; all edges arrive if all are accepted, and the first rejected
    one is the cause otherwise. *)
Lemma addDependencies_spec deps : ∀ b : ProjectGraphBuilder.t,
  let r := addDependencies b deps in
  nodes r.1 = nodes b ∧ externalNodes r.1 = externalNodes b
  ∧ dependencies b ⊆ dependencies r.1
  ∧ r.2 = (if forallb (ProjectGraphBuilder.accepts b) deps then None
           else Some (GenericError "invariant violation: unknown endpoint"))
  ∧ (forallb (ProjectGraphBuilder.accepts b) deps = true →
     ∀ dep, dep ∈ deps → dep ∈ dependencies r.1).
Proof.
  induction deps as [|dep deps IH]; intros b; cbn [addDependencies forallb].
  { split_and!; [done..|]. intros _ dep Hin. by apply elem_of_nil in Hin. }
  destruct (ProjectGraphBuilder.accepts b dep) eqn:Hacc.
  - destruct (addDependency_accepted b dep Hacc)
      as (b' & -> & Hn & He & Hsub & Hin).
    destruct (IH b') as (IHn & IHe & IHsub & IHr & IHall).
    assert (forallb (ProjectGraphBuilder.accepts b') deps
            = forallb (ProjectGraphBuilder.accepts b) deps) as Hsame.
    { apply forallb_pointwise. intros d. by apply accepts_ext. }
    rewrite Hsame in IHr, IHall. cbn [andb].
    split_and!; [congruence|congruence|by etrans|done|].
    intros Hall d [->|Hd]%elem_of_cons; [by apply IHsub|by apply IHall].
  - rewrite (addDependency_rejected b dep Hacc). cbn [fst snd andb].
    split_and!; done.
Qed.

(** The error a settled dependency provider leaves, if any. *)
Lemma settleDependencies_spec context graph (b : ProjectGraphBuilder.t)
    errors plugin :
  nodes b = nodes graph → externalNodes b = externalNodes graph →
  let r := settleDependencies context (b, errors) plugin in
  nodes r.1 = nodes graph ∧ externalNodes r.1 = externalNodes graph
  ∧ dependencies b ⊆ dependencies r.1
  ∧ r.2 = errors
          ++ option_list
               (ProcessDependenciesError (LoadedNxPlugin.name plugin)
                  <$> dependencyFailure context graph plugin)
  ∧ (dependencyFailure context graph plugin = None →
     ∀ dep, contributes context plugin dep → dep ∈ dependencies r.1).
Proof.
  intros Hn He. unfold settleDependencies, dependencyFailure, contributes.
  destruct (LoadedNxPlugin.createDependencies plugin) as [f|]; simpl.
  2:{ rewrite app_nil_r. split_and!; [done..|].
      intros _ dep (? & ? & ? & _). done. }
  destruct (f context) as [deps|cause] eqn:Hcall; simpl.
  2:{ split_and!; [done..|]. done. }
  destruct (addDependencies_spec deps b) as (Hn' & He' & Hsub & Hr & Hall).
  assert (forallb (ProjectGraphBuilder.accepts b) deps
          = forallb (ProjectGraphBuilder.accepts graph) deps) as Hsame.
  { apply forallb_pointwise. intros d. by apply accepts_ext. }
  rewrite Hsame in Hr, Hall.
  destruct (addDependencies b deps) as [b' r]. simpl in *. subst r.
  destruct (forallb (ProjectGraphBuilder.accepts graph) deps); simpl.
  - rewrite app_nil_r. split_and!; [congruence|congruence|done|done|].
    intros _ dep (f' & deps' & [= <-] & Hcall' & Hin).
    rewrite Hcall in Hcall'. injection Hcall' as <-. by apply Hall.
  - split_and!; [congruence|congruence|done|done|done].
Qed.

Lemma foldl_settleDependencies context graph providers :
  ∀ (b : ProjectGraphBuilder.t) errors,
  nodes b = nodes graph → externalNodes b = externalNodes graph →
  let r := foldl (settleDependencies context) (b, errors) providers in
  dependencies b ⊆ dependencies r.1
  ∧ r.2 = errors
          ++ omap (λ plugin,
                     ProcessDependenciesError (LoadedNxPlugin.name plugin)
                     <$> dependencyFailure context graph plugin)
                  providers
  ∧ (∀ plugin dep,
       plugin ∈ providers →
       dependencyFailure context graph plugin = None →
       contributes context plugin dep → dep ∈ dependencies r.1).
Proof.
  induction providers as [|plugin providers IH]; intros b errors Hn He;
    cbn [foldl].
  { simpl. rewrite app_nil_r. split_and!; [done..|].
    intros ?? Hin. by apply elem_of_nil in Hin. }
  destruct (settleDependencies_spec context graph b errors plugin Hn He)
    as (Hn1 & He1 & Hsub1 & Herr1 & Hall1).
  destruct (settleDependencies context (b, errors) plugin) as [b1 errors1].
  simpl in *.
  destruct (IH b1 errors1 Hn1 He1) as (Hsub & Herr & Hall).
  split_and!.
  - by etrans.
  - rewrite Herr, Herr1, <-app_assoc. f_equal.
    by destruct (dependencyFailure context graph plugin).
  - intros q dep [->|Hq]%elem_of_cons Hok Hc.
    + by apply Hsub, Hall1.
    + by eapply Hall.
Qed.

(** Whatever the order in which the calls settle, every provider settles
    once. *)
Lemma settled_Permutation {A} (order : list nat) (xs : list A) :
  order ≡ₚ seq 0 (length xs) → settled order xs ≡ₚ xs.
Proof.
  intros Hperm. rewrite <-(settled_seq xs) at 2. unfold settled.
  by rewrite Hperm.
Qed.

Lemma elem_of_settled {A} (order : list nat) (xs : list A) x :
  x ∈ settled order xs → x ∈ xs.
Proof.
  unfold settled. intros (i & _ & Hx)%list_elem_of_omap.
  by eapply list_elem_of_lookup_2.
Qed.

Lemma omap_all_None {A B} (f : A → option B) (xs : list A) :
  (∀ x, x ∈ xs → f x = None) → omap f xs = [].
Proof.
  induction xs as [|x xs IH]; intros Hall; [done|]. simpl.
  rewrite (Hall x) by left. apply IH. intros y Hy. apply Hall. by right.
Qed.

Lemma omap_only_one {A B} (f : A → option B) (xs : list A) i x y :
  xs !! i = Some x → f x = Some y →
  (∀ j z, xs !! j = Some z → j ≠ i → f z = None) →
  omap f xs = [y].
Proof.
  revert i. induction xs as [|z xs IH]; intros i Hi Hx Hothers; [done|].
  destruct i as [|i]; simpl in *.
  - injection Hi as ->. rewrite Hx. f_equal. apply omap_all_None.
    intros w [j Hj]%list_elem_of_lookup. by apply (Hothers (S j)).
  - rewrite (Hothers 0 z) by done. apply (IH i); [done..|].
    intros j w Hj Hne. apply (Hothers (S j)); [done|lia].
Qed.

(** C2, as the code has it.  Among the providers that contribute
    dependencies let exactly one fail: its call throws, or the builder
    rejects one of its edges.  Then, in whatever order the calls settle,
    [updateProjectGraphWithPlugins] throws one [AggregateProjectGraphError];
    its error list starts with a single [ProcessDependenciesError], which
    names the failing provider and carries the cause, and goes on with the
    errors of the metadata phase only, none if no [createMetadata] call
    throws; its partial graph has every edge contributed by the other
    providers. *)
Theorem one_failing_dependency_provider
    env context initProjectGraph plugins sourceMap i p cause :
  let providers := createDependencyPlugins plugins in
  dependenciesSettle env ≡ₚ seq 0 (length providers) →
  providers !! i = Some p →
  dependencyFailure context initProjectGraph p = Some cause →
  (∀ j q, providers !! j = Some q → j ≠ i →
          dependencyFailure context initProjectGraph q = None) →
  ∃ graphWithDeps,
    let applied :=
      applyProjectMetadata graphWithDeps plugins (metadataContext env context)
        sourceMap (metadataSettle env) in
    outcome
      (updateProjectGraphWithPlugins env context initProjectGraph plugins
         sourceMap)
    = Thrown
        (AggregateProjectGraphError
           (ProcessDependenciesError (LoadedNxPlugin.name p) cause
              :: appliedErrors applied)
           (appliedGraph applied))
    ∧ (∀ j q dep, providers !! j = Some q → j ≠ i →
                  contributes context q dep →
                  dep ∈ dependencies (appliedGraph applied))
    ∧ ((∀ q, q ∈ plugins →
             metadataFailure graphWithDeps (metadataContext env context) q
             = None) →
       appliedErrors applied = []).
Proof.
  intros providers Horder Hp Hfail Hothers.
  unfold updateProjectGraphWithPlugins, awaitDependencies.
  fold providers. fold (metadataContext env context).
  destruct (foldl_settleDependencies context initProjectGraph
              (settled (dependenciesSettle env) providers)
              (ProjectGraphBuilder.create (Some initProjectGraph)) [])
    as (_ & Herrors & Hedges); [done..|].
  destruct (foldl _ _ _) as [builder errors]. simpl in Herrors, Hedges.
  pose proof (settled_Permutation _ providers Horder) as Hperm.
  assert (errors = [ProcessDependenciesError (LoadedNxPlugin.name p) cause])
    as ->.
  { rewrite Herrors. apply Permutation_singleton_r. rewrite Hperm.
    erewrite omap_only_one; [done|exact Hp|by rewrite Hfail|].
    intros j q Hq Hne. by rewrite (Hothers j q). }
  exists (ProjectGraphBuilder.getUpdatedProjectGraph builder). cbv zeta.
  split_and!.
  - done.
  - intros j q dep Hq Hne Hc.
    unfold applyProjectMetadata.
    pose proof (foldl_applyResult_dependencies
                  (results
                     (awaitMetadata
                        (ProjectGraphBuilder.getUpdatedProjectGraph builder)
                        plugins (metadataContext env context)
                        (metadataSettle env)))
                  (ProjectGraphBuilder.getUpdatedProjectGraph builder)
                  sourceMap) as Hdeps.
    destruct (foldl applyResult _ _) as [g sm]. simpl in *. rewrite Hdeps.
    apply (Hedges q dep); [|by eapply Hothers|done].
    rewrite Hperm. by eapply list_elem_of_lookup_2.
  - intros Hquiet. rewrite appliedErrors_settled.
    apply omap_all_None. intros q Hq. by eapply Hquiet, elem_of_settled.
Qed.

Lemma one_failing_dependency_provider_witness :
  ∃ graph,
    outcome
      (updateProjectGraphWithPlugins
         (Examples.env (Returned ()) Examples.nodePerProject [1; 0] [0; 1])
         Examples.contextAB Examples.graphAB
         [Examples.failingDependencies; Examples.linksAB]
         Examples.sourceMapAB)
    = Thrown
        (AggregateProjectGraphError
           [ProcessDependenciesError "broken-deps"
              (GenericError "createDependencies failed")]
           graph)
    ∧ Examples.edgeAB ∈ dependencies graph.
Proof.
  destruct (one_failing_dependency_provider
              (Examples.env (Returned ()) Examples.nodePerProject [1; 0] [0; 1])
              Examples.contextAB Examples.graphAB
              [Examples.failingDependencies; Examples.linksAB]
              Examples.sourceMapAB 0 Examples.failingDependencies
              (GenericError "createDependencies failed"))
    as (graphWithDeps & Hthrown & Hedges & Hquiet).
  - apply perm_swap.
  - done.
  - done.
  - intros [|[|j]] q Hq Hne; [done| |done]. by injection Hq as <-.
  - cbv zeta in *. rewrite Hquiet in Hthrown.
    + eexists. split; [exact Hthrown|].
      apply (Hedges 1 Examples.linksAB); [done..|].
      eexists _, _. split_and!; [done..|]. apply list_elem_of_here.
    + intros q Hq. apply list_elem_of_In in Hq. simpl in Hq.
      by destruct Hq as [<-|[<-|[]]].
Defined.

(** C2, as the claim has it, fails: one provider contributes dependencies
    and throws, another provider contributes metadata only and throws too;
    the error list of the aggregate error then has two entries. *)
Lemma dependency_error_list_has_metadata_errors :
  createDependencyPlugins
    [Examples.failingDependencies; Examples.linksAB; Examples.failingMetadata]
  = [Examples.failingDependencies; Examples.linksAB]
  ∧ dependencyFailure Examples.contextAB Examples.graphAB Examples.linksAB
    = None
  ∧ ∃ graph,
      outcome
        (updateProjectGraphWithPlugins
           (Examples.env (Returned ()) Examples.nodePerProject
              [0; 1] [0; 1; 2])
           Examples.contextAB Examples.graphAB
           [Examples.failingDependencies; Examples.linksAB;
            Examples.failingMetadata]
           Examples.sourceMapAB)
      = Thrown
          (AggregateProjectGraphError
             [ProcessDependenciesError "broken-deps"
                (GenericError "createDependencies failed");
              CreateMetadataError (GenericError "createMetadata failed")
                "broken-metadata"]
             graph).
Proof.
  split_and!; [reflexivity|reflexivity|]. eexists. reflexivity.
Qed.

(** ** Reusing the cache *)

(** Once the nodes are normalized, the graph phases leave the file map with
    the cached dependency lists copied onto its files. *)
Lemma assembledFileMap_normalized env externalNodes ctx cachedFileData
    projectGraphVersion plugins (sourceMap : ConfigurationSourceMaps) builder :
  (b ← addExternalNodes
         (ProjectGraphBuilder.setVersion projectGraphVersion
            (ProjectGraphBuilder.create None))
         externalNodes;
   normalizeProjectNodes env ctx b) = Returned builder →
  assembledFileMap
    (buildProjectGraphUsingContext env externalNodes ctx cachedFileData
       projectGraphVersion plugins sourceMap)
  = copyCachedDeps cachedFileData (CreateDependenciesContext.fileMap ctx).
Proof.
  intros Hnodes. unfold buildProjectGraphUsingContext. rewrite Hnodes.
  unfold updateProjectGraphWithPlugins.
  destruct (awaitDependencies _ _ _ _) as [b errors]. cbn [outcome].
  by destruct (Nat.ltb _ _).
Qed.

(** A build ends as the graph phases it ran on the context and cached file
    data it chose end. *)
Lemma build_follows_phases {Rust}
    env projectRootMap externalNodes fileMap allWorkspaceFiles
    (rustReferences : Rust) fileMapCache plugins
    (sourceMap : ConfigurationSourceMaps)
    packageJsonDeps filesToProcess cachedFileData :
  let projects := projectsByName projectRootMap in
  let nxJson := readNxJson env in
  let build :=
    buildProjectGraphUsingProjectFileMap env projectRootMap externalNodes
      fileMap allWorkspaceFiles rustReferences fileMapCache plugins
      sourceMap in
  let a :=
    buildProjectGraphUsingContext env externalNodes
      (createContext env projects nxJson externalNodes fileMap filesToProcess)
      cachedFileData "6.0" plugins sourceMap in
  readCombinedDeps env = Returned packageJsonDeps →
  chooseFilesToProcess fileMapCache packageJsonDeps projects nxJson
    (readRootTsConfig env) fileMap
  = (filesToProcess, cachedFileData) →
  builtSourceMaps build = assembledSourceMaps a
  ∧ storedFileMap (builtStored build) = Some (assembledFileMap a)
  ∧ ∀ graph snapshot,
      built build = Returned (graph, snapshot)
      ↔ validityErrors env projects nxJson = []
        ∧ assembled a = Returned graph
        ∧ snapshot
          = NxDepsCache.createProjectFileMapCache nxJson packageJsonDeps
              (assembledFileMap a) (readRootTsConfig env).
Proof.
  intros projects nxJson build a Hdeps Hchoose. subst build a.
  unfold buildProjectGraphUsingProjectFileMap.
  fold projects. fold nxJson. rewrite Hdeps, Hchoose.
  cbn [built builtStored builtSourceMaps storedFileMap].
  split_and!; [done..|]. intros graph snapshot.
  destruct (assembled _) as [g|e].
  - destruct (validityErrors _ _ _) as [|v vs]; cbn.
    + split; [by intros [= <- <-]|by intros (_ & [= <-] & ->)].
    + split; [done|by intros (? & _)].
  - split; [by destruct e|by intros (_ & ? & _)].
Qed.

(** C5.  [shouldRecomputeWholeGraph] answers yes exactly when the combined
    dependency manifest, the workspace configuration, the compiler root
    configuration or the set of project names differs from the cached
    snapshot.  A build that has a cache follows that answer.  When it is
    yes, the graph phases get the whole file map as the files to process
    and nothing is copied from the cache.  When it is no, they get the
    files [extractCachedFileData] hands on and, once the nodes are
    normalized, every file of the file map whose path the snapshot has with
    the same fingerprint and with resolved dependencies carries those
    dependencies in the file map the build leaves behind. *)
Theorem recompute_iff_an_input_changed {Rust}
    env projectRootMap externalNodes fileMap allWorkspaceFiles
    (rustReferences : Rust) cache plugins
    (sourceMap : ConfigurationSourceMaps) packageJsonDeps :
  let projects := projectsByName projectRootMap in
  let nxJson := readNxJson env in
  let rootTsConfig := readRootTsConfig env in
  let recompute :=
    NxDepsCache.shouldRecomputeWholeGraph cache packageJsonDeps projects
      nxJson rootTsConfig in
  let build :=
    buildProjectGraphUsingProjectFileMap env projectRootMap externalNodes
      fileMap allWorkspaceFiles rustReferences (Some cache) plugins
      sourceMap in
  let context filesToProcess :=
    {| CreateDependenciesContext.nxJsonConfiguration := nxJson;
       CreateDependenciesContext.projects := projects;
       CreateDependenciesContext.externalNodes := externalNodes;
       CreateDependenciesContext.workspaceRoot := workspaceRoot env;
       CreateDependenciesContext.fileMap := fileMap;
       CreateDependenciesContext.filesToProcess := filesToProcess |} in
  let follows (a : Assembled) :=
    builtSourceMaps build = assembledSourceMaps a
    ∧ storedFileMap (builtStored build) = Some (assembledFileMap a)
    ∧ ∀ graph snapshot,
        built build = Returned (graph, snapshot)
        ↔ validityErrors env projects nxJson = []
          ∧ assembled a = Returned graph
          ∧ snapshot
            = NxDepsCache.createProjectFileMapCache nxJson packageJsonDeps
                (assembledFileMap a) rootTsConfig in
  let reused (f : FileData) (d : list string) :=
    ∃ c, NxDepsCache.cachedFiles cache !! file f = Some c
         ∧ hash c = hash f ∧ deps c = Some d in
  readCombinedDeps env = Returned packageJsonDeps →
  (recompute = true
   ↔ packageJsonDeps ≠ NxDepsCache.cachedDeps cache
     ∨ nxJson ≠ NxDepsCache.cachedNxJson cache
     ∨ rootTsConfig ≠ NxDepsCache.cachedTsConfig cache
     ∨ dom projects ≠ NxDepsCache.cachedProjectNames cache)
  ∧ (recompute = true →
     follows
       (buildProjectGraphUsingContext env externalNodes (context fileMap)
          {| CachedFileData.nonProjectFiles := ∅;
             CachedFileData.projectFileMap := ∅ |}
          "6.0" plugins sourceMap)
     ∧ storedFileMap (builtStored build) = Some fileMap)
  ∧ (recompute = false →
     let fromCache := NxDepsCache.extractCachedFileData fileMap cache in
     let toProcess := NxDepsCache.filesToProcess fromCache in
     follows
       (buildProjectGraphUsingContext env externalNodes (context toProcess)
          (NxDepsCache.cachedFileData fromCache) "6.0" plugins sourceMap)
     ∧ ∀ builder,
         (b ← addExternalNodes
                (ProjectGraphBuilder.setVersion "6.0"
                   (ProjectGraphBuilder.create None))
                externalNodes;
          normalizeProjectNodes env (context toProcess) b)
         = Returned builder →
         ∃ left,
           storedFileMap (builtStored build) = Some left
           ∧ (∀ i f d,
                nonProjectFiles fileMap !! i = Some f → reused f d →
                nonProjectFiles left !! i
                = Some {| file := file f; hash := hash f; deps := Some d |})
           ∧ (∀ project files i f d,
                projectFileMap fileMap !! project = Some files →
                files !! i = Some f → reused f d →
                ∃ files',
                  projectFileMap left !! project = Some files'
                  ∧ files' !! i
                    = Some {| file := file f; hash := hash f;
                              deps := Some d |})).
Proof.
  intros projects nxJson rootTsConfig recompute build context follows reused
    Hdeps.
  subst follows build. cbv beta. split_and!.
  - subst recompute. unfold NxDepsCache.shouldRecomputeWholeGraph.
    rewrite !orb_true_iff, !negb_true_iff, !bool_decide_eq_false. tauto.
  - intros Hyes.
    assert (chooseFilesToProcess (Some cache) packageJsonDeps projects nxJson
              (readRootTsConfig env) fileMap
            = (fileMap,
               {| CachedFileData.nonProjectFiles := ∅;
                  CachedFileData.projectFileMap := ∅ |})) as Hchoose.
    { unfold chooseFilesToProcess. fold rootTsConfig. fold recompute.
      by rewrite Hyes. }
    pose proof (build_follows_phases env projectRootMap externalNodes fileMap
                  allWorkspaceFiles rustReferences (Some cache) plugins
                  sourceMap packageJsonDeps _ _ Hdeps Hchoose) as Hfollows.
    split; [exact Hfollows|].
    destruct Hfollows as (_ & -> & _). f_equal.
    unfold buildProjectGraphUsingContext.
    destruct (_ ≫= _) as [builder|e]; [|done].
    destruct (outcome _) as [g|[| | | |errors partial]];
      cbn [assembledFileMap CreateDependenciesContext.fileMap createContext];
      try done; apply copyCachedDeps_empty.
  - intros Hno fromCache toProcess.
    assert (chooseFilesToProcess (Some cache) packageJsonDeps projects nxJson
              (readRootTsConfig env) fileMap
            = (toProcess, NxDepsCache.cachedFileData fromCache)) as Hchoose.
    { unfold chooseFilesToProcess. fold rootTsConfig. fold recompute.
      by rewrite Hno. }
    pose proof (build_follows_phases env projectRootMap externalNodes fileMap
                  allWorkspaceFiles rustReferences (Some cache) plugins
                  sourceMap packageJsonDeps _ _ Hdeps Hchoose) as Hfollows.
    split; [exact Hfollows|].
    intros builder Hnodes. destruct Hfollows as (_ & -> & _).
    exists (copyCachedDeps (NxDepsCache.cachedFileData fromCache) fileMap).
    split.
    { f_equal.
      exact (assembledFileMap_normalized env externalNodes
               (context toProcess) (NxDepsCache.cachedFileData fromCache)
               "6.0" plugins sourceMap builder Hnodes). }
    assert (∀ (files : list FileData) i f d,
              files !! i = Some f → reused f d →
              ((λ f0, withCachedDeps
                        (NxDepsCache.hits cache files !! file f0) f0)
                 <$> files) !! i
              = Some {| file := file f; hash := hash f; deps := Some d |})
      as Hcopy.
    { intros files i f d Hi (c & Hc & Hhash & Hd).
      rewrite list_lookup_fmap, Hi. simpl. f_equal.
      rewrite (NxDepsCacheFacts.hits_lookup cache files f c).
      - destruct c as [cfile chash cdeps]. simpl in Hd. by subst cdeps.
      - by eapply list_elem_of_lookup_2.
      - by apply NxDepsCacheFacts.cacheHit_unchanged. }
    split.
    + intros i f d Hi Hre. cbn [copyCachedDeps nonProjectFiles].
      by apply Hcopy.
    + intros project files i f d Hp Hi Hre.
      exists ((λ f0, withCachedDeps
                       (NxDepsCache.hits cache files !! file f0) f0)
                <$> files).
      split; [|by apply Hcopy].
      cbn [copyCachedDeps projectFileMap]. rewrite map_lookup_imap, Hp.
      simpl. subst fromCache. cbn. by rewrite lookup_fmap, Hp.
Qed.

Lemma recompute_iff_an_input_changed_witness :
  ∃ left files,
    storedFileMap
      (builtStored
         (buildProjectGraphUsingProjectFileMap
            (Examples.env (Returned ()) Examples.nodePerProject [0] [])
            Examples.projectRootMap0 [] Examples.currentFileMap [] ()
            (Some Examples.previousCache) [Examples.linksAB]
            Examples.sourceMapAB))
    = Some left
    ∧ projectFileMap left !! "a" = Some files
    ∧ files !! 0 = Some (Examples.file0 "libs/a/a.ts" "h1" (Some ["npm:x"])).
Proof.
  destruct (recompute_iff_an_input_changed
              (Examples.env (Returned ()) Examples.nodePerProject [0] [])
              Examples.projectRootMap0 [] Examples.currentFileMap [] ()
              Examples.previousCache [Examples.linksAB] Examples.sourceMapAB
              ∅ eq_refl)
    as (_ & _ & Hreuse).
  destruct Hreuse as [_ Hleft]; [reflexivity|].
  destruct (Hleft Examples.graphAB eq_refl) as (left & Hstored & _ & Hfiles).
  destruct (Hfiles "a"
              [Examples.file0 "libs/a/a.ts" "h1" None;
               Examples.file0 "libs/a/b.ts" "h2'" None;
               Examples.file0 "libs/a/c.ts" "h3" None]
              0 (Examples.file0 "libs/a/a.ts" "h1" None) ["npm:x"])
    as (files & Hproject & Hfile); [reflexivity..| |by exists left, files].
  exists (Examples.file0 "libs/a/a.ts" "h1" (Some ["npm:x"])).
  split_and!; reflexivity.
Defined.

End BuildFacts.

(** * Further properties of the compatibility probe *)

Module ProbeMore.
Import JS JSFacts Probe ProbeFacts Observations.

Implicit Types (ps : list PluginConfiguration) (i j : nat) (m : Mapping).
Implicit Types (files fs s : StrSet).

Lemma add_all_absorb xs : ∀ s, (∀ x, x ∈ xs → x ∈ s) → add_all s xs = s.
Proof.
  induction xs as [|x xs IH]; intros s Hin; [done|].
  unfold add_all in *. simpl. unfold add at 2.
  rewrite decide_True by (apply Hin; left). apply IH.
  intros y Hy. apply Hin. by right.
Qed.

Lemma set_set {V} (o : Obj V) k v : set (set o k v) k v = set o k v.
Proof.
  induction o as [|[k' v'] o IH]; simpl.
  - by rewrite decide_True.
  - case_decide; simpl; [by rewrite decide_True|].
    rewrite decide_False by done. by rewrite IH.
Qed.

Lemma set_get_id {V} (o : Obj V) k v : get o k = Some v → set o k v = o.
Proof.
  induction o as [|[k' v'] o IH]; simpl; [done|].
  case_decide; [by intros [= ->]; subst|]. intros Hg. by rewrite IH.
Qed.

(** An error whose files are already recorded for its provider changes
    nothing. *)
Lemma recordError_absorbed m e p fs s :
  findPluginAndFilesWithError e = Some (p, fs) →
  get m p = Some s → (∀ f, f ∈ fs → f ∈ s) → recordError m e = Returned m.
Proof.
  intros Hfind Hget Hin. pose proof (recordError_spec m e) as Hspec.
  rewrite Hfind, Hget in Hspec. rewrite Hspec.
  rewrite add_all_absorb by done. by rewrite set_get_id.
Qed.

(** X1.  [findPluginAndFilesWithError] returns a result exactly for an error
    that implicates a provider with a non-empty name for at least one
    non-empty file; the result then carries that provider, a non-empty file
    list, and only non-empty files cited by the error. *)
Theorem find_result_is_actionable (e : ConfigError) :
  (is_Some (findPluginAndFilesWithError e)
   ↔ ∃ p f, p ≠ "" ∧ f ≠ "" ∧ cites e p f)
  ∧ ∀ p fs, findPluginAndFilesWithError e = Some (p, fs) →
            p ≠ "" ∧ fs ≠ [] ∧ ∀ f, f ∈ fs → f ≠ "" ∧ cites e p f.
Proof.
  split.
  - split.
    + intros [[p fs] Hfind].
      pose proof (find_Some_inv _ _ _ Hfind) as [Hp Hfs].
      destruct fs as [|f fs]; [done|]. exists p, f.
      apply find_Some_cites. exists (f :: fs). split; [done|left].
    + intros (p & f & Hpf). apply find_Some_cites in Hpf as (fs & -> & _).
      done.
  - intros p fs Hfind. pose proof (find_Some_inv _ _ _ Hfind) as [Hp Hfs].
    split_and!; [done..|]. intros f Hf.
    assert (p ≠ "" ∧ f ≠ "" ∧ cites e p f) as (_ & ? & ?); [|done].
    apply find_Some_cites. eauto.
Qed.

(** X2.  Reporting the errors of a [ProjectConfigurationsError] a second time
    changes nothing: the probe's loop ends the same way for the error list
    repeated as for the error list, with the same mapping, keys and files
    in the same order, or with the same throw. *)
Theorem probe_ignores_repeated_errors (errs : list ConfigError) :
  forEach recordError [] (errs ++ errs) = forEach recordError [] errs.
Proof.
  rewrite forEach_app.
  destruct (forEach recordError [] errs) as [m|t] eqn:Hm; [|done].
  apply forEach_fixed. intros e He.
  destruct (findPluginAndFilesWithError e) as [[p fs]|] eqn:Hfind.
  2:{ pose proof (recordError_spec m e) as Hspec. by rewrite Hfind in Hspec. }
  destruct (collected_foldl errs m Hm) as [(_ & _ & Hrel) _].
  pose proof (find_Some_inv _ _ _ Hfind) as [Hp Hfs].
  destruct fs as [|f0 fs0]; [done|].
  assert (∀ f, f ∈ f0 :: fs0 → ∃ s, get m p = Some s ∧ f ∈ s) as Hall.
  { intros f Hf. apply Hrel.
    assert (p ≠ "" ∧ f ≠ "" ∧ cites e p f) as (? & ? & ?)
      by (apply find_Some_cites; eauto).
    eauto 10. }
  destruct (Hall f0) as (s & Hs & _); [left|].
  apply (recordError_absorbed _ e p (f0 :: fs0) s Hfind Hs).
  intros f Hf. destruct (Hall f Hf) as (s' & Hs' & Hin). congruence.
Qed.

(** X3.  Neither whether the probe's loop throws nor which files it reports
    for which provider depends on the order of the errors in the
    [ProjectConfigurationsError]. *)
Theorem probe_content_ignores_error_order (errs errs' : list ConfigError) p f :
  errs ≡ₚ errs' →
  match forEach recordError [] errs, forEach recordError [] errs' with
  | Returned m, Returned m' =>
      (∃ fs, get m p = Some fs ∧ f ∈ fs) ↔ (∃ fs, get m' p = Some fs ∧ f ∈ fs)
  | Thrown t, Thrown t' => t = t'
  | _, _ => False
  end.
Proof.
  intros Hperm.
  assert (∀ q, implicates errs q ↔ implicates errs' q) as Himp.
  { intros q. unfold implicates. by setoid_rewrite Hperm. }
  assert ((∃ q, implicates errs q ∧ q ∈ inherited)
          ∨ ∀ q, implicates errs q → q ∉ inherited) as [Hthrows|Hreturns].
  { clear. induction errs as [|e errs [(q & Hq & Hin)|IH]].
    - right. intros q (_ & e & f & He & _). by apply elem_of_nil in He.
    - left. exists q. split; [|done]. apply implicates_cons. by right.
    - destruct (findPluginAndFilesWithError e) as [[p fs]|] eqn:Hfind.
      + destruct (decide (p ∈ inherited)) as [Hin|Hnin].
        * left. exists p. split; [|done]. apply implicates_cons. left. eauto.
        * right. intros q [[fs' Hq]|Hq]%implicates_cons; [|by apply IH].
          congruence.
      + right. intros q [[fs' Hq]|Hq]%implicates_cons; [|by apply IH].
        congruence. }
  - rewrite (forEach_recordError_throws errs [] plain_nil Hthrows).
    rewrite (forEach_recordError_throws errs' [] plain_nil); [done|].
    destruct Hthrows as (q & Hq & Hin). exists q. by rewrite <-Himp.
  - destruct (forEach_recordError_returns errs [] plain_nil Hreturns)
      as [m Hm].
    destruct (forEach_recordError_returns errs' [] plain_nil) as [m' Hm'].
    { intros q Hq. apply Hreturns. by rewrite Himp. }
    rewrite Hm, Hm'.
    destruct (collected_foldl errs m Hm) as [(_ & _ & Hrel) _].
    destruct (collected_foldl errs' m' Hm') as [(_ & _ & Hrel') _].
    rewrite Hrel, Hrel'. by setoid_rewrite Hperm.
Qed.

Lemma probe_content_ignores_error_order_witness :
  match
    forEach recordError [] mixedErrors,
    forEach recordError [] (reverse mixedErrors)
  with
  | Returned m, Returned m' =>
      (∃ fs, get m "plugin2" = Some fs ∧ "file3" ∈ fs)
      ↔ (∃ fs, get m' "plugin2" = Some fs ∧ "file3" ∈ fs)
  | Thrown t, Thrown t' => t = t'
  | _, _ => False
  end.
Proof.
  apply (probe_content_ignores_error_order mixedErrors (reverse mixedErrors)).
  symmetry. apply reverse_Permutation.
Defined.

(** ** Looking up and rewriting descriptors *)

Lemma find_by_name ps n :
  list_find (λ d, Is_true (matchesName n d)) ps
  = list_find (λ d, descriptorName d = n) ps.
Proof. apply list_find_ext. intros d. apply matchesName_spec. Qed.

Lemma findPluginWithName_eq ps (pluginName : string) :
  findPluginWithName ps pluginName
  = match list_find (λ d, descriptorName d = pluginName) ps with
    | Some (i, PluginString _) =>
        (<[i:=PluginObject {| plugin := pluginName; options := None;
                              include := None; exclude := None |}]> ps,
         Some (i, {| plugin := pluginName; options := None;
                     include := None; exclude := None |}))
    | Some (i, PluginObject cfg) => (ps, Some (i, cfg))
    | None => (ps, None)
    end.
Proof. unfold findPluginWithName. by rewrite find_by_name. Qed.

(** X4.  [findPluginWithName] finds the first descriptor of the provider.
    Without one it returns nothing and leaves the list alone.  Otherwise the
    object it returns has the provider's name, is the structured form of
    the descriptor found, and is the very entry the list holds at that
    position afterwards; no other entry changes, no name changes, and a
    second lookup returns the same object without changing the list
    again. *)
Theorem findPluginWithName_upgrades_in_place ps (pluginName : string) :
  let r := findPluginWithName ps pluginName in
  descriptorName <$> r.1 = descriptorName <$> ps
  ∧ match r.2 with
    | None => r.1 = ps ∧ ∀ d, d ∈ ps → descriptorName d ≠ pluginName
    | Some (i, cfg) =>
        plugin cfg = pluginName
        ∧ r.1 !! i = Some (PluginObject cfg)
        ∧ (∃ d, ps !! i = Some d ∧ expanded d = cfg)
        ∧ (∀ j d, ps !! j = Some d → j < i → descriptorName d ≠ pluginName)
        ∧ (∀ j, j ≠ i → r.1 !! j = ps !! j)
        ∧ findPluginWithName r.1 pluginName = (r.1, Some (i, cfg))
    end.
Proof.
  intros r. subst r. rewrite (findPluginWithName_eq ps).
  destruct (list_find _ ps) as [[i d]|] eqn:Hfind.
  - apply list_find_Some in Hfind as (Hd & Hn & Hfirst).
    destruct d as [name|cfg]; simpl in Hn; cbn [fst snd].
    + subst name. split_and!.
      * rewrite list_fmap_insert. apply list_insert_id.
        by rewrite list_lookup_fmap, Hd.
      * done.
      * apply list_lookup_insert_eq. by eapply lookup_lt_Some.
      * by exists (PluginString pluginName).
      * done.
      * intros j Hj. by apply list_lookup_insert_ne.
      * rewrite findPluginWithName_eq.
        assert (list_find (λ d, descriptorName d = pluginName)
                  (<[i:=PluginObject
                          {| plugin := pluginName; options := None;
                             include := None; exclude := None |}]> ps)
                = Some (i, PluginObject
                             {| plugin := pluginName; options := None;
                                include := None; exclude := None |}))
          as Hagain; [|by rewrite Hagain].
        apply list_find_Some. split_and!.
        -- apply list_lookup_insert_eq. by eapply lookup_lt_Some.
        -- done.
        -- intros j y Hy Hlt. rewrite list_lookup_insert_ne in Hy by lia.
           by eapply Hfirst.
    + split_and!; [done|done|done|by exists (PluginObject cfg)|done|done|].
      rewrite findPluginWithName_eq.
      assert (list_find (λ d, descriptorName d = pluginName) ps
              = Some (i, PluginObject cfg)) as Hagain; [|by rewrite Hagain].
      by apply list_find_Some.
  - cbn [fst snd]. split_and!; [done..|].
    apply list_find_None in Hfind. rewrite Forall_forall in Hfind.
    intros d Hin. by apply Hfind.
Qed.

Lemma keepsDescriptor_refl d : keepsDescriptor d d.
Proof. by split_and!. Qed.

Lemma keepsDescriptor_trans d1 d2 d3 :
  keepsDescriptor d1 d2 → keepsDescriptor d2 d3 → keepsDescriptor d1 d3.
Proof.
  intros (? & ? & ? & Hx) (? & ? & ? & Hy).
  split_and!; [congruence..|]. intros x Hin. by apply Hy, Hx.
Qed.

Lemma Forall2_keeps_refl ps : Forall2 keepsDescriptor ps ps.
Proof. induction ps; constructor; [apply keepsDescriptor_refl|done]. Qed.

Lemma Forall2_keeps_trans ps1 ps2 ps3 :
  Forall2 keepsDescriptor ps1 ps2 → Forall2 keepsDescriptor ps2 ps3 →
  Forall2 keepsDescriptor ps1 ps3.
Proof.
  intros H12. revert ps3. induction H12; intros ps3 H23; inversion H23; subst.
  - constructor.
  - constructor; [by eapply keepsDescriptor_trans|by apply IHForall2].
Qed.

Lemma Forall2_keeps_insert ps i d d' :
  ps !! i = Some d → keepsDescriptor d d' →
  Forall2 keepsDescriptor ps (<[i:=d']> ps).
Proof.
  intros Hd Hk. apply Forall2_same_length_lookup_2.
  - by rewrite length_insert.
  - intros j x y Hx Hy. destruct (decide (i = j)) as [<-|Hne].
    + rewrite list_lookup_insert_eq in Hy by (by eapply lookup_lt_Some).
      congruence.
    + rewrite list_lookup_insert_ne in Hy by done.
      assert (x = y) as -> by congruence. apply keepsDescriptor_refl.
Qed.

Lemma Forall2_keeps_names ps ps' :
  Forall2 keepsDescriptor ps ps' →
  descriptorName <$> ps' = descriptorName <$> ps.
Proof.
  induction 1 as [|d d' ps ps' [Hn _] _ IH]; [done|]. csimpl. by f_equal.
Qed.

(** One entry of the probe result, whatever it is, keeps every descriptor
    and warns if it excludes something. *)
Lemma updateEntry_effect ps ws (n : string) files :
  let r := updateEntry (ps, ws) (n, files) in
  Forall2 keepsDescriptor ps r.1
  ∧ r.2 = ws ++ (if decide (is_Some (firstDescriptor ps n) ∧ files ≠ [])
                 then [warningFor n files] else []).
Proof.
  cbv zeta. unfold updateEntry. rewrite findPluginWithName_eq.
  assert (is_Some (firstDescriptor ps n)
          ↔ is_Some (list_find (λ d, descriptorName d = n) ps)) as Hsome
    by (unfold firstDescriptor; apply fmap_is_Some).
  destruct (list_find _ ps) as [[i d]|] eqn:Hfind.
  2:{ cbn [fst snd].
      rewrite decide_False by (intros [[? ?]%Hsome _]; done).
      rewrite app_nil_r. split; [apply Forall2_keeps_refl|done]. }
  apply list_find_Some in Hfind as (Hd & Hn & _).
  destruct files as [|f files].
  - rewrite decide_False by (by intros [_ ?]). rewrite app_nil_r.
    destruct d as [name|cfg]; simpl in *; (split; [|done]).
    + apply (Forall2_keeps_insert ps i (PluginString name)); [done|].
      subst name. by split_and!.
    + apply Forall2_keeps_refl.
  - rewrite decide_True by (split; [apply Hsome; by eexists|done]).
    destruct d as [name|cfg]; simpl in *; (split; [|done]).
    + rewrite list_insert_insert_eq.
      apply (Forall2_keeps_insert ps i (PluginString name)); [done|].
      subst name. split_and!; [done..|]. simpl.
      intros x Hx. by apply elem_of_nil in Hx.
    + apply (Forall2_keeps_insert ps i (PluginObject cfg)); [done|].
      split_and!; [done..|]. simpl. intros x Hx.
      apply (elem_of_add_all (default [] (exclude cfg)) (f :: files) x).
      by right.
Qed.

Lemma foldl_updateEntry_effect m : ∀ ps ws,
  let r := foldl updateEntry (ps, ws) m in
  Forall2 keepsDescriptor ps r.1
  ∧ r.2 = ws ++ omap (λ entry,
                        if decide (is_Some (firstDescriptor ps entry.1)
                                   ∧ entry.2 ≠ [])
                        then Some (warningFor entry.1 entry.2) else None) m.
Proof.
  induction m as [|[n files] m IH]; intros ps ws; cbn [foldl].
  { simpl. rewrite app_nil_r. split; [apply Forall2_keeps_refl|done]. }
  destruct (updateEntry_effect ps ws n files) as [Hkeep Hwarn].
  destruct (updateEntry (ps, ws) (n, files)) as [ps1 ws1]. cbn [fst snd] in *.
  destruct (IH ps1 ws1) as [IHkeep IHwarn]. split.
  - by eapply Forall2_keeps_trans.
  - rewrite IHwarn, Hwarn, <-app_assoc. f_equal.
    assert (omap
              (λ entry : string * StrSet,
                 if decide (is_Some (firstDescriptor ps1 entry.1)
                            ∧ entry.2 ≠ [])
                 then Some (warningFor entry.1 entry.2) else None) m
            = omap
                (λ entry : string * StrSet,
                   if decide (is_Some (firstDescriptor ps entry.1)
                              ∧ entry.2 ≠ [])
                   then Some (warningFor entry.1 entry.2) else None) m)
      as Hext.
    { apply list_omap_ext. apply Forall2_same_length_lookup_2; [done|].
      intros k x y Hx Hy. assert (x = y) as -> by congruence.
      by rewrite (firstDescriptor_names ps ps1)
        by (by apply Forall2_keeps_names). }
    cbn [omap list_omap fst snd].
    destruct (decide _); cbn [app]; [f_equal|]; exact Hext.
Qed.

(** X5.  Whatever the probe result, a document [updatePluginsInNxJson]
    writes differs from the one it read only in its provider list, and that
    list has at every position a descriptor of the same provider, with the
    same options and include list, that still excludes everything it
    excluded before: providers are never dropped, reordered or renamed, and
    no exclusion is ever removed. *)
Theorem update_plugins_keeps_descriptors (file : NxJsonFile) m :
  match written (updatePluginsInNxJson file m), file with
  | Some doc, FileContent nxJson =>
      nxJsonRest doc = nxJsonRest nxJson
      ∧ ∃ ps', plugins doc = Some ps'
               ∧ Forall2 keepsDescriptor (default [] (plugins nxJson)) ps'
  | Some _, _ => False
  | None, _ => True
  end.
Proof.
  destruct file as [| |nxJson]; [done..|]. simpl.
  destruct (_ || _); [done|].
  destruct (foldl_updateEntry_effect m (default [] (plugins nxJson)) [])
    as [Hkeep _].
  destruct (foldl updateEntry _ m) as [ps' ws']. simpl in *. eauto.
Qed.

(** X6.  [updatePluginsInNxJson] warns exactly about the entries of the probe
    result whose provider has a descriptor and whose file set is not empty,
    once each and in the order of the entries, naming the provider and the
    files of the entry; it warns about nothing when it writes nothing. *)
Theorem update_plugins_warns_per_excluded_provider (file : NxJsonFile) m :
  warnings (updatePluginsInNxJson file m)
  = match written (updatePluginsInNxJson file m), file with
    | Some _, FileContent nxJson =>
        omap (λ entry,
                if decide (is_Some (firstDescriptor
                                      (default [] (plugins nxJson)) entry.1)
                           ∧ entry.2 ≠ [])
                then Some (warningFor entry.1 entry.2) else None) m
    | _, _ => []
    end.
Proof.
  destruct file as [| |nxJson]; [done..|]. simpl.
  destruct (_ || _); [done|].
  destruct (foldl_updateEntry_effect m (default [] (plugins nxJson)) [])
    as [_ Hwarn].
  destruct (foldl updateEntry _ m) as [ps' ws']. simpl in *. done.
Qed.

End ProbeMore.

(** * Further properties of the build *)

Module BuildMore.
Import BuildProjectGraph SpecNotions Observations BuildFacts.

#[local] Arguments ProjectConfigurationUtils.mergeMetadata : simpl never.

(** ** Reading the inputs *)

Lemma lookup_union_orElse (m1 m2 : gmap string string) k :
  (m1 ∪ m2) !! k = orElse (m1 !! k) (m2 !! k).
Proof. rewrite lookup_union. by destruct (m1 !! k), (m2 !! k). Qed.

(** X7.  [readCombinedDeps] fails exactly when a manifest that exists cannot
    be read, with the error of the installation manifest if both fail.
    Otherwise the version it reports for a package is the one of the
    installation manifest's devDependencies, else of its dependencies, else
    of the root manifest's devDependencies, else of its dependencies; an
    absent manifest declares nothing. *)
Theorem readCombinedDeps_precedence (env : Collaborators) :
  match installationPackageJson env, rootPackageJson env with
  | ManifestUnreadable e, _ => readCombinedDeps env = Thrown e
  | _, ManifestUnreadable e => readCombinedDeps env = Thrown e
  | installation, root =>
      ∃ combined,
        readCombinedDeps env = Returned combined
        ∧ ∀ package,
            combined !! package
            = orElse (declared installation true !! package)
                (orElse (declared installation false !! package)
                   (orElse (declared root true !! package)
                      (declared root false !! package)))
  end.
Proof.
  unfold readCombinedDeps.
  destruct (installationPackageJson env) as [|e|installation];
    destruct (rootPackageJson env) as [|e'|root]; simpl; try done;
    (eexists; split; [reflexivity|]; intros package;
     rewrite !lookup_union_orElse; unfold orElse;
     repeat (case_match; try done); congruence).
Qed.

(** X8.  When several roots of the project root map declare the same project
    name, the project of the last such root is the one the build works
    with; a name no root declares has no project. *)
Theorem projectsByName_last_root_wins
    (projectRootMap : JS.Obj ProjectConfiguration) (n : string) :
  projectsByName projectRootMap !! n
  = last (filter (λ p, name p = n) projectRootMap.*2).
Proof.
  unfold projectsByName.
  induction projectRootMap as [|[r p] rm IH] using rev_ind; [done|].
  rewrite foldl_snoc, fmap_app, filter_app.
  change ([(r, p)].*2) with [p]. cbn [snd].
  destruct (decide (name p = n)) as [<-|Hne].
  - rewrite lookup_insert_eq. rewrite filter_cons_True by done.
    by rewrite filter_nil, last_snoc.
  - rewrite lookup_insert_ne by done. rewrite filter_cons_False by done.
    by rewrite filter_nil, app_nil_r.
Qed.

(** X9.  A build of a workspace whose validity check throws a
    [WorkspaceValidityError] never resolves: whatever the graph phases do,
    it throws. *)
Theorem invalid_workspace_never_resolves {Rust}
    env projectRootMap externalNodes fileMap allWorkspaceFiles
    (rustReferences : Rust) fileMapCache plugins sourceMap message :
  assertWorkspaceValidity env (projectsByName projectRootMap) (readNxJson env)
    = Thrown (WorkspaceValidityError message) →
  ∃ e,
    built
      (buildProjectGraphUsingProjectFileMap env projectRootMap externalNodes
         fileMap allWorkspaceFiles rustReferences fileMapCache plugins
         sourceMap)
    = Thrown e.
Proof.
  intros Hvalidity.
  unfold buildProjectGraphUsingProjectFileMap, validityErrors.
  rewrite Hvalidity. simpl.
  destruct (readCombinedDeps env) as [packageJsonDeps|e]; simpl; [|by eexists].
  destruct (chooseFilesToProcess _ _ _ _ _ _)
    as [filesToProcess cachedFileData]. simpl.
  destruct (assembled _) as [g|[| | | |errors partial]]; by eexists.
Qed.

Lemma invalid_workspace_never_resolves_witness :
  ∃ e,
    built
      (buildProjectGraphUsingProjectFileMap Examples.invalidWorkspace
         Examples.projectRootMap0 [] Examples.currentFileMap [] ()
         (Some Examples.previousCache) [Examples.linksAB]
         Examples.sourceMapAB)
    = Thrown e.
Proof.
  by apply (invalid_workspace_never_resolves Examples.invalidWorkspace
              Examples.projectRootMap0 [] Examples.currentFileMap [] ()
              (Some Examples.previousCache) [Examples.linksAB]
              Examples.sourceMapAB "duplicate project name").
Defined.

(** X10.  When the validity check throws something that is not a
    [WorkspaceValidityError], the build drops it: it ends, and leaves the
    cells and the source maps, exactly as if the check had passed. *)
Theorem other_validity_failures_are_dropped {Rust}
    env projectRootMap externalNodes fileMap allWorkspaceFiles
    (rustReferences : Rust) fileMapCache plugins sourceMap e :
  isWorkspaceValidityError e = false →
  assertWorkspaceValidity env (projectsByName projectRootMap) (readNxJson env)
    = Thrown e →
  buildProjectGraphUsingProjectFileMap env projectRootMap externalNodes
    fileMap allWorkspaceFiles rustReferences fileMapCache plugins sourceMap
  = buildProjectGraphUsingProjectFileMap
      (withValidity env (λ _ _, Returned ()))
      projectRootMap externalNodes fileMap allWorkspaceFiles rustReferences
      fileMapCache plugins sourceMap.
Proof.
  intros Hkind Hvalidity.
  unfold buildProjectGraphUsingProjectFileMap, validityErrors.
  rewrite Hvalidity, Hkind. reflexivity.
Qed.

Lemma other_validity_failures_are_dropped_witness :
  buildProjectGraphUsingProjectFileMap
    (Examples.env (Thrown (GenericError "validator crashed"))
       Examples.nodePerProject [0] [0])
    Examples.projectRootMap0 [] Examples.currentFileMap [] () None
    [Examples.linksAB] Examples.sourceMapAB
  = buildProjectGraphUsingProjectFileMap
      (withValidity
         (Examples.env (Thrown (GenericError "validator crashed"))
            Examples.nodePerProject [0] [0])
         (λ _ _, Returned ()))
      Examples.projectRootMap0 [] Examples.currentFileMap [] () None
      [Examples.linksAB] Examples.sourceMapAB.
Proof.
  by apply (other_validity_failures_are_dropped
              (Examples.env (Thrown (GenericError "validator crashed"))
                 Examples.nodePerProject [0] [0])
              Examples.projectRootMap0 [] Examples.currentFileMap [] () None
              [Examples.linksAB] Examples.sourceMapAB
              (GenericError "validator crashed")).
Defined.

(** ** The metadata phase *)

Lemma foldl_applyResult_frame rs : ∀ graph (sourceMap : ConfigurationSourceMaps),
  let r := foldl applyResult (graph, sourceMap) rs in
  dependencies r.1 = dependencies graph
  ∧ externalNodes r.1 = externalNodes graph
  ∧ version r.1 = version graph
  ∧ ∀ project,
      nodeIdentity <$> nodes r.1 !! project
      = nodeIdentity <$> nodes graph !! project
      ∧ (nodes graph !! project = None →
         r.2 !! project = sourceMap !! project).
Proof.
  induction rs as [|[md n] rs IH]; intros graph sourceMap; cbn [foldl].
  { by split_and!. }
  destruct (applyResult_spec graph sourceMap md n)
    as (Hd & He & Hv & Hspec).
  destruct (applyResult (graph, sourceMap) (md, n)) as [g1 sm1].
  cbn [fst snd] in *.
  destruct (IH g1 sm1) as (IHd & IHe & IHv & IHspec).
  split_and!; [congruence..|]. intros project.
  destruct (IHspec project) as [IHn IHs].
  destruct (Hspec project) as [Hn Hs]. split.
  - rewrite IHn, Hn.
    by destruct (md !! project), (nodes graph !! project).
  - intros Hnone. rewrite IHs.
    + rewrite Hs, Hnone. by destruct (md !! project).
    + rewrite Hn, Hnone. by destruct (md !! project).
Qed.

(** X11.  [applyProjectMetadata] only ever changes the metadata of nodes the
    graph already has: edges, external nodes and version stay, every node
    keeps its type, name, root and other configuration, no node is added or
    removed, and metadata contributed for a project that is not in the graph
    is dropped without touching that project's source map. *)
Theorem metadata_phase_only_touches_metadata
    graph plugins context (sourceMap : ConfigurationSourceMaps) order :
  let applied := applyProjectMetadata graph plugins context sourceMap order in
  dependencies (appliedGraph applied) = dependencies graph
  ∧ externalNodes (appliedGraph applied) = externalNodes graph
  ∧ version (appliedGraph applied) = version graph
  ∧ ∀ project,
      nodeIdentity <$> nodes (appliedGraph applied) !! project
      = nodeIdentity <$> nodes graph !! project
      ∧ (nodes graph !! project = None →
         appliedSourceMaps applied !! project = sourceMap !! project).
Proof.
  cbv zeta. unfold applyProjectMetadata.
  pose proof (foldl_applyResult_frame
                (results (awaitMetadata graph plugins context order))
                graph sourceMap) as H.
  by destruct (foldl applyResult _ _).
Qed.

Lemma metadata_accounting graph context plugins :
  length (omap (metadataResult graph context) plugins)
  + length (omap (metadataFailure graph context) plugins)
  = length (filter (λ p, is_Some (LoadedNxPlugin.createMetadata p)) plugins).
Proof.
  induction plugins as [|p plugins IH]; [done|].
  change (omap (metadataResult graph context) (p :: plugins))
    with (match metadataResult graph context p with
          | Some r => r :: omap (metadataResult graph context) plugins
          | None => omap (metadataResult graph context) plugins
          end).
  change (omap (metadataFailure graph context) (p :: plugins))
    with (match metadataFailure graph context p with
          | Some e => e :: omap (metadataFailure graph context) plugins
          | None => omap (metadataFailure graph context) plugins
          end).
  unfold metadataResult at 1, metadataFailure at 1.
  destruct (LoadedNxPlugin.createMetadata p) as [f|] eqn:Hf.
  - rewrite filter_cons_True by (by rewrite Hf).
    destruct (f graph context); cbn [length]; lia.
  - rewrite filter_cons_False by (rewrite Hf; by intros [? ?]). done.
Qed.

(** X12.  Once every provider has settled, whatever the order, each provider
    with the metadata capability has left exactly one trace: a buffered
    result or a [CreateMetadataError]; providers without the capability
    leave none. *)
Theorem every_metadata_provider_is_accounted_for
    graph plugins context order :
  order ≡ₚ seq 0 (length plugins) →
  let s := awaitMetadata graph plugins context order in
  length (results s) + length (metadataErrors s)
  = length (filter (λ p, is_Some (LoadedNxPlugin.createMetadata p)) plugins).
Proof.
  intros Horder. cbv zeta. unfold awaitMetadata.
  rewrite foldl_settleMetadata. cbn [results metadataErrors app].
  rewrite (settled_Permutation order plugins Horder).
  apply metadata_accounting.
Qed.

Lemma every_metadata_provider_is_accounted_for_witness :
  let s :=
    awaitMetadata Examples.graphAB
      [Examples.describes "p1" "one"; Examples.linksAB;
       Examples.failingMetadata]
      Examples.metadataContextAB [2; 0; 1] in
  length (results s) + length (metadataErrors s) = 2.
Proof.
  apply (every_metadata_provider_is_accounted_for Examples.graphAB
           [Examples.describes "p1" "one"; Examples.linksAB;
            Examples.failingMetadata]
           Examples.metadataContextAB [2; 0; 1]).
  simpl. etrans; [apply perm_swap|]. apply perm_skip, perm_swap.
Defined.

(** ** Providers without capabilities *)

Lemma settled_nil {A} (order : list nat) : settled order (@nil A) = [].
Proof. unfold settled. apply omap_all_None. intros i _. by destruct i. Qed.

(** X13.  Providers that can contribute neither dependencies nor metadata
    take part in no phase: [updateProjectGraphWithPlugins] returns the graph
    it was given and leaves the source maps alone, whatever the settlement
    orders. *)
Theorem providers_without_capabilities_change_nothing
    env context initProjectGraph plugins
    (sourceMap : ConfigurationSourceMaps) :
  (∀ p, p ∈ plugins →
        LoadedNxPlugin.createDependencies p = None
        ∧ LoadedNxPlugin.createMetadata p = None) →
  outcome
    (updateProjectGraphWithPlugins env context initProjectGraph plugins
       sourceMap)
  = Returned initProjectGraph
  ∧ sourceMaps
      (updateProjectGraphWithPlugins env context initProjectGraph plugins
         sourceMap)
    = sourceMap.
Proof.
  intros Hnone.
  unfold updateProjectGraphWithPlugins, awaitDependencies,
    applyProjectMetadata, awaitMetadata, createDependencyPlugins.
  assert (filter (λ plugin, is_Some (LoadedNxPlugin.createDependencies plugin))
            plugins = []) as ->.
  { induction plugins as [|p plugins IH]; [done|].
    rewrite filter_cons_False.
    - apply IH. intros q Hq. apply Hnone. by right.
    - destruct (Hnone p) as [-> _]; [left|]. by intros [? ?]. }
  rewrite settled_nil. cbn [foldl].
  rewrite foldl_settleMetadata. cbn [results metadataErrors app].
  assert (∀ q, q ∈ settled (metadataSettle env) plugins →
               LoadedNxPlugin.createMetadata q = None) as Hquiet.
  { intros q Hq. by apply elem_of_settled, Hnone in Hq as [_ ?]. }
  rewrite !omap_all_None.
  - done.
  - intros q Hq. unfold metadataFailure. by rewrite (Hquiet q Hq).
  - intros q Hq. unfold metadataResult. by rewrite (Hquiet q Hq).
Qed.

Lemma providers_without_capabilities_change_nothing_witness :
  outcome
    (updateProjectGraphWithPlugins
       (Examples.env (Returned ()) Examples.nodePerProject [0] [0])
       Examples.contextAB Examples.graphAB [MoreExamples.idle]
       Examples.sourceMapAB)
  = Returned Examples.graphAB.
Proof.
  apply (providers_without_capabilities_change_nothing
           (Examples.env (Returned ()) Examples.nodePerProject [0] [0])
           Examples.contextAB Examples.graphAB [MoreExamples.idle]
           Examples.sourceMapAB).
  intros p Hp. apply list_elem_of_singleton in Hp as ->. done.
Defined.

(** ** Copying cached dependency lists *)

Lemma withCachedDeps_file cached f : file (withCachedDeps cached f) = file f.
Proof. by destruct cached as [[? ? [?|]]|]. Qed.

Lemma withCachedDeps_idem cached f :
  withCachedDeps cached (withCachedDeps cached f) = withCachedDeps cached f.
Proof. by destruct cached as [[? ? [?|]]|]. Qed.

(** X14.  Copying cached dependency lists onto the files of the file map
    keeps every file where it is, with its path and fingerprint; a file gets
    the dependency list of its cache entry if the entry has one and keeps
    its own otherwise; copying a second time changes nothing more. *)
Theorem copyCachedDeps_only_fills_deps
    (cachedFileData : CachedFileData.t) (fileMap : FileMap) :
  sameFiles (copyCachedDeps cachedFileData fileMap) fileMap
  ∧ nonProjectFiles (copyCachedDeps cachedFileData fileMap)
    = (λ f,
         match
           CachedFileData.nonProjectFiles cachedFileData !! file f ≫= deps
         with
         | Some cachedDeps =>
             {| file := file f; hash := hash f; deps := Some cachedDeps |}
         | None => f
         end) <$> nonProjectFiles fileMap
  ∧ copyCachedDeps cachedFileData (copyCachedDeps cachedFileData fileMap)
    = copyCachedDeps cachedFileData fileMap.
Proof.
  split_and!.
  - apply copyCachedDeps_sameFiles.
  - unfold copyCachedDeps. cbn [nonProjectFiles]. apply list_fmap_ext.
    intros i f _.
    by destruct (CachedFileData.nonProjectFiles cachedFileData !! file f)
      as [[? ? [?|]]|].
  - unfold copyCachedDeps. cbn [nonProjectFiles projectFileMap]. f_equal.
    + rewrite <-list_fmap_compose. apply list_fmap_ext. intros i f _. simpl.
      by rewrite withCachedDeps_file, withCachedDeps_idem.
    + apply map_eq. intros project. rewrite !map_lookup_imap.
      destruct (projectFileMap fileMap !! project) as [files|]; [|done].
      simpl. f_equal.
      destruct (CachedFileData.projectFileMap cachedFileData !! project)
        as [cachedFiles|]; [|done].
      rewrite <-list_fmap_compose. apply list_fmap_ext. intros i f _. simpl.
      by rewrite withCachedDeps_file, withCachedDeps_idem.
Qed.

(** ** The edges of the dependency phase *)

Lemma takeWhile_ext {A} (f g : A → bool) (xs : list A) :
  (∀ x, f x = g x) → takeWhile f xs = takeWhile g xs.
Proof.
  intros Hfg. induction xs as [|x xs IH]; [done|]. simpl.
  by rewrite Hfg, IH.
Qed.

Lemma takeWhile_all {A} (f : A → bool) (xs : list A) :
  forallb f xs = true → takeWhile f xs = xs.
Proof.
  induction xs as [|x xs IH]; [done|]. simpl.
  intros [-> Hxs]%andb_true_iff. by rewrite IH.
Qed.

Lemma takeWhile_stops {A} (f : A → bool) (pre post : list A) bad :
  forallb f pre = true → f bad = false →
  takeWhile f (pre ++ bad :: post) = pre.
Proof.
  induction pre as [|x pre IH]; simpl.
  - by intros _ ->.
  - intros [-> Hpre]%andb_true_iff Hbad. by rewrite IH.
Qed.

(** The edges in the builder after a provider's list was fed in are those it
    had and those of the list before the first rejected one. *)
Lemma addDependencies_edges deps : ∀ (b : ProjectGraphBuilder.t) dep,
  dep ∈ dependencies (addDependencies b deps).1
  ↔ dep ∈ dependencies b
    ∨ dep ∈ takeWhile (ProjectGraphBuilder.accepts b) deps.
Proof.
  induction deps as [|d deps IH]; intros b dep;
    cbn [addDependencies takeWhile].
  { cbn [fst]. rewrite elem_of_nil. tauto. }
  destruct (ProjectGraphBuilder.accepts b d) eqn:Hacc.
  - unfold ProjectGraphBuilder.addDependency.
    assert ({| source := source d; target := target d; type := type d;
               sourceFile := sourceFile d |} = d) as -> by (by destruct d).
    rewrite Hacc.
    rewrite IH. cbn [dependencies].
    rewrite (takeWhile_ext _ (ProjectGraphBuilder.accepts b))
      by (intros x; by apply accepts_ext).
    rewrite elem_of_cons. case_decide as Hin.
    + split; [tauto|]. intros [?|[->|?]]; tauto.
    + rewrite elem_of_app, list_elem_of_singleton. tauto.
  - rewrite (addDependency_rejected b d Hacc). cbn [fst].
    rewrite elem_of_nil. tauto.
Qed.

Lemma settleDependencies_edges context graph (b : ProjectGraphBuilder.t)
    errors plugin dep :
  nodes b = nodes graph → externalNodes b = externalNodes graph →
  dep ∈ dependencies (settleDependencies context (b, errors) plugin).1
  ↔ dep ∈ dependencies b ∨ dep ∈ acceptedEdges context graph plugin.
Proof.
  intros Hn He. unfold settleDependencies, acceptedEdges.
  destruct (LoadedNxPlugin.createDependencies plugin) as [f|];
    [|cbn [fst]; rewrite elem_of_nil; tauto].
  destruct (f context) as [deps|cause];
    [|cbn [fst]; rewrite elem_of_nil; tauto].
  pose proof (addDependencies_edges deps b dep) as Hedges.
  rewrite (takeWhile_ext _ (ProjectGraphBuilder.accepts graph)) in Hedges
    by (intros x; by apply accepts_ext).
  by destruct (addDependencies b deps) as [b' [cause|]].
Qed.

Lemma foldl_settleDependencies_edges context graph providers :
  ∀ (b : ProjectGraphBuilder.t) errors dep,
  nodes b = nodes graph → externalNodes b = externalNodes graph →
  dep ∈ dependencies
          (foldl (settleDependencies context) (b, errors) providers).1
  ↔ dep ∈ dependencies b
    ∨ ∃ plugin, plugin ∈ providers
                ∧ dep ∈ acceptedEdges context graph plugin.
Proof.
  induction providers as [|plugin providers IH]; intros b errors dep Hn He;
    cbn [foldl].
  { cbn [fst]. split; [by left|]. intros [?|(? & Hin & _)]; [done|].
    by apply elem_of_nil in Hin. }
  pose proof (settleDependencies_edges context graph b errors plugin dep
                Hn He) as Hstep.
  destruct (settleDependencies_spec context graph b errors plugin Hn He)
    as (Hn1 & He1 & _).
  destruct (settleDependencies context (b, errors) plugin) as [b1 errors1].
  cbn [fst snd] in *. rewrite (IH b1 errors1 dep Hn1 He1), Hstep.
  split.
  - intros [[?|?]|(q & Hq & ?)]; [by left|right..].
    + exists plugin. split; [left|done].
    + exists q. split; [by right|done].
  - intros [?|(q & [->|Hq]%elem_of_cons & ?)]; [by left; left|by left; right|].
    right. by exists q.
Qed.

(** X15.  The contribution of a provider is not all or nothing: when the
    builder rejects one of its edges, the provider is recorded as failed with
    that rejection as cause, the edges it listed before the rejected one
    are in the graph, and the rejected edge and those after it are added by
    this provider no more. *)
Theorem rejected_edge_keeps_earlier_edges
    context (b : ProjectGraphBuilder.t) errors plugin
    createDependencies pre bad post :
  LoadedNxPlugin.createDependencies plugin = Some createDependencies →
  createDependencies context = Returned (pre ++ bad :: post) →
  forallb (ProjectGraphBuilder.accepts b) pre = true →
  ProjectGraphBuilder.accepts b bad = false →
  let r := settleDependencies context (b, errors) plugin in
  r.2 = errors
        ++ [ProcessDependenciesError (LoadedNxPlugin.name plugin)
              (GenericError "invariant violation: unknown endpoint")]
  ∧ ∀ dep, dep ∈ dependencies r.1 ↔ dep ∈ dependencies b ∨ dep ∈ pre.
Proof.
  intros Hcap Hcall Hpre Hbad r. subst r. split.
  - destruct (settleDependencies_spec context b b errors plugin)
      as (_ & _ & _ & -> & _); [done..|].
    unfold dependencyFailure. rewrite Hcap, Hcall.
    rewrite forallb_app. cbn [forallb]. by rewrite Hpre, Hbad.
  - intros dep.
    rewrite (settleDependencies_edges context b b errors plugin dep)
      by done.
    unfold acceptedEdges. rewrite Hcap, Hcall.
    by rewrite takeWhile_stops.
Qed.

Lemma rejected_edge_keeps_earlier_edges_witness :
  let r :=
    settleDependencies Examples.contextAB (Examples.graphAB, [])
      MoreExamples.halfAccepted in
  r.2 = [ProcessDependenciesError "half"
           (GenericError "invariant violation: unknown endpoint")]
  ∧ ∀ dep, dep ∈ dependencies r.1
           ↔ dep ∈ dependencies Examples.graphAB ∨ dep ∈ [Examples.edgeAB].
Proof.
  apply (rejected_edge_keeps_earlier_edges Examples.contextAB
           Examples.graphAB [] MoreExamples.halfAccepted
           MoreExamples.halfEdges [Examples.edgeAB]
           MoreExamples.edgeToMissing [MoreExamples.edgeBA]);
    reflexivity.
Defined.

Lemma addDependencies_NoDup deps : ∀ b : ProjectGraphBuilder.t,
  NoDup (dependencies b) → NoDup (dependencies (addDependencies b deps).1).
Proof.
  induction deps as [|d deps IH]; intros b Hnd; cbn [addDependencies];
    [done|].
  unfold ProjectGraphBuilder.addDependency.
  destruct (ProjectGraphBuilder.accepts b _); [|done].
  apply IH. cbn [dependencies]. case_decide as Hin; [done|].
  apply NoDup_app. split_and!; [done| |apply NoDup_singleton].
  intros x Hx ->%list_elem_of_singleton. done.
Qed.

Lemma foldl_settleDependencies_NoDup context providers :
  ∀ (b : ProjectGraphBuilder.t) errors,
  NoDup (dependencies b) →
  NoDup (dependencies
           (foldl (settleDependencies context) (b, errors) providers).1).
Proof.
  induction providers as [|plugin providers IH]; intros b errors Hnd;
    cbn [foldl]; [done|].
  assert (NoDup (dependencies
                   (settleDependencies context (b, errors) plugin).1))
    as Hstep.
  { unfold settleDependencies.
    destruct (LoadedNxPlugin.createDependencies plugin) as [f|]; [|done].
    destruct (f context) as [deps|cause]; [|done].
    pose proof (addDependencies_NoDup deps b Hnd).
    by destruct (addDependencies b deps) as [b' [cause|]]. }
  destruct (settleDependencies context (b, errors) plugin) as [b1 errors1].
  by apply IH.
Qed.

Lemma omap_cons_Some {A B} (f : A → option B) x y l :
  f x = Some y → omap f (x :: l) = y :: omap f l.
Proof. intros H. csimpl. by rewrite H. Qed.

Lemma omap_cons_None {A B} (f : A → option B) x l :
  f x = None → omap f (x :: l) = omap f l.
Proof. intros H. csimpl. by rewrite H. Qed.

Lemma length_omap_fmap_filter {A B C} (f : A → option B) (g : A → B → C) l :
  length (omap (λ x, g x <$> f x) l)
  = length (filter (λ x, is_Some (f x)) l).
Proof.
  induction l as [|x l IH]; [done|].
  destruct (f x) as [y|] eqn:Hy.
  - rewrite (omap_cons_Some _ x (g x y)) by (by rewrite Hy).
    rewrite filter_cons_True by (by rewrite Hy). cbn [length]. by rewrite IH.
  - rewrite omap_cons_None by (by rewrite Hy).
    rewrite filter_cons_False by (rewrite Hy; by intros [? ?]). done.
Qed.

(** The dependency phase, once every call has settled. *)
Lemma dependency_phase_facts context initProjectGraph plugins order :
  order ≡ₚ seq 0 (length (createDependencyPlugins plugins)) →
  let r := awaitDependencies context initProjectGraph plugins order in
  (∀ dep,
     dep ∈ dependencies r.1
     ↔ dep ∈ dependencies initProjectGraph
       ∨ ∃ plugin, plugin ∈ createDependencyPlugins plugins
                   ∧ dep ∈ acceptedEdges context initProjectGraph plugin)
  ∧ r.2 ≡ₚ omap (λ plugin,
                   ProcessDependenciesError (LoadedNxPlugin.name plugin)
                   <$> dependencyFailure context initProjectGraph plugin)
                (createDependencyPlugins plugins)
  ∧ (NoDup (dependencies initProjectGraph) → NoDup (dependencies r.1)).
Proof.
  intros Horder r. subst r. unfold awaitDependencies.
  pose proof (settled_Permutation order _ Horder) as Hperm.
  split_and!.
  - intros dep.
    rewrite (foldl_settleDependencies_edges context initProjectGraph)
      by done.
    by setoid_rewrite Hperm.
  - destruct (foldl_settleDependencies context initProjectGraph
                (settled order (createDependencyPlugins plugins))
                (ProjectGraphBuilder.create (Some initProjectGraph)) [])
      as (_ & -> & _); [done..|].
    by rewrite Hperm.
  - intros Hnd. by apply foldl_settleDependencies_NoDup.
Qed.

(** X16.  The dependency phase does not depend on the order in which the
    provider calls settle, except for the order of edges and errors.  In
    whatever order they settle, the edges are those of the initial graph
    and, of every provider, those it listed before the first one the builder
    rejected, and there is one [ProcessDependenciesError] per failing
    provider; so two settlement orders give the same edges and the same
    errors, up to order. *)
Theorem dependency_phase_ignores_settlement_order
    context initProjectGraph plugins order order' :
  order ≡ₚ seq 0 (length (createDependencyPlugins plugins)) →
  order' ≡ₚ seq 0 (length (createDependencyPlugins plugins)) →
  let r := awaitDependencies context initProjectGraph plugins order in
  let r' := awaitDependencies context initProjectGraph plugins order' in
  (∀ dep,
     dep ∈ dependencies r.1
     ↔ dep ∈ dependencies initProjectGraph
       ∨ ∃ plugin, plugin ∈ createDependencyPlugins plugins
                   ∧ dep ∈ acceptedEdges context initProjectGraph plugin)
  ∧ length r.2
    = length (filter (λ plugin,
                        is_Some (dependencyFailure context initProjectGraph
                                   plugin))
                     (createDependencyPlugins plugins))
  ∧ (∀ dep, dep ∈ dependencies r.1 ↔ dep ∈ dependencies r'.1)
  ∧ r.2 ≡ₚ r'.2.
Proof.
  intros Horder Horder' r r'.
  destruct (dependency_phase_facts context initProjectGraph plugins order
              Horder) as (Hedges & Herrors & _).
  destruct (dependency_phase_facts context initProjectGraph plugins order'
              Horder') as (Hedges' & Herrors' & _).
  fold r in Hedges, Herrors. fold r' in Hedges', Herrors'.
  split_and!.
  - done.
  - rewrite Herrors. apply length_omap_fmap_filter.
  - intros dep. by rewrite Hedges, Hedges'.
  - by rewrite Herrors, Herrors'.
Qed.

Lemma dependency_phase_ignores_settlement_order_witness :
  let r :=
    awaitDependencies Examples.contextAB Examples.graphAB
      [Examples.linksAB; Examples.failingDependencies; MoreExamples.linksBA]
      [2; 0; 1] in
  let r' :=
    awaitDependencies Examples.contextAB Examples.graphAB
      [Examples.linksAB; Examples.failingDependencies; MoreExamples.linksBA]
      [0; 1; 2] in
  (∀ dep, dep ∈ dependencies r.1 ↔ dep ∈ dependencies r'.1) ∧ r.2 ≡ₚ r'.2.
Proof.
  destruct (dependency_phase_ignores_settlement_order Examples.contextAB
              Examples.graphAB
              [Examples.linksAB; Examples.failingDependencies;
               MoreExamples.linksBA] [2; 0; 1] [0; 1; 2])
    as (_ & _ & Hedges & Herrors).
  - change (length (createDependencyPlugins _)) with 3.
    simpl. etrans; [apply perm_swap|]. apply perm_skip, perm_swap.
  - done.
  - split; [exact Hedges|exact Herrors].
Defined.

(** X17.  When no dependency provider fails and no [createMetadata] call
    throws, [updateProjectGraphWithPlugins] returns a graph, whatever the
    settlement orders; its edges are exactly those of the initial graph and
    those the providers contributed, none listed twice if none was. *)
Theorem all_providers_succeed
    env context initProjectGraph plugins
    (sourceMap : ConfigurationSourceMaps) :
  dependenciesSettle env
    ≡ₚ seq 0 (length (createDependencyPlugins plugins)) →
  (∀ p, p ∈ createDependencyPlugins plugins →
        dependencyFailure context initProjectGraph p = None) →
  (∀ graph q, q ∈ plugins →
              metadataFailure graph (metadataContext env context) q = None) →
  ∃ graph,
    outcome
      (updateProjectGraphWithPlugins env context initProjectGraph plugins
         sourceMap)
    = Returned graph
    ∧ (∀ dep,
         dep ∈ dependencies graph
         ↔ dep ∈ dependencies initProjectGraph
           ∨ ∃ p, p ∈ createDependencyPlugins plugins
                  ∧ contributes context p dep)
    ∧ (NoDup (dependencies initProjectGraph) → NoDup (dependencies graph)).
Proof.
  intros Horder Hdeps Hmeta.
  destruct (dependency_phase_facts context initProjectGraph
              plugins (dependenciesSettle env) Horder)
    as (Hedges & Herrors & Hnd).
  unfold updateProjectGraphWithPlugins.
  fold (metadataContext env context).
  destruct (awaitDependencies _ _ _ _) as [builder errors].
  cbn [fst snd] in *.
  assert (errors = []) as ->.
  { apply Permutation_nil_r. rewrite Herrors.
    rewrite omap_all_None; [done|]. intros p Hp. by rewrite Hdeps. }
  pose proof (applied_is_fold
                (ProjectGraphBuilder.getUpdatedProjectGraph builder) plugins
                (metadataContext env context) sourceMap (metadataSettle env))
    as Happlied.
  rewrite appliedErrors_settled.
  rewrite omap_all_None
    by (intros q Hq; by eapply Hmeta, elem_of_settled).
  cbn [app length Nat.ltb Nat.leb].
  eexists. split; [reflexivity|].
  pose proof (foldl_applyResult_dependencies
                (results
                   (awaitMetadata
                      (ProjectGraphBuilder.getUpdatedProjectGraph builder)
                      plugins (metadataContext env context)
                      (metadataSettle env)))
                (ProjectGraphBuilder.getUpdatedProjectGraph builder)
                sourceMap) as Hsame.
  rewrite <-Happlied in Hsame. cbn [fst] in Hsame. rewrite Hsame.
  split; [|done]. intros dep. rewrite Hedges.
  apply or_iff_compat_l. split; intros (p & Hp & Hc); exists p; (split; [done|]).
  - revert Hc. unfold acceptedEdges, contributes.
    pose proof (Hdeps p Hp) as Hok. unfold dependencyFailure in Hok.
    destruct (LoadedNxPlugin.createDependencies p) as [f|];
      [|by intros ?%elem_of_nil].
    destruct (f context) as [deps|] eqn:Hcall; [|done].
    destruct (forallb _ deps) eqn:Hall; [|done].
    rewrite takeWhile_all by done. intros Hin. by exists f, deps.
  - destruct Hc as (f & deps & Hf & Hcall & Hin).
    pose proof (Hdeps p Hp) as Hok. unfold dependencyFailure in Hok.
    unfold acceptedEdges. rewrite Hf, Hcall in *.
    destruct (forallb _ deps) eqn:Hall; [|done].
    by rewrite takeWhile_all.
Qed.

Lemma all_providers_succeed_witness :
  ∃ graph,
    outcome
      (updateProjectGraphWithPlugins
         (Examples.env (Returned ()) Examples.nodePerProject [1; 0] [0; 1])
         Examples.contextAB Examples.graphAB
         [Examples.linksAB; MoreExamples.linksBA] Examples.sourceMapAB)
    = Returned graph
    ∧ MoreExamples.edgeBA ∈ dependencies graph.
Proof.
  destruct (all_providers_succeed
              (Examples.env (Returned ()) Examples.nodePerProject
                 [1; 0] [0; 1])
              Examples.contextAB Examples.graphAB
              [Examples.linksAB; MoreExamples.linksBA] Examples.sourceMapAB)
    as (graph & Hreturned & Hedges & _).
  - apply perm_swap.
  - intros p Hp. apply list_elem_of_In in Hp. simpl in Hp.
    by destruct Hp as [<-|[<-|[]]].
  - intros graph q Hq. apply list_elem_of_In in Hq. simpl in Hq.
    by destruct Hq as [<-|[<-|[]]].
  - exists graph. split; [exact Hreturned|]. apply Hedges. right.
    exists MoreExamples.linksBA. split.
    + change (createDependencyPlugins _)
        with [Examples.linksAB; MoreExamples.linksBA].
      apply elem_of_cons. right. apply list_elem_of_here.
    + eexists _, _. split_and!; [done..|]. apply list_elem_of_here.
Defined.

(** ** From the phases to the caller *)

(** X18.  The errors of the provider phases reach the caller of the build
    unchanged and in order, behind the validity errors collected at the
    start: when the nodes were normalized, the provider phases threw an
    [AggregateProjectGraphError] and the implicit dependencies could be
    applied to its partial graph, the build throws an
    [AggregateProjectGraphError] with the validity errors followed by the
    errors of the phases, and with the graph obtained after the implicit
    dependencies were applied. *)
Theorem phase_errors_reach_the_caller {Rust}
    env projectRootMap externalNodes fileMap allWorkspaceFiles
    (rustReferences : Rust) fileMapCache plugins
    (sourceMap : ConfigurationSourceMaps)
    packageJsonDeps builder phaseErrors partialProjectGraph finalBuilder :
  let projects := projectsByName projectRootMap in
  let nxJson := readNxJson env in
  let chosen :=
    chooseFilesToProcess fileMapCache packageJsonDeps projects nxJson
      (readRootTsConfig env) fileMap in
  let ctx :=
    createContext env projects nxJson externalNodes fileMap chosen.1 in
  readCombinedDeps env = Returned packageJsonDeps →
  (b ← addExternalNodes
         (ProjectGraphBuilder.setVersion "6.0"
            (ProjectGraphBuilder.create None))
         externalNodes;
   normalizeProjectNodes env ctx b) = Returned builder →
  outcome
    (updateProjectGraphWithPlugins env ctx
       (ProjectGraphBuilder.getUpdatedProjectGraph builder) plugins sourceMap)
  = Thrown (AggregateProjectGraphError phaseErrors partialProjectGraph) →
  applyImplicitDependencies env projects
    (ProjectGraphBuilder.create (Some partialProjectGraph))
  = Returned finalBuilder →
  built
    (buildProjectGraphUsingProjectFileMap env projectRootMap externalNodes
       fileMap allWorkspaceFiles rustReferences fileMapCache plugins
       sourceMap)
  = Thrown
      (AggregateProjectGraphError
         (validityErrors env projects nxJson ++ phaseErrors)
         (ProjectGraphBuilder.getUpdatedProjectGraph finalBuilder)).
Proof.
  intros projects nxJson chosen ctx Hdeps Hnodes Hphases Himplicit.
  subst ctx. unfold buildProjectGraphUsingProjectFileMap.
  rewrite Hdeps. fold projects nxJson. fold chosen.
  destruct chosen as [filesToProcess cachedFileData]. cbn [fst] in *.
  unfold buildProjectGraphUsingContext.
  rewrite Hnodes, Hphases.
  cbn [CreateDependenciesContext.projects createContext].
  by rewrite Himplicit.
Qed.

Lemma phase_errors_reach_the_caller_witness :
  built
    (buildProjectGraphUsingProjectFileMap
       (Examples.env (Thrown (WorkspaceValidityError "duplicate project name"))
          Examples.nodePerProject [] [0])
       Examples.projectRootMap0 [] Examples.currentFileMap [] () None
       [Examples.failingMetadata] Examples.sourceMapAB)
  = Thrown
      (AggregateProjectGraphError
         [WorkspaceValidityError "duplicate project name";
          CreateMetadataError (GenericError "createMetadata failed")
            "broken-metadata"]
         Examples.graphAB).
Proof.
  apply (phase_errors_reach_the_caller
           (Examples.env
              (Thrown (WorkspaceValidityError "duplicate project name"))
              Examples.nodePerProject [] [0])
           Examples.projectRootMap0 [] Examples.currentFileMap [] () None
           [Examples.failingMetadata] Examples.sourceMapAB
           ∅ Examples.graphAB
           [CreateMetadataError (GenericError "createMetadata failed")
              "broken-metadata"]
           Examples.graphAB Examples.graphAB);
    reflexivity.
Defined.

(** ** What the provider phases throw, and when a build resolves *)

Lemma omap_nil_inv {A B} (f : A → option B) (xs : list A) :
  omap f xs = [] → ∀ x, x ∈ xs → f x = None.
Proof.
  intros Hnil x Hx. destruct (f x) as [y|] eqn:Hfx; [|done].
  assert (y ∈ omap f xs) as Hy by (apply list_elem_of_omap; eauto).
  rewrite Hnil in Hy. by apply elem_of_nil in Hy.
Qed.

(** X19.  What [updateProjectGraphWithPlugins] collects is, in settlement
    order, one [ProcessDependenciesError] for every dependency provider that
    failed, followed by one [CreateMetadataError] for every [createMetadata]
    call that threw, and nothing else.  It returns the graph the metadata
    phase leaves exactly when no provider failed, and otherwise throws an
    [AggregateProjectGraphError] with all those errors and with that graph
    as the partial graph. *)
Theorem provider_phases_throw_only_their_errors
    env context initProjectGraph plugins
    (sourceMap : ConfigurationSourceMaps) :
  dependenciesSettle env
    ≡ₚ seq 0 (length (createDependencyPlugins plugins)) →
  metadataSettle env ≡ₚ seq 0 (length plugins) →
  let phase :=
    updateProjectGraphWithPlugins env context initProjectGraph plugins
      sourceMap in
  let graphWithDeps :=
    ProjectGraphBuilder.getUpdatedProjectGraph
      (awaitDependencies context initProjectGraph plugins
         (dependenciesSettle env)).1 in
  let applied :=
    applyProjectMetadata graphWithDeps plugins (metadataContext env context)
      sourceMap (metadataSettle env) in
  let dependencyErrors :=
    omap (λ plugin,
            ProcessDependenciesError (LoadedNxPlugin.name plugin)
            <$> dependencyFailure context initProjectGraph plugin)
         (settled (dependenciesSettle env) (createDependencyPlugins plugins)) in
  let metadataErrors :=
    omap (metadataFailure graphWithDeps (metadataContext env context))
         (settled (metadataSettle env) plugins) in
  outcome phase
  = match dependencyErrors ++ metadataErrors with
    | [] => Returned (appliedGraph applied)
    | errors => Thrown (AggregateProjectGraphError errors (appliedGraph applied))
    end
  ∧ Forall (λ e, isProcessDependenciesError e = true) dependencyErrors
  ∧ Forall (λ e, isCreateMetadataError e = true) metadataErrors
  ∧ ((∃ graph, outcome phase = Returned graph)
     ↔ (∀ p, p ∈ createDependencyPlugins plugins →
             dependencyFailure context initProjectGraph p = None)
       ∧ (∀ q, q ∈ plugins →
               metadataFailure graphWithDeps (metadataContext env context) q
               = None)).
Proof.
  intros Hdeps Hmeta phase graphWithDeps applied dependencyErrors
    metadataErrors.
  assert (outcome phase
          = match dependencyErrors ++ metadataErrors with
            | [] => Returned (appliedGraph applied)
            | errors =>
                Thrown (AggregateProjectGraphError errors
                          (appliedGraph applied))
            end) as Houtcome.
  { subst phase applied graphWithDeps dependencyErrors metadataErrors.
    unfold updateProjectGraphWithPlugins, awaitDependencies.
    destruct (foldl_settleDependencies context initProjectGraph
                (settled (dependenciesSettle env)
                   (createDependencyPlugins plugins))
                (ProjectGraphBuilder.create (Some initProjectGraph)) [])
      as (_ & Herrors & _); [done..|].
    destruct (foldl _ _ _) as [builder errors]. simpl in Herrors.
    fold (metadataContext env context). cbn [fst outcome].
    rewrite appliedErrors_settled, Herrors.
    by destruct (_ ++ _). }
  split_and!; [exact Houtcome| | |].
  - apply Forall_forall. intros e He.
    apply list_elem_of_omap in He as (plugin & _ & He).
    by destruct (dependencyFailure _ _ _); simplify_eq/=.
  - apply Forall_forall. intros e He.
    apply list_elem_of_omap in He as (plugin & _ & He).
    unfold metadataFailure in He.
    by repeat case_match; simplify_eq/=.
  - rewrite Houtcome. split.
    + intros [graph Hgraph].
      destruct (dependencyErrors ++ metadataErrors) eqn:Hnone; [|done].
      apply app_eq_nil in Hnone as [Hd Hm]. split.
      * intros p Hp.
        assert (p ∈ settled (dependenciesSettle env)
                      (createDependencyPlugins plugins)) as Hs
          by (by rewrite settled_Permutation).
        pose proof (omap_nil_inv _ _ Hd p Hs) as Hnone. cbv beta in Hnone.
        by destruct (dependencyFailure _ _ _).
      * intros q Hq. apply (omap_nil_inv _ _ Hm).
        by rewrite settled_Permutation.
    + intros [Hd Hm].
      assert (dependencyErrors = []) as ->.
      { apply omap_all_None. intros p Hp%elem_of_settled.
        by rewrite Hd. }
      assert (metadataErrors = []) as ->.
      { apply omap_all_None. intros q Hq%elem_of_settled. by apply Hm. }
      by eexists.
Qed.

Lemma provider_phases_throw_only_their_errors_witness :
  outcome
    (updateProjectGraphWithPlugins
       (Examples.env (Returned ()) Examples.nodePerProject [0] [1; 0])
       Examples.contextAB Examples.graphAB
       [Examples.failingDependencies; Examples.failingMetadata]
       Examples.sourceMapAB)
  = Thrown
      (AggregateProjectGraphError
         [ProcessDependenciesError "broken-deps"
            (GenericError "createDependencies failed");
          CreateMetadataError (GenericError "createMetadata failed")
            "broken-metadata"]
         Examples.graphAB).
Proof.
  destruct (provider_phases_throw_only_their_errors
              (Examples.env (Returned ()) Examples.nodePerProject [0] [1; 0])
              Examples.contextAB Examples.graphAB
              [Examples.failingDependencies; Examples.failingMetadata]
              Examples.sourceMapAB)
    as (Houtcome & _); [done|apply perm_swap|].
  rewrite Houtcome. reflexivity.
Defined.

(** X20.  A build resolves exactly when nothing failed: the validity check
    recorded no error, the manifests were read, the nodes were normalized,
    the provider phases returned a graph and the implicit dependencies
    could be applied to it.  It then resolves with that graph and with the
    cache made from the configuration, the combined manifest, the root
    compiler configuration and the file map as the build leaves it, cached
    dependency lists copied onto its files. *)
Theorem build_resolves_iff_nothing_failed {Rust}
    env projectRootMap externalNodes fileMap allWorkspaceFiles
    (rustReferences : Rust) fileMapCache plugins
    (sourceMap : ConfigurationSourceMaps) projectGraph projectFileMapCache :
  let projects := projectsByName projectRootMap in
  let nxJson := readNxJson env in
  built
    (buildProjectGraphUsingProjectFileMap env projectRootMap externalNodes
       fileMap allWorkspaceFiles rustReferences fileMapCache plugins
       sourceMap)
  = Returned (projectGraph, projectFileMapCache)
  ↔ validityErrors env projects nxJson = []
    ∧ ∃ packageJsonDeps builder updatedGraph finalBuilder,
        let chosen :=
          chooseFilesToProcess fileMapCache packageJsonDeps projects nxJson
            (readRootTsConfig env) fileMap in
        let ctx :=
          createContext env projects nxJson externalNodes fileMap chosen.1 in
        readCombinedDeps env = Returned packageJsonDeps
        ∧ (b ← addExternalNodes
                 (ProjectGraphBuilder.setVersion "6.0"
                    (ProjectGraphBuilder.create None))
                 externalNodes;
           normalizeProjectNodes env ctx b) = Returned builder
        ∧ outcome
            (updateProjectGraphWithPlugins env ctx
               (ProjectGraphBuilder.getUpdatedProjectGraph builder) plugins
               sourceMap)
          = Returned updatedGraph
        ∧ applyImplicitDependencies env projects
            (ProjectGraphBuilder.create (Some updatedGraph))
          = Returned finalBuilder
        ∧ projectGraph
          = ProjectGraphBuilder.getUpdatedProjectGraph finalBuilder
        ∧ projectFileMapCache
          = NxDepsCache.createProjectFileMapCache nxJson packageJsonDeps
              (copyCachedDeps chosen.2 fileMap) (readRootTsConfig env).
Proof.
  intros projects nxJson.
  unfold buildProjectGraphUsingProjectFileMap.
  fold projects. fold nxJson.
  split.
  - destruct (readCombinedDeps env) as [packageJsonDeps|e]; [|done].
    destruct (chooseFilesToProcess _ _ _ _ _ _)
      as [filesToProcess cachedFileData] eqn:Hchoose.
    cbn [built]. unfold buildProjectGraphUsingContext.
    destruct (_ ≫= _) as [builder|e] eqn:Hnodes; [|by destruct e].
    destruct (outcome _) as [updatedGraph|e] eqn:Hphases.
    2:{ destruct e; cbn; try done.
        cbn [CreateDependenciesContext.projects createContext].
        by destruct (applyImplicitDependencies _ _ _) as [?|[]]. }
    cbn [assembled assembledFileMap CreateDependenciesContext.projects
         CreateDependenciesContext.fileMap createContext].
    destruct (applyImplicitDependencies _ _ _) as [finalBuilder|e]
      eqn:Himplicit; [|by destruct e].
    cbn. destruct (validityErrors _ _ _) as [|v vs]; [|done].
    cbn. intros [= <- <-]. split; [done|].
    exists packageJsonDeps, builder, updatedGraph, finalBuilder.
    rewrite Hchoose. cbn [fst snd]. done.
  - intros (Hvalid & packageJsonDeps & builder & updatedGraph & finalBuilder
            & Hdeps & Hnodes & Hphases & Himplicit & -> & ->).
    rewrite Hdeps, Hvalid.
    destruct (chooseFilesToProcess _ _ _ _ _ _)
      as [filesToProcess cachedFileData].
    cbn [fst snd] in *. cbn [built].
    unfold buildProjectGraphUsingContext.
    rewrite Hnodes, Hphases.
    cbn [assembled assembledFileMap CreateDependenciesContext.projects
         CreateDependenciesContext.fileMap createContext].
    by rewrite Himplicit.
Qed.

Lemma build_resolves_iff_nothing_failed_witness :
  validityErrors
    (Examples.env (Returned ()) Examples.nodePerProject [0] [])
    (projectsByName Examples.projectRootMap0)
    (readNxJson (Examples.env (Returned ()) Examples.nodePerProject [0] []))
  = [].
Proof.
  eapply proj1,
    (build_resolves_iff_nothing_failed
       (Examples.env (Returned ()) Examples.nodePerProject [0] [])
       Examples.projectRootMap0 [] Examples.currentFileMap [] () None
       [Examples.linksAB] Examples.sourceMapAB).
  reflexivity.
Defined.

End BuildMore.
